(** * Sentiment analysis pipelines: scraping, flattening, deduplication,
      derived columns and sentiment fallbacks

    A shallow embedding of the data-shaping code of [scraper.py] and of the
    three sentiment analyzers, with the properties the specification states
    about them.

    Conventions of the embedding.
    - A Python [dict] with string keys is a [gmap string pyval]; [d.get(k, v)]
      is [dict_get d k v]; [{**a, **b}] is [dict_merge a b].
    - A cell holds [None], an integer or a string: the scalars the actor
      datasets carry in the id, text and count fields these pipelines read.
    - A Python [str] is a [string]; its characters are the code points
      U+0000..U+00FF, and [is_space] is [str.isspace] on that range.
    - A DataFrame is the list of its rows in index order.
    - The hosted actors and the classifier are outside the repository: the
      service is a [world] giving the outcome of each call made on it, the
      classifier is a function that may raise. *)

From Stdlib Require Import QArith.
From Stdlib Require Ascii.
From stdpp Require Import gmap strings list fin_maps pretty.

Local Open Scope string_scope.
Local Open Scope list_scope.

(** ** Python values *)

Inductive pyval : Type :=
  | PNone
  | PInt (z : Z)
  | PStr (s : string).

#[global] Instance pyval_eq_dec : EqDecision pyval.
Proof. solve_decision. Defined.

(** [bool(v)]: [None], [0] and the empty string are false. *)
Definition truthy (v : pyval) : bool :=
  match v with
  | PNone => false
  | PInt z => negb (z =? 0)%Z
  | PStr s => negb (String.eqb s "")
  end.

(** [str(v)]. *)
Definition py_str (v : pyval) : string :=
  match v with
  | PNone => "None"
  | PInt z => pretty z
  | PStr s => s
  end.

(** [a or b]. *)
Definition py_or (a b : pyval) : pyval := if truthy a then a else b.

(** [d.get(k, dflt)]. *)
Definition dict_get (d : gmap string pyval) (k : string) (dflt : pyval) : pyval :=
  default dflt (d !! k).

(** [d.get(k)]. *)
Definition dict_get_none (d : gmap string pyval) (k : string) : pyval :=
  dict_get d k PNone.

(** [{**a, **b}]: the keys of [b] win. *)
Definition dict_merge (a b : gmap string pyval) : gmap string pyval := b ∪ a.

(** A dict literal, later entries overriding earlier ones. *)
Definition dict_of (l : list (string * pyval)) : gmap string pyval :=
  foldl (fun d kv => <[kv.1 := kv.2]> d) ∅ l.

(** A Python dict whose order matters, as the list of its items in
    insertion order. *)
Definition odict (V : Type) : Type := list (pyval * V).

(** [d[k] = v]: a key already there keeps its place. *)
Fixpoint odict_set {V : Type} (k : pyval) (v : V) (d : odict V) : odict V :=
  match d with
  | [] => [(k, v)]
  | (k', v') :: d' =>
      if bool_decide (k' = k) then (k, v) :: d'
      else (k', v') :: odict_set k v d'
  end.

(** [d.get(k)]. *)
Fixpoint odict_get {V : Type} (k : pyval) (d : odict V) : option V :=
  match d with
  | [] => None
  | (k', v') :: d' => if bool_decide (k' = k) then Some v' else odict_get k d'
  end.

(** ** Text primitives *)

Module Text.

(** [str.isspace] on U+0000..U+00FF: TAB..CR, FS..US, SPACE, NEL, NBSP. *)
Definition is_space (c : Ascii.ascii) : bool :=
  let n := Ascii.N_of_ascii c in
  ((9 <=? n) && (n <=? 13) || (28 <=? n) && (n <=? 32)
   || (n =? 133) || (n =? 160))%N.

Definition NUL : Ascii.ascii := Ascii.zero.
Definition SP : Ascii.ascii := Ascii.ascii_of_nat 32.
Definition SLASH : Ascii.ascii := Ascii.ascii_of_nat 47.

Definition is_nul (c : Ascii.ascii) : bool := Ascii.eqb c NUL.

(** The one-character string ["\x00"]. *)
Definition NULs : string := String NUL "".

(** All characters of [s] are whitespace: [s.strip() == ""]. *)
Fixpoint blank (s : string) : bool :=
  match s with
  | "" => true
  | String c s' => is_space c && blank s'
  end.

(** [s.split()]: the maximal runs of non-whitespace characters. [cur] is
    the word being read. *)
Fixpoint split_from (cur : string) (s : string) : list string :=
  match s with
  | "" => if String.eqb cur "" then [] else [cur]
  | String c s' =>
      if is_space c
      then (if String.eqb cur "" then split_from "" s'
            else cur :: split_from "" s')
      else split_from (cur +:+ String c "") s'
  end.

Definition split (s : string) : list string := split_from "" s.

(** [sep.join(l)]. *)
Fixpoint join (sep : string) (l : list string) : string :=
  match l with
  | [] => ""
  | [w] => w
  | w :: l' => w +:+ sep +:+ join sep l'
  end.

(** [old] is a prefix of [s]. *)
Fixpoint starts_with (old s : string) : bool :=
  match old, s with
  | "", _ => true
  | String a old', String b s' => Ascii.eqb a b && starts_with old' s'
  | String _ _, "" => false
  end.

(** [s.replace(old, new)] for a non-empty [old], scanning left to right;
    [skip] counts the characters of a match still to be dropped. *)
Fixpoint replace_from (skip : nat) (old new s : string) : string :=
  match s with
  | "" => ""
  | String c s' =>
      match skip with
      | S k => replace_from k old new s'
      | O =>
          if starts_with old s
          then new +:+ replace_from (String.length old - 1) old new s'
          else String c (replace_from O old new s')
      end
  end.

Definition replace (old new s : string) : string := replace_from O old new s.

(** [sub in s]. *)
Fixpoint contains (sub s : string) : bool :=
  starts_with sub s
  || match s with
     | "" => false
     | String _ s' => contains sub s'
     end.

(** Removal of every NUL character. *)
Fixpoint remove_nul (s : string) : string :=
  match s with
  | "" => ""
  | String c s' => if is_nul c then remove_nul s' else String c (remove_nul s')
  end.

(** [re.sub(r"\s+", " ", s)]: every maximal run of whitespace becomes one
    space. [in_run] says that the previous character was whitespace. *)
Fixpoint collapse_from (in_run : bool) (s : string) : string :=
  match s with
  | "" => ""
  | String c s' =>
      if is_space c
      then (if in_run then collapse_from true s'
            else String SP (collapse_from true s'))
      else String c (collapse_from false s')
  end.

Definition collapse (s : string) : string := collapse_from false s.

(** [s] has no NUL character. *)
Fixpoint nul_free (s : string) : bool :=
  match s with
  | "" => true
  | String c s' => negb (is_nul c) && nul_free s'
  end.

(** Every whitespace character of [s] is a space that follows a
    non-whitespace character; [in_run] says that the character before [s]
    was whitespace. *)
Fixpoint collapsed_from (in_run : bool) (s : string) : bool :=
  match s with
  | "" => true
  | String c s' =>
      if is_space c
      then negb in_run && Ascii.eqb c SP && collapsed_from true s'
      else collapsed_from false s'
  end.


(** [s.lstrip()]. *)
Fixpoint lstrip (s : string) : string :=
  match s with
  | "" => ""
  | String c s' => if is_space c then lstrip s' else s
  end.

(** [s.rstrip()]. *)
Fixpoint rstrip (s : string) : string :=
  match s with
  | "" => ""
  | String c s' =>
      let r := rstrip s' in
      if is_space c && String.eqb r "" then "" else String c r
  end.

(** [s.strip()]. *)
Definition strip (s : string) : string := lstrip (rstrip s).

(** [s.split(sep)] for a separator of one character; [cur] is the piece
    being read. *)
Fixpoint split_on_from (sep : Ascii.ascii) (cur s : string) : list string :=
  match s with
  | "" => [cur]
  | String c s' =>
      if Ascii.eqb c sep then cur :: split_on_from sep "" s'
      else split_on_from sep (cur +:+ String c "") s'
  end.

Definition split_on (sep : Ascii.ascii) (s : string) : list string :=
  split_on_from sep "" s.

(** [s.rstrip(chars)] for one character. *)
Fixpoint rstrip_char (ch : Ascii.ascii) (s : string) : string :=
  match s with
  | "" => ""
  | String c s' =>
      let r := rstrip_char ch s' in
      if Ascii.eqb c ch && String.eqb r "" then "" else String c r
  end.

Definition TAB : Ascii.ascii := Ascii.ascii_of_nat 9.
Definition HASH : Ascii.ascii := Ascii.ascii_of_nat 35.

(** [s.lstrip(chars)] for one character. *)
Fixpoint lstrip_char (ch : Ascii.ascii) (s : string) : string :=
  match s with
  | "" => ""
  | String c s' => if Ascii.eqb c ch then lstrip_char ch s' else s
  end.

(** [s[:n]]. *)
Fixpoint take (n : nat) (s : string) : string :=
  match n, s with
  | S k, String c s' => String c (take k s')
  | _, _ => ""
  end.

End Text.


(** ** DataFrames *)

(** A row of a DataFrame: the object and integer cells by column name, and
    the cells of the float columns ([sentiment_ratio], the classifier's
    scores), kept as exact rationals. *)
Record frame_row : Type := FrameRow {
  cells : gmap string pyval;
  floats : gmap string Q
}.

Definition of_cells (r : gmap string pyval) : frame_row :=
  {| cells := r; floats := ∅ |}.

(** [col in df.columns] for a frame built from dict rows: some row has
    the key. *)
Definition has_column (df : list (gmap string pyval)) (col : string) : bool :=
  existsb (fun r => bool_decide (is_Some (r !! col))) df.

(** The key of a row under [drop_duplicates(subset=...)]: the cells of the
    subset columns, a missing cell being NA like [None]. *)
Definition key_of (subset : list string) (r : gmap string pyval) : list pyval :=
  map (dict_get_none r) subset.

(** [df.drop_duplicates(subset=..., keep="first")]: rows are visited in
    index order and a row is dropped when its key has been seen. *)
Fixpoint drop_duplicates_from (seen : list (list pyval)) (subset : list string)
    (df : list (gmap string pyval)) : list (gmap string pyval) :=
  match df with
  | [] => []
  | r :: df' =>
      if bool_decide (key_of subset r ∈ seen)
      then drop_duplicates_from seen subset df'
      else r :: drop_duplicates_from (key_of subset r :: seen) subset df'
  end.

Definition drop_duplicates (subset : list string)
    (df : list (gmap string pyval)) : list (gmap string pyval) :=
  drop_duplicates_from [] subset df.

(** The first row of [df] whose key is [k]. *)
Definition first_with_key (subset : list string) (k : list pyval)
    (df : list (gmap string pyval)) : option (gmap string pyval) :=
  List.find (fun r => bool_decide (key_of subset r = k)) df.

(** [.astype(str)] on one cell: a cell the row has no key for is NaN. *)
Definition astype_str (v : option pyval) : string :=
  match v with
  | None => "nan"
  | Some v => py_str v
  end.

(** [.fillna("").astype(str)] on one cell. *)
Definition fillna_str (v : option pyval) : string :=
  match v with
  | None | Some PNone => ""
  | Some v => py_str v
  end.

(** [l[:k]] for a Python integer [k]. *)
Definition slice_to {A : Type} (k : Z) (l : list A) : list A :=
  if (0 <=? k)%Z then take (Z.to_nat k) l
  else take (Z.to_nat (Z.of_nat (length l) + k)) l.

(** ** The sentiment classifier *)

(** One result of the [transformers] pipeline: a label and a score. *)
Record sentiment : Type := Sentiment {
  label : string;
  score : Q
}.

(** [{"label": "NEUTRAL", "score": 0.0}]. *)
Definition NEUTRAL : sentiment := {| label := "NEUTRAL"; score := 0%Q |}.

(** The classifier call [self.analyzer(text, truncation=True)[0]]: the
    pretrained model is outside the repository, so it is any function from
    the truncated text to a result, [None] when the call raises. *)
Definition classifier : Type := string -> option sentiment.

(** [df[lab] = [s["label"] ...]] and [df[sc] = [s["score"] ...]] on one
    row. *)
Definition set_sentiment (lab sc : string) (r : frame_row) (s : sentiment)
    : frame_row :=
  {| cells := <[lab := PStr (label s)]> (cells r);
     floats := <[sc := score s]> (floats r) |}.

(** ** The fallback the specification states *)

(** A text the analyzers must not classify: whitespace-only (so also
    empty) or the string ["nan"]. *)
Definition spec_skipped (text : string) : bool :=
  Text.blank text || String.eqb text "nan".

(** A value the batch analyzers must not classify: missing, or a skipped
    text once converted with [str]. *)
Definition spec_skipped_value (v : pyval) : bool :=
  bool_decide (v = PNone) || spec_skipped (py_str v).

(** The result the specification gives a text: NEUTRAL with score 0.0 when
    it is skipped or when the classifier raises, the classifier's result on
    its first 512 characters otherwise. *)
Definition spec_sentiment (clf : classifier) (text : string) : sentiment :=
  if spec_skipped text then NEUTRAL
  else default NEUTRAL (clf (Text.take 512 text)).

Definition spec_sentiment_value (clf : classifier) (v : pyval) : sentiment :=
  if spec_skipped_value v then NEUTRAL
  else default NEUTRAL (clf (Text.take 512 (py_str v))).

(** A row of the Facebook frame with the four sentiment columns the
    specification gives it. *)
Definition spec_analyzed_row (clf : classifier) (r : frame_row) : frame_row :=
  set_sentiment "comment_sentiment_label" "comment_sentiment_score"
    (set_sentiment "post_sentiment_label" "post_sentiment_score" r
       (spec_sentiment clf (fillna_str (cells r !! "post_message"))))
    (spec_sentiment clf (fillna_str (cells r !! "comment_text"))).

(** ** [sentiment_facebook.py] *)

Module SentimentAnalyzer.

(** The body of either loop of [analyze_posts_and_comments] for one text:
    the arguments passed to the classifier, and the result appended. *)
Definition analyze_one (clf : classifier) (text : string)
    : list string * sentiment :=
  if String.eqb (Text.strip text) "" || String.eqb text "nan"
  then ([], NEUTRAL)
  else
    let arg := Text.take 512 text in
    ([arg], match clf arg with
            | Some result => result
            | None => NEUTRAL
            end).

Definition analyze_loop (clf : classifier) (texts : list string)
    : list string * list sentiment :=
  foldl
    (fun acc text =>
       let '(calls, r) := analyze_one clf text in
       (fst acc ++ calls, snd acc ++ [r]))
    ([], []) texts.

(** The classifier calls made, and the frame returned. *)
Definition analyze_posts_and_comments (clf : classifier) (df : list frame_row)
    : list string * list frame_row :=
  match df with
  | [] => ([], df)
  | _ =>
      let post_texts := map (fun r => fillna_str (cells r !! "post_message")) df in
      let '(calls1, post_results) := analyze_loop clf post_texts in
      let df :=
        zip_with (set_sentiment "post_sentiment_label" "post_sentiment_score")
                 df post_results in
      let comment_texts := map (fun r => fillna_str (cells r !! "comment_text")) df in
      let '(calls2, comment_results) := analyze_loop clf comment_texts in
      let df :=
        zip_with (set_sentiment "comment_sentiment_label" "comment_sentiment_score")
                 df comment_results in
      (calls1 ++ calls2, df)
  end.

End SentimentAnalyzer.

(** ** [sentiment_insta.py] *)

Module InstagramSentimentAnalyzer.

Definition analyze_one (clf : classifier) (text : pyval)
    : list string * sentiment :=
  if bool_decide (text = PNone)
     || String.eqb (Text.strip (py_str text)) ""
     || String.eqb (py_str text) "nan"
  then ([], NEUTRAL)
  else
    let arg := Text.take 512 (py_str text) in
    ([arg], match clf arg with
            | Some result => result
            | None => NEUTRAL
            end).

Definition analyze_text_batch (clf : classifier) (texts : list pyval)
    : list string * list sentiment :=
  foldl
    (fun acc text =>
       let '(calls, r) := analyze_one clf text in
       (fst acc ++ calls, snd acc ++ [r]))
    ([], []) texts.

(** [_detect_scraping_mode(df)] on a frame built from dict rows: the cell
    of the first row under ["source_type"] when the frame has the column
    ([None] for a missing cell), a mode read off the columns otherwise. *)
Definition _detect_scraping_mode (df : list (gmap string pyval))
    : option pyval :=
  if has_column df "source_type"
  then match df with
       | r :: _ => r !! "source_type"
       | [] => Some (PStr "unknown")
       end
  else if has_column df "comment_text" && has_column df "profile_username"
  then Some (PStr "profile")
  else if has_column df "all_comments_text"
          && has_column df "comments_scraped_count"
  then Some (PStr "keyword")
  else if has_column df "comment_text" && has_column df "comment_id"
  then Some (PStr "post_url")
  else Some (PStr "unknown").

(** One of the three blocks of [analyze_instagram_data]: the sentiment of
    the column [col] into the columns [lab] and [sc], NEUTRAL and 0.0 in
    every row when the frame has no such column. *)
Definition analyze_column (clf : classifier) (col lab sc : string)
    (df : list frame_row) : list frame_row :=
  if has_column (map cells df) col
  then
    let texts := map (fun r => PStr (fillna_str (cells r !! col))) df in
    let results := snd (analyze_text_batch clf texts) in
    zip_with (set_sentiment lab sc) df results
  else map (fun r => set_sentiment lab sc r NEUTRAL) df.

(** [analyze_instagram_data(df)] on a frame built from dict rows. *)
Definition analyze_instagram_data (clf : classifier)
    (df : list (gmap string pyval)) : list frame_row :=
  match df with
  | [] => []
  | _ =>
      let scraping_mode := _detect_scraping_mode df in
      let df :=
        analyze_column clf "post_caption" "caption_sentiment_label"
          "caption_sentiment_score" (map of_cells df) in
      if bool_decide (scraping_mode = Some (PStr "profile"))
         || bool_decide (scraping_mode = Some (PStr "post_url"))
      then analyze_column clf "comment_text" "comment_sentiment_label"
             "comment_sentiment_score" df
      else if bool_decide (scraping_mode = Some (PStr "keyword"))
      then analyze_column clf "all_comments_text" "comments_sentiment_label"
             "comments_sentiment_score" df
      else df
  end.

End InstagramSentimentAnalyzer.

(** ** [sentiment_twitter.py] *)

Module TwitterSentimentAnalyzer.

Definition analyze_one (clf : classifier) (text : pyval)
    : list string * sentiment :=
  if bool_decide (text = PNone)
     || String.eqb (Text.strip (py_str text)) ""
     || String.eqb (py_str text) "nan"
  then ([], NEUTRAL)
  else
    let arg := Text.take 512 (py_str text) in
    ([arg], match clf arg with
            | Some result => result
            | None => NEUTRAL
            end).

Definition analyze_text_batch (clf : classifier) (texts : list pyval)
    : list string * list sentiment :=
  foldl
    (fun acc text =>
       let '(calls, r) := analyze_one clf text in
       (fst acc ++ calls, snd acc ++ [r]))
    ([], []) texts.

End TwitterSentimentAnalyzer.

(** ** The hosted actors *)

(** What [self.client.actor(id).call(run_input=...)] does: it raises, or
    returns the run, which is [None] or a dict. *)
Inductive call_result : Type :=
  | CallRaises
  | CallReturns (run : option (gmap string pyval)).

(** One attempt on the service: the outcome of the call, and what
    iterating the run's dataset yields ([None] when it raises). *)
Record attempt (I : Type) : Type := Attempt {
  call : call_result;
  iterate_items : option (list I)
}.
Arguments Attempt {I} _ _.
Arguments call {I} _.
Arguments iterate_items {I} _.

(** The service as the helpers see it: the outcome of the n-th call made
    on it. A helper is run from a call count and returns the new one. *)
Definition world (I : Type) : Type := nat -> attempt I.

(** How a function ends: it returns, or an exception leaves it. *)
Inductive result (A : Type) : Type :=
  | Returned (a : A)
  | Propagated (exn : string).
Arguments Returned {A} _.
Arguments Propagated {A} _.

(** [not run] for the value [.call] returned. *)
Definition run_falsy (run : option (gmap string pyval)) : bool :=
  match run with
  | None => true
  | Some d => bool_decide (d = ∅)
  end.

(** ** Facebook pipeline ([FacebookScraperPipeline]) *)

Module Facebook.

(** A scraped post: its scalar fields and the list under ["comments"]. An
    absent ["comments"] key and an empty list take the same branch of
    [if post.get("comments")]. *)
Record post : Type := Post {
  post_fields : gmap string pyval;
  post_comments : list (gmap string pyval)
}.

Definition flag (v : pyval) : pyval := if truthy v then PInt 1 else PInt 0.

Definition _flatten_post (p : post) : gmap string pyval :=
  let f := post_fields p in
  dict_of
    [ ("post_id", dict_get f "post_id" (PStr ""));
      ("post_url", dict_get f "url" (PStr ""));
      ("post_type", dict_get f "type" (PStr ""));
      ("post_message", dict_get f "message" (PStr ""));
      ("post_timestamp", dict_get f "timestamp" (PStr ""));
      ("post_author_id", dict_get f "author_id" (PStr ""));
      ("post_author_name", dict_get f "author_name" (PStr ""));
      ("post_author_url", dict_get f "author_url" (PStr ""));
      ("emoji_like", dict_get f "emoji_like" (PInt 0));
      ("emoji_love", dict_get f "emoji_love" (PInt 0));
      ("emoji_haha", dict_get f "emoji_haha" (PInt 0));
      ("emoji_wow", dict_get f "emoji_wow" (PInt 0));
      ("emoji_sad", dict_get f "emoji_sad" (PInt 0));
      ("emoji_angry", dict_get f "emoji_angry" (PInt 0));
      ("emoji_care", dict_get f "emoji_care" (PInt 0));
      ("post_total_reactions", dict_get f "total_reactions" (PInt 0));
      ("post_total_comments", dict_get f "total_comments" (PInt 0));
      ("post_total_shares", dict_get f "total_shares" (PInt 0));
      ("post_has_image", flag (dict_get_none f "image_url"));
      ("post_has_video", flag (dict_get_none f "video_url"));
      ("post_has_link", flag (dict_get_none f "external_url")) ].

Definition _flatten_comment (c : gmap string pyval) : gmap string pyval :=
  dict_of
    [ ("comment_id", dict_get c "comment_id" (PStr ""));
      ("comment_text", dict_get c "text" (PStr ""));
      ("comment_timestamp", dict_get c "timestamp" (PStr ""));
      ("comment_author_id", dict_get c "author_id" (PStr ""));
      ("comment_author_name", dict_get c "author_name" (PStr ""));
      ("comment_author_url", dict_get c "author_url" (PStr ""));
      ("comment_reactions", dict_get c "reactions_count" (PInt 0));
      ("comment_replies", dict_get c "replies_count" (PInt 0)) ].

Definition _empty_comment : gmap string pyval :=
  dict_of
    [ ("comment_id", PStr "");
      ("comment_text", PStr "");
      ("comment_timestamp", PStr "");
      ("comment_author_id", PStr "");
      ("comment_author_name", PStr "");
      ("comment_author_url", PStr "");
      ("comment_reactions", PInt 0);
      ("comment_replies", PInt 0) ].

(** [" ".join(str(v).split()).replace("\x00", "")]. *)
Definition clean_text (v : pyval) : string :=
  Text.replace Text.NULs "" (Text.join " " (Text.split (py_str v))).

(** The body of the loop of [_clean_row] for one field. *)
Definition clean_field (row : gmap string pyval) (field : string)
    : gmap string pyval :=
  match row !! field with
  | Some v => if truthy v then <[field := PStr (clean_text v)]> row else row
  | None => row
  end.

Definition _clean_row (row : gmap string pyval) : gmap string pyval :=
  foldl clean_field row ["post_message"; "comment_text"].

(** The chain [.fillna("").astype(str).str.replace("\x00", "", regex=False)
    .str.replace(r"\s+", " ", regex=True).str.strip()] on one cell; a cell
    the row has no key for is NA. *)
Definition clean_cell (v : option pyval) : pyval :=
  PStr (Text.strip (Text.collapse (Text.replace Text.NULs "" (fillna_str v)))).

Definition clean_column (df : list (gmap string pyval)) (col : string)
    : list (gmap string pyval) :=
  if has_column df col
  then map (fun r => <[col := clean_cell (r !! col)]> r) df
  else df.

Definition text_cols : list string :=
  ["post_message"; "comment_text"; "post_author_name"; "comment_author_name"].

Definition _clean_dataframe (df : list (gmap string pyval))
    : list (gmap string pyval) :=
  foldl clean_column df text_cols.

(** *** A row whose post message has a NUL between two spaces *)

Definition nul_between_spaces : string := "a " +:+ Text.NULs +:+ " b".

Definition row_with_nul : gmap string pyval :=
  dict_of [ ("post_id", PStr "p1");
            ("post_message", PStr nul_between_spaces);
            ("comment_id", PStr "c1");
            ("comment_text", PStr "fine") ].

(** The cells [_clean_dataframe] rewrites in a row when [cols] are the
    text columns the frame has. *)
Definition clean_cols (cols : list string) (r : gmap string pyval)
    : gmap string pyval :=
  foldl (fun r col => <[col := clean_cell (r !! col)]> r) r cols.

(** The row loop shared by [_save_raw_data] and [_process_and_save_final]:
    [finish] is what happens to a row before it is appended. *)
Definition rows_loop (finish : gmap string pyval -> gmap string pyval)
    (data : list post) : list (gmap string pyval) :=
  foldl
    (fun rows p =>
       match post_comments p with
       | [] => rows ++ [finish (dict_merge (_flatten_post p) _empty_comment)]
       | comments =>
           foldl
             (fun rows c =>
                rows ++ [finish (dict_merge (_flatten_post p) (_flatten_comment c))])
             rows comments
       end)
    [] data.

(** The rows of one post: one per comment, or one with the empty-comment
    defaults. *)
Definition rows_of_post (finish : gmap string pyval -> gmap string pyval)
    (p : post) : list (gmap string pyval) :=
  match post_comments p with
  | [] => [finish (dict_merge (_flatten_post p) _empty_comment)]
  | comments =>
      map (fun c => finish (dict_merge (_flatten_post p) (_flatten_comment c)))
          comments
  end.

(** The rows written to the raw CSV by [_save_raw_data]. *)
Definition raw_rows (data : list post) : list (gmap string pyval) :=
  rows_loop id data.

(** The rows [_process_and_save_final] builds before the DataFrame. *)
Definition final_rows (data : list post) : list (gmap string pyval) :=
  rows_loop _clean_row data.

(** *** [_scrape_comments] and the comment loop of [scrape_from_url] *)

(** The dict appended to [comments] for one dataset item. *)
Definition comment_of_item (item : gmap string pyval) : gmap string pyval :=
  dict_of
    [ ("comment_id", dict_get item "id" (PStr ""));
      ("post_id", dict_get item "facebookId" (PStr ""));
      ("text", dict_get item "text" (PStr ""));
      ("timestamp", dict_get item "date" (PStr ""));
      ("author_id", dict_get item "profileUrl" (PStr ""));
      ("author_name", dict_get item "profileName" (PStr ""));
      ("author_url", dict_get item "profileUrl" (PStr ""));
      ("author_profile_picture", dict_get item "profilePicture" (PStr ""));
      ("reactions_count", dict_get item "likesCount" (PInt 0));
      ("replies_count", dict_get item "commentsCount" (PInt 0)) ].

(** [_scrape_comments(post_url, max_comments)] run from call count [n];
    [max_comments] only enters the run input. *)
Definition _scrape_comments (w : world (gmap string pyval)) (n : nat)
    (post_url : pyval) : result (list (gmap string pyval)) * nat :=
  if negb (truthy post_url) || String.eqb (Text.strip (py_str post_url)) ""
  then (Returned [], n)
  else
    match call (w n) with
    | CallRaises => (Returned [], S n)
    | CallReturns run =>
        if run_falsy run
           || negb (bool_decide (is_Some (default ∅ run !! "defaultDatasetId")))
        then (Returned [], S n)
        else
          match iterate_items (w n) with
          | None => (Returned [], S n)
          | Some items => (Returned (map comment_of_item items), S n)
          end
    end.

(** The loop [for post in posts: comments = self._scrape_comments(...);
    post["comments"] = comments; complete_data.append(post)]; [None] when
    an exception leaves it. *)
Definition scrape_comments_loop (w : world (gmap string pyval))
    (posts : list post) (n : nat) : option (list post) * nat :=
  foldl
    (fun acc p =>
       match fst acc with
       | None => acc
       | Some complete_data =>
           match _scrape_comments w (snd acc)
                   (dict_get (post_fields p) "url" (PStr "")) with
           | (Returned comments, n') =>
               (Some (complete_data
                        ++ [{| post_fields := post_fields p;
                               post_comments := comments |}]), n')
           | (Propagated _, n') => (None, n')
           end
       end)
    (Some [], n) posts.

(** *** Derived columns *)

Definition emoji_cols : list string :=
  ["emoji_like"; "emoji_love"; "emoji_haha"; "emoji_wow"; "emoji_sad";
   "emoji_angry"; "emoji_care"].

Definition total_cols : list string :=
  ["post_total_reactions"; "post_total_comments"; "post_total_shares"].

(** The cell of an integer column. *)
Definition int_cell (r : gmap string pyval) (c : string) : Z :=
  match r !! c with
  | Some (PInt z) => z
  | _ => 0%Z
  end.

(** [a / b] on numbers: division by zero has no result. *)
Definition py_truediv (a b : Z) : option Q :=
  if (b =? 0)%Z then None
  else Some (Qmake (a * Z.sgn b) (Z.to_pos (Z.abs b))).

(** The lambda of [sentiment_ratio] on a row [x]: the denominators of the
    divisions it evaluates, and its result ([None] when a division has
    none). *)
Definition sentiment_ratio_lambda (x : gmap string pyval) : list Z * option Q :=
  if (0 <? int_cell x "post_total_reactions")%Z
  then ([int_cell x "post_total_reactions"],
        py_truediv (int_cell x "positive_reactions")
                   (int_cell x "post_total_reactions"))
  else ([], Some 0%Q).

(** [df[cols].idxmax(axis=1)] on a row: the first column holding the
    maximum. *)
Fixpoint idxmax_from (best : string) (cols : list string)
    (r : gmap string pyval) : string :=
  match cols with
  | [] => best
  | c :: cols' =>
      if (int_cell r best <? int_cell r c)%Z
      then idxmax_from c cols' r
      else idxmax_from best cols' r
  end.

Definition idxmax (cols : list string) (r : gmap string pyval) : string :=
  match cols with
  | [] => ""
  | c :: cols' => idxmax_from c cols' r
  end.

Section Derived.

(** What [pd.to_numeric] makes of a string cell: its number, or [None]
    when pandas cannot parse it (coerced to NaN). Counts are integers. *)
Variable to_numeric_str : string -> option Z.

(** [pd.to_numeric(cell, errors="coerce")] followed by [.fillna(0)], and
    for the emoji columns [.astype(int)]. *)
Definition to_numeric_fill0 (v : option pyval) : Z :=
  match v with
  | Some (PInt z) => z
  | Some (PStr s) => default 0%Z (to_numeric_str s)
  | Some PNone | None => 0%Z
  end.

(** One round of either coercion loop. *)
Definition coerce_column (df : list (gmap string pyval)) (c : string)
    : list (gmap string pyval) :=
  if negb (has_column df c)
  then map (fun r => <[c := PInt 0]> r) df
  else map (fun r => <[c := PInt (to_numeric_fill0 (r !! c))]> r) df.

(** The column assignments after the coercion loops, up to
    [negative_reactions], on one row; column arithmetic is element-wise,
    so each row is computed from its own cells. *)
Definition derive_cells (r : gmap string pyval) : gmap string pyval :=
  let r := <["post_message_length" :=
             PInt (Z.of_nat (String.length (astype_str (r !! "post_message"))))]> r in
  let r := <["comment_text_length" :=
             PInt (Z.of_nat (String.length (astype_str (r !! "comment_text"))))]> r in
  let r := <["post_engagement_total" :=
             PInt (int_cell r "post_total_reactions"
                   + int_cell r "post_total_comments"
                   + int_cell r "post_total_shares")%Z]> r in
  let r := <["dominant_emotion" :=
             PStr (Text.replace "emoji_" "" (idxmax emoji_cols r))]> r in
  let r := <["positive_reactions" :=
             PInt (int_cell r "emoji_like" + int_cell r "emoji_love"
                   + int_cell r "emoji_haha" + int_cell r "emoji_wow"
                   + int_cell r "emoji_care")%Z]> r in
  <["negative_reactions" :=
    PInt (int_cell r "emoji_sad" + int_cell r "emoji_angry")%Z]> r.

(** The row with its [sentiment_ratio], [None] when the lambda raises. *)
Definition derive_row (r : gmap string pyval) : option frame_row :=
  let r := derive_cells r in
  match snd (sentiment_ratio_lambda r) with
  | Some q => Some {| cells := r; floats := {["sentiment_ratio" := q]} |}
  | None => None
  end.

(** [_add_derived_columns]; [None] when the row-wise [apply] raises. *)
Definition _add_derived_columns (df : list (gmap string pyval))
    : option (list frame_row) :=
  let df := foldl coerce_column df emoji_cols in
  let df := foldl coerce_column df total_cols in
  mapM derive_row df.

End Derived.


(** The value the specification gives [sentiment_ratio] on a row. *)
Definition guarded_ratio (r : gmap string pyval) : Q :=
  if (0 <? int_cell r "post_total_reactions")%Z
  then Qmake (int_cell r "positive_reactions")
             (Z.to_pos (int_cell r "post_total_reactions"))
  else 0%Q.

(** The columns assigned to the frame after the deduplication, by
    [_add_derived_columns] and by the sentiment step. *)
Definition assigned_cols : list string :=
  emoji_cols ++ total_cols
  ++ ["post_message_length"; "comment_text_length"; "post_engagement_total";
      "dominant_emotion"; "positive_reactions"; "negative_reactions";
      "post_sentiment_label"; "comment_sentiment_label"].

(** *** A scrape in which the comments actor returned a comment twice *)

Definition comment_c1 : gmap string pyval :=
  dict_of [("comment_id", PStr "c1"); ("text", PStr "  first   comment ")].

Definition comment_c1_again : gmap string pyval :=
  dict_of [("comment_id", PStr "c1"); ("text", PStr "first comment, again")].

Definition comment_c2 : gmap string pyval :=
  dict_of [("comment_id", PStr "c2"); ("text", PStr "second")].

Definition post_p1 : post :=
  {| post_fields :=
       dict_of [ ("post_id", PStr "p1");
                 ("message", PStr "hello   world");
                 ("emoji_like", PInt 3);
                 ("emoji_love", PInt 5);
                 ("emoji_sad", PInt 1);
                 ("total_reactions", PInt 9);
                 ("total_comments", PInt 3);
                 ("total_shares", PInt 2) ];
     post_comments := [comment_c1; comment_c1_again; comment_c2] |}.

Definition post_p2 : post :=
  {| post_fields := dict_of [("post_id", PStr "p2"); ("message", PStr "")];
     post_comments := [] |}.

Definition scraped_with_repeat : list post := [post_p1; post_p2].

(** *** [_process_and_save_final] *)

(** The DataFrame written to the final CSV, [None] when no file is
    written. [analyzer] is [None] when [SentimentAnalyzer()] raises: the
    frame is then written without sentiment columns. *)
Definition _process_and_save_final (to_numeric_str : string -> option Z)
    (analyzer : option classifier) (data : list post)
    : option (list frame_row) :=
  match final_rows data with
  | [] => None
  | rows =>
      let df := _clean_dataframe rows in
      let df := drop_duplicates ["post_id"; "comment_id"] df in
      match _add_derived_columns to_numeric_str df with
      | Some df =>
          Some match analyzer with
               | Some clf => snd (SentimentAnalyzer.analyze_posts_and_comments clf df)
               | None => df
               end
      | None => None
      end
  end.

(** *** [_normalize_group_url] *)

(** [url] is a str; [None] takes the branch of the empty string. *)
Definition _normalize_group_url (url : string) : option string :=
  if String.eqb url "" then None
  else
    let url := if negb (Text.starts_with "http" url)
               then "https://" +:+ url else url in
    if negb (Text.contains "facebook.com/groups/" url) then None
    else Some url.

(** *** [_scrape_posts_with_reactions] *)

(** A dataset item of the posts search actor: its scalar fields and the
    dicts [item.get("author", {})] and [item.get("reactions", {})]. *)
Record page_item : Type := PageItem {
  page_fields : gmap string pyval;
  author : gmap string pyval;
  reactions : gmap string pyval
}.

(** A dataset item of the groups actor: its scalar fields, the dict
    [item.get("postAuthor", {})] and the list under ["images"] (empty when
    the key is absent). *)
Record group_item : Type := GroupItem {
  group_fields : gmap string pyval;
  postAuthor : gmap string pyval;
  images : list pyval
}.

(** One call of a posts actor: the outcome of the call, and the items the
    loop over the run's dataset reads before the dataset ends or raises,
    each with the reading of [datetime.now().isoformat()] taken for it. *)
Record posts_attempt (I : Type) : Type := PostsAttempt {
  posts_call : call_result;
  posts_items : list (I * string)
}.
Arguments PostsAttempt {I} _ _.
Arguments posts_call {I} _.
Arguments posts_items {I} _.

(** The dict appended to [all_posts] for an item outside group mode. *)
Definition post_of_page_item (item : page_item) (now : string) : post :=
  let f := page_fields item in
  let reactions := reactions item in
  {| post_fields :=
       dict_of
         [ ("post_id", dict_get f "post_id" (PStr ""));
           ("url", dict_get f "url" (PStr ""));
           ("type", dict_get f "type" (PStr "post"));
           ("message", dict_get f "message" (PStr ""));
           ("timestamp", dict_get f "timestamp" (PStr ""));
           ("author_id", dict_get (author item) "id" (PStr ""));
           ("author_name", dict_get (author item) "name" (PStr ""));
           ("author_url", dict_get (author item) "url" (PStr ""));
           ("author_profile_picture",
             dict_get (author item) "profile_picture_url" (PStr ""));
           ("total_reactions", dict_get f "reactions_count" (PInt 0));
           ("total_comments", dict_get f "comments_count" (PInt 0));
           ("total_shares", dict_get f "reshare_count" (PInt 0));
           ("emoji_like", dict_get reactions "like" (PInt 0));
           ("emoji_love", dict_get reactions "love" (PInt 0));
           ("emoji_haha", dict_get reactions "haha" (PInt 0));
           ("emoji_wow", dict_get reactions "wow" (PInt 0));
           ("emoji_sad", dict_get reactions "sad" (PInt 0));
           ("emoji_angry", dict_get reactions "angry" (PInt 0));
           ("emoji_care", dict_get reactions "care" (PInt 0));
           ("image_url", dict_get f "image" (PStr ""));
           ("video_url", dict_get f "video" (PStr ""));
           ("video_thumbnail", dict_get f "video_thumbnail" (PStr ""));
           ("external_url", dict_get f "external_url" (PStr ""));
           ("scraped_at", PStr now) ];
     post_comments := [] |}.

(** The dict appended to [all_posts] for an item in group mode; [None]
    when building it raises, which [item.get("url", "").split("/")] does
    on a value that is no str. *)
Definition post_of_group_item (item : group_item) (now : string)
    : option post :=
  let f := group_fields item in
  match dict_get f "url" (PStr "") with
  | PStr u =>
      Some
        {| post_fields :=
             dict_of
               [ ("post_id",
                   dict_get f "postId"
                     (dict_get f "post_id"
                        (PStr (List.last (Text.split_on Text.SLASH u) ""))));
                 ("url", dict_get f "postUrl" (dict_get f "url" (PStr "")));
                 ("type", PStr "post");
                 ("message",
                   dict_get f "postText"
                     (dict_get f "text" (dict_get f "message" (PStr ""))));
                 ("timestamp",
                   dict_get f "postTime"
                     (dict_get f "time" (dict_get f "timestamp" (PStr ""))));
                 ("author_id", dict_get (postAuthor item) "id" (PStr ""));
                 ("author_name",
                   dict_get (postAuthor item) "name"
                     (dict_get f "authorName" (PStr "")));
                 ("author_url",
                   dict_get (postAuthor item) "url"
                     (dict_get f "authorUrl" (PStr "")));
                 ("author_profile_picture",
                   dict_get (postAuthor item) "profilePicture" (PStr ""));
                 ("total_reactions",
                   dict_get f "likes" (dict_get f "reactions" (PInt 0)));
                 ("total_comments",
                   dict_get f "comments" (dict_get f "commentsCount" (PInt 0)));
                 ("total_shares",
                   dict_get f "shares" (dict_get f "sharesCount" (PInt 0)));
                 ("emoji_like", PInt 0);
                 ("emoji_love", PInt 0);
                 ("emoji_haha", PInt 0);
                 ("emoji_wow", PInt 0);
                 ("emoji_sad", PInt 0);
                 ("emoji_angry", PInt 0);
                 ("emoji_care", PInt 0);
                 ("image_url",
                   dict_get f "image"
                     (match images item with
                      | first :: _ => first
                      | [] => PStr ""
                      end));
                 ("video_url", dict_get f "video" (PStr ""));
                 ("video_thumbnail", PStr "");
                 ("external_url", PStr "");
                 ("scraped_at", PStr now) ];
           post_comments := [] |}
  | _ => None
  end.

(** The posts the loop over a group dataset appends: it ends at the first
    item whose dict raises. *)
Fixpoint group_posts (items : list (group_item * string)) : list post :=
  match items with
  | [] => []
  | (item, now) :: items' =>
      match post_of_group_item item now with
      | Some p => p :: group_posts items'
      | None => []
      end
  end.

(** The body of the loop [for run_input in actor_runs]: the posts one run
    appends to [all_posts]; [appended] is the loop over its dataset. *)
Definition posts_of_run {I : Type} (a : posts_attempt I)
    (appended : list (I * string) -> list post) : list post :=
  match posts_call a with
  | CallRaises => []
  | CallReturns run =>
      if run_falsy run
         || negb (bool_decide (is_Some (default ∅ run !! "defaultDatasetId")))
      then []
      else appended (posts_items a)
  end.

(** [{p["post_id"]: p for p in all_posts}.values()]; every post has the
    key. *)
Definition unique_posts (all_posts : list post) : list post :=
  map snd
    (foldl (fun d p => odict_set (dict_get_none (post_fields p) "post_id") p d)
           [] all_posts).

(** The two posts actors behind the one client. *)
Record posts_service : Type := PostsService {
  posts_actor : nat -> posts_attempt page_item;
  group_actor : nat -> posts_attempt group_item
}.

(** [_scrape_posts_with_reactions(search_term, max_posts, mode)] run from
    call count [n]; [max_posts] only enters the run inputs. *)
Definition _scrape_posts_with_reactions (svc : posts_service) (n : nat)
    (search_term : string) (mode : string) : list post * nat :=
  if String.eqb mode "group"
  then
    match _normalize_group_url search_term with
    | None => ([], n)
    | Some group_url =>
        (unique_posts (posts_of_run (group_actor svc n) group_posts), S n)
    end
  else
    (unique_posts
       (posts_of_run (posts_actor svc n)
          (map (fun '(item, now) => post_of_page_item item now))
        ++ posts_of_run (posts_actor svc (S n))
             (map (fun '(item, now) => post_of_page_item item now))),
     S (S n)).

(** *** [scrape_from_url] *)

(** The dict [scrape_from_url] returns, without its cost estimate (a
    float): under ["raw_file"] the data written to the raw JSON file and
    under ["final_file"] the frame written to the final CSV, [None] for no
    file. *)
Record url_result : Type := UrlResult {
  url_raw_file : option (list post);
  url_final_file : option (list frame_row);
  url_posts : nat;
  url_comments : nat
}.

(** [scrape_from_url(page_url, max_posts, max_comments_per_post, mode)] run
    from call count [n]; [None] when an exception leaves it. Outside group
    mode the search term taken from [page_url] only enters the run
    inputs. *)
Definition scrape_from_url (to_numeric_str : string -> option Z)
    (analyzer : option classifier) (svc : posts_service)
    (w : world (gmap string pyval)) (n : nat) (page_url mode : string)
    : option url_result * nat :=
  let '(posts, n1) := _scrape_posts_with_reactions svc n page_url mode in
  match posts with
  | [] =>
      (Some {| url_raw_file := None; url_final_file := None;
               url_posts := 0; url_comments := 0 |}, n1)
  | _ =>
      match scrape_comments_loop w posts n1 with
      | (None, n2) => (None, n2)
      | (Some complete_data, n2) =>
          (Some
             {| url_raw_file := Some complete_data;
                url_final_file :=
                  _process_and_save_final to_numeric_str analyzer complete_data;
                url_posts := length complete_data;
                url_comments :=
                  sum_list (map (fun p => length (post_comments p))
                                complete_data) |},
           n2)
      end
  end.

End Facebook.

(** ** Instagram pipeline ([InstagramScraperPipeline]) *)

Module Instagram.

(** A comment of ["latestComments"]: its scalar fields and the dicts under
    ["owner"] and ["user"] (empty when the key is absent). *)
Record comment : Type := Comment {
  comment_fields : gmap string pyval;
  owner : gmap string pyval;
  user : gmap string pyval
}.

(** A dataset item: its scalar fields and the list under
    ["latestComments"], when the key is there. *)
Record item : Type := Item {
  item_fields : gmap string pyval;
  latestComments : option (list comment)
}.

(** The body of the [try] of [_run_apify_actor] on one attempt: [Some] of
    what it returns, [None] when an exception reaches the [except]. *)
Definition try_attempt {I : Type} (a : attempt I) : option (list I) :=
  match call a with
  | CallRaises => None
  | CallReturns None => None
  | CallReturns (Some run) =>
      if negb (truthy (dict_get_none run "defaultDatasetId"))
      then Some []
      else iterate_items a
  end.

(** The loop [for attempt in range(1, attempts + 1)], on the attempt
    numbers still to run. *)
Fixpoint attempts_loop {I : Type} (w : world I) (attempts : nat)
    (range : list nat) (n : nat) : list I * nat :=
  match range with
  | [] => ([], n)
  | attempt :: range' =>
      match try_attempt (w n) with
      | Some items => (items, S n)
      | None =>
          if (attempt =? attempts)%nat then ([], S n)
          else attempts_loop w attempts range' (S n)
      end
  end.

Definition _run_apify_actor {I : Type} (w : world I) (n : nat) : list I * nat :=
  let attempts := 3%nat in
  attempts_loop w attempts (seq 1 attempts) n.

(** The post URL of an item, as [scrape_post_urls] settles it. *)
Definition post_url_of (it : gmap string pyval) : result pyval :=
  let post_url := py_or (dict_get_none it "url") (dict_get_none it "inputUrl") in
  let shortcode := py_or (dict_get_none it "shortCode") (dict_get_none it "id") in
  if negb (truthy post_url) && truthy shortcode
  then Returned (PStr ("https://www.instagram.com/p/" +:+ py_str shortcode +:+ "/"))
  else if truthy post_url
  then match post_url with
       | PStr u =>
           if negb (Text.contains "instagram.com" u)
           then Returned (PStr ("https://www.instagram.com/p/" +:+ u +:+ "/"))
           else Returned post_url
       | _ => Propagated "TypeError"
       end
  else Returned post_url.

Definition base_record (it : gmap string pyval) (post_url : pyval)
    : gmap string pyval :=
  dict_of
    [ ("source_type", PStr "post_url");
      ("source_value", post_url);
      ("post_url", post_url);
      ("post_username", dict_get_none it "ownerUsername");
      ("post_full_name", dict_get_none it "ownerFullName");
      ("post_caption", dict_get_none it "caption");
      ("post_likes", dict_get_none it "likesCount");
      ("post_comments_count", dict_get_none it "commentsCount");
      ("post_date", dict_get_none it "timestamp");
      ("post_type", dict_get_none it "type");
      ("post_video_views", dict_get_none it "videoViewCount");
      ("post_video_plays", dict_get_none it "videoPlayCount") ].

Definition comment_record (base : gmap string pyval) (c : comment)
    : gmap string pyval :=
  let f := comment_fields c in
  dict_merge base
    (dict_of
       [ ("comment_id", py_or (dict_get_none f "id") (dict_get_none f "pk"));
         ("comment_text", dict_get_none f "text");
         ("comment_username",
           py_or (py_or (dict_get_none (owner c) "username")
                        (dict_get_none (user c) "username"))
                 (dict_get_none f "ownerUsername"));
         ("comment_full_name",
           py_or (dict_get_none (owner c) "full_name")
                 (dict_get_none (user c) "full_name"));
         ("comment_likes",
           py_or (dict_get_none f "likesCount")
                 (dict_get_none f "comment_like_count"));
         ("comment_date",
           py_or (dict_get_none f "timestamp") (dict_get_none f "created_at"));
         ("comment_replies_count",
           py_or (dict_get_none f "repliesCount")
                 (dict_get_none f "child_comment_count")) ]).

Definition no_comment_record (base : gmap string pyval) : gmap string pyval :=
  dict_merge base
    (dict_of
       [ ("comment_id", PNone);
         ("comment_text", PNone);
         ("comment_username", PNone);
         ("comment_full_name", PNone);
         ("comment_likes", PNone);
         ("comment_date", PNone);
         ("comment_replies_count", PNone) ]).

(** The records one item appends to [unified_records]. *)
Definition records_of_item (include_comments : bool) (max_comments : Z)
    (it : item) : result (list (gmap string pyval)) :=
  match post_url_of (item_fields it) with
  | Propagated e => Propagated e
  | Returned post_url =>
      let base := base_record (item_fields it) post_url in
      let comments :=
        match latestComments it with
        | Some latest_comments =>
            if include_comments then slice_to max_comments latest_comments
            else []
        | None => []
        end in
      match comments with
      | [] => Returned [no_comment_record base]
      | _ => Returned (map (comment_record base) comments)
      end
  end.

(** The loop [for item in post_items] of [scrape_post_urls]. *)
Definition unified_records (include_comments : bool) (max_comments : Z)
    (post_items : list item) : result (list (gmap string pyval)) :=
  foldl
    (fun acc it =>
       match acc with
       | Propagated e => Propagated e
       | Returned records =>
           match records_of_item include_comments max_comments it with
           | Propagated e => Propagated e
           | Returned rs => Returned (records ++ rs)
           end
       end)
    (Returned []) post_items.

(** [scrape_post_urls]: the DataFrame it returns. *)
Definition scrape_post_urls (w : world item) (n : nat)
    (include_comments : bool) (max_comments : Z)
    : result (list (gmap string pyval)) * nat :=
  let '(post_items, n') := _run_apify_actor w n in
  match post_items with
  | [] => (Returned [], n')
  | _ =>
      match unified_records include_comments max_comments post_items with
      | Propagated e => (Propagated e, n')
      | Returned records =>
          let df := records in
          let df :=
            if has_column df "comment_id"
            then drop_duplicates ["post_url"; "comment_id"] df
            else df in
          (Returned df, n')
      end
  end.

(** *** [_parse_cookies_file] *)

(** The body of the loop [for line in f]: the cookies one line appends. *)
Definition cookie_of_line (line : string) : list (gmap string pyval) :=
  let line := Text.strip line in
  if String.eqb line "" || Text.starts_with "#" line then []
  else
    match Text.split_on Text.TAB line with
    | p0 :: _ :: _ :: _ :: _ :: p5 :: p6 :: _ =>
        [ dict_of
            [ ("name", PStr p5);
              ("value", PStr p6);
              ("domain",
                PStr (if Text.starts_with "." p0 then p0 else "." +:+ p0)) ] ]
    | _ => []
    end.

(** [_parse_cookies_file(cookies_path)] on the lines the file gives;
    [None] when it cannot be opened. *)
Definition _parse_cookies_file (file : option (list string))
    : list (gmap string pyval) :=
  match file with
  | None => []
  | Some lines =>
      foldl (fun cookies_list line => cookies_list ++ cookie_of_line line)
            [] lines
  end.

(** *** [scrape_keyword] *)

(** The post URL of a hashtag item, as [scrape_keyword] settles it. *)
Definition keyword_post_url_of (it : gmap string pyval) : result pyval :=
  let post_url := py_or (dict_get_none it "url") (dict_get_none it "postUrl") in
  let shortcode := py_or (dict_get_none it "shortCode") (dict_get_none it "id") in
  if negb (truthy post_url) && truthy shortcode
  then Returned (PStr ("https://www.instagram.com/p/" +:+ py_str shortcode +:+ "/"))
  else if truthy post_url
  then match post_url with
       | PStr u =>
           if negb (Text.contains "instagram.com" u)
           then Returned (PStr ("https://www.instagram.com/p/" +:+ u +:+ "/"))
           else Returned post_url
       | _ => Propagated "TypeError"
       end
  else Returned post_url.

(** The dict stored under [posts_dict[post_url]]. *)
Definition keyword_post_data (it : gmap string pyval) (post_url : pyval)
    : gmap string pyval :=
  dict_of
    [ ("post_url", post_url);
      ("post_username",
        py_or (dict_get_none it "ownerUsername") (dict_get_none it "username"));
      ("post_caption",
        py_or (dict_get_none it "caption") (dict_get_none it "text"));
      ("post_likes",
        py_or (py_or (dict_get_none it "likesCount")
                     (dict_get_none it "like_count"))
              (dict_get_none it "likes"));
      ("post_comments_count",
        py_or (py_or (dict_get_none it "commentsCount")
                     (dict_get_none it "comment_count"))
              (dict_get_none it "comments"));
      ("post_date",
        py_or (py_or (dict_get_none it "timestamp")
                     (dict_get_none it "post_date"))
              (dict_get_none it "created_at")) ].

(** The loop [for item in hashtag_items]: [post_urls] and [posts_dict]. *)
Definition keyword_posts (hashtag_items : list (gmap string pyval))
    : result (list pyval * odict (gmap string pyval)) :=
  foldl
    (fun acc it =>
       match acc with
       | Propagated e => Propagated e
       | Returned (post_urls, posts_dict) =>
           match keyword_post_url_of it with
           | Propagated e => Propagated e
           | Returned post_url =>
               if truthy post_url
               then Returned (post_urls ++ [post_url],
                              odict_set post_url (keyword_post_data it post_url)
                                        posts_dict)
               else Returned (post_urls, posts_dict)
           end
       end)
    (Returned ([], [])) hashtag_items.

(** The dict appended to [comments_dict[post_url]] for one comment. *)
Definition keyword_comment (c : comment) : gmap string pyval :=
  let f := comment_fields c in
  dict_of
    [ ("comment_text", dict_get_none f "text");
      ("comment_username", dict_get_none (user c) "username");
      ("comment_full_name", dict_get_none (user c) "full_name");
      ("comment_likes", dict_get_none f "comment_like_count");
      ("comment_date", dict_get_none f "created_at") ].

(** The loop [for comment in comment_items]. *)
Definition keyword_comments (comment_items : list comment)
    : odict (list (gmap string pyval)) :=
  foldl
    (fun comments_dict c =>
       let post_url := dict_get_none (comment_fields c) "postUrl" in
       odict_set post_url
         (default [] (odict_get post_url comments_dict) ++ [keyword_comment c])
         comments_dict)
    [] comment_items.

(** The record appended to [unified_records] for one entry of
    [posts_dict]. *)
Definition keyword_record (keyword : string) (post_data : gmap string pyval)
    (post_comments : list (gmap string pyval)) : gmap string pyval :=
  let base_record :=
    dict_merge post_data
      (dict_of [ ("source_type", PStr "keyword");
                 ("source_value", PStr keyword) ]) in
  let comments_scraped_count := length post_comments in
  let all_comments_text :=
    if (0 <? comments_scraped_count)%nat
    then PStr (Text.join " || "
                 (map (fun c => py_str (dict_get_none c "comment_username")
                                +:+ ": "
                                +:+ py_str (dict_get_none c "comment_text"))
                      (List.filter
                         (fun c => truthy (dict_get_none c "comment_text"))
                         post_comments)))
    else PNone in
  dict_merge base_record
    (dict_of [ ("comments_scraped_count",
                 PInt (Z.of_nat comments_scraped_count));
               ("all_comments_text", all_comments_text) ]).

(** The two actors [scrape_keyword] calls on the one client. *)
Record keyword_service : Type := KeywordService {
  hashtag_actor : world (gmap string pyval);
  comments_actor : world comment
}.

(** [scrape_keyword]: the DataFrame it returns. [cookies_file] is [None]
    when there is no file at [cookies_path], and what
    [_parse_cookies_file] is given otherwise. *)
Definition scrape_keyword (svc : keyword_service) (n : nat) (keyword : string)
    (include_comments : bool) (cookies_file : option (option (list string)))
    : result (list (gmap string pyval)) * nat :=
  let keyword := Text.strip (Text.lstrip_char Text.HASH keyword) in
  let '(hashtag_items, n1) := _run_apify_actor (hashtag_actor svc) n in
  match hashtag_items with
  | [] => (Returned [], n1)
  | _ =>
      match keyword_posts hashtag_items with
      | Propagated e => (Propagated e, n1)
      | Returned (post_urls, posts_dict) =>
          let '(comments_dict, n2) :=
            if include_comments && negb (bool_decide (post_urls = []))
            then
              match cookies_file with
              | None => ([], n1)
              | Some file =>
                  match _parse_cookies_file file with
                  | [] => ([], n1)
                  | _ =>
                      let '(comment_items, n2) :=
                        _run_apify_actor (comments_actor svc) n1 in
                      (keyword_comments comment_items, n2)
                  end
              end
            else ([], n1) in
          (Returned
             (map (fun '(post_url, post_data) =>
                     keyword_record keyword post_data
                       (default [] (odict_get post_url comments_dict)))
                  posts_dict),
           n2)
      end
  end.

(** [_apply_sentiment_analysis(df)]; [analyzer] is [None] when
    [InstagramSentimentAnalyzer()] raises, and the frame is then returned
    as it is. *)
Definition _apply_sentiment_analysis (analyzer : option classifier)
    (df : list (gmap string pyval)) : list frame_row :=
  match df with
  | [] => []
  | _ =>
      match analyzer with
      | Some clf => InstagramSentimentAnalyzer.analyze_instagram_data clf df
      | None => map of_cells df
      end
  end.

(** [save_final_data(df, name_prefix)]: the frame written to the final
    CSV, [None] when no file is written. *)
Definition save_final_data (analyzer : option classifier)
    (df : list (gmap string pyval)) : option (list frame_row) :=
  match df with
  | [] => None
  | _ => Some (_apply_sentiment_analysis analyzer df)
  end.

End Instagram.

(** ** Twitter pipeline ([TwitterScraperPipeline]) *)

Module Twitter.

Definition _run_actor_and_get_items {I : Type} (w : world I) (n : nat)
    : result (list I) * nat :=
  match call (w n) with
  | CallRaises => (Returned [], S n)
  | CallReturns None => (Propagated "AttributeError", S n)
  | CallReturns (Some run) =>
      if negb (truthy (dict_get_none run "defaultDatasetId"))
      then (Returned [], S n)
      else
        match iterate_items (w n) with
        | None => (Returned [], S n)
        | Some items => (Returned items, S n)
        end
  end.

(** *** [_scrape_replies] and [_scrape_retweeters] *)

(** A dataset item of the replies actor: its scalar fields and the dict
    [r.get("author", {}) or {}]. *)
Record reply_item : Type := ReplyItem {
  reply_fields : gmap string pyval;
  author : gmap string pyval
}.

Definition reply_of_item (r : reply_item) : gmap string pyval :=
  let f := reply_fields r in
  let author := author r in
  dict_of
    [ ("tweet_id", dict_get_none f "id");
      ("text", dict_get_none f "text");
      ("created_at", dict_get_none f "createdAt");
      ("author_username", dict_get_none author "userName");
      ("author_name", dict_get_none author "name");
      ("author_verified",
        if bool_decide (dict_get_none author "isVerified" ≠ PNone)
        then dict_get_none author "isVerified"
        else dict_get_none author "verified");
      ("author_followers", dict_get_none author "followers");
      ("author_following", dict_get_none author "following");
      ("retweet_count",
        py_or (dict_get_none f "retweetCount") (dict_get_none f "retweets"));
      ("reply_count",
        py_or (dict_get_none f "replyCount") (dict_get_none f "replies"));
      ("like_count",
        py_or (dict_get_none f "likeCount") (dict_get_none f "likes"));
      ("quote_count",
        py_or (dict_get_none f "quoteCount") (dict_get_none f "quotes"));
      ("is_reply", dict_get_none f "isReply");
      ("in_reply_to_id",
        py_or (dict_get_none f "inReplyToId")
              (dict_get_none f "inReplyToStatusId"));
      ("tweet_url",
        if truthy (dict_get_none author "userName")
           && truthy (dict_get_none f "id")
        then PStr ("https://x.com/" +:+ py_str (dict_get_none author "userName")
                   +:+ "/status/" +:+ py_str (dict_get_none f "id"))
        else PNone) ].

Definition _scrape_replies (w : world reply_item) (n : nat)
    : result (list (gmap string pyval)) * nat :=
  match _run_actor_and_get_items w n with
  | (Returned replies, n') => (Returned (map reply_of_item replies), n')
  | (Propagated e, n') => (Propagated e, n')
  end.

Definition retweeter_of_item (r : gmap string pyval) : gmap string pyval :=
  dict_of
    [ ("userName", dict_get_none r "userName");
      ("name", dict_get_none r "name");
      ("isVerified", dict_get_none r "isVerified");
      ("followers", dict_get_none r "followers");
      ("following", dict_get_none r "following");
      ("profilePicture", dict_get_none r "profilePicture");
      ("description", dict_get_none r "description");
      ("url", dict_get_none r "url") ].

Definition _scrape_retweeters (w : world (gmap string pyval)) (n : nat)
    : result (list (gmap string pyval)) * nat :=
  match _run_actor_and_get_items w n with
  | (Returned retweeters, n') => (Returned (map retweeter_of_item retweeters), n')
  | (Propagated e, n') => (Propagated e, n')
  end.

(** One entry of [all_data]: the tweet id, the scalar fields of
    ["profile_info"], the dict under its ["user"] key when there is one,
    and the two scraped lists. *)
Record tweet_data : Type := TweetData {
  tweet_id : pyval;
  profile_info : gmap string pyval;
  profile_user : option (gmap string pyval);
  replies : list (gmap string pyval);
  retweeters : list (gmap string pyval)
}.

Definition reply_row (tid main_tweet_text : pyval)
    (profile : gmap string pyval) (profile_link tweet_link : pyval)
    (r : gmap string pyval) : gmap string pyval :=
  dict_of
    [ ("tweet_id", tid);
      ("interaction_type", PStr "reply");
      ("username", dict_get_none r "author_username");
      ("name", dict_get_none r "author_name");
      ("verified", dict_get_none r "author_verified");
      ("followers", dict_get_none r "author_followers");
      ("text", dict_get_none r "text");
      ("reply_url", dict_get_none r "tweet_url");
      ("tweet_text", main_tweet_text);
      ("profile_username", dict_get_none profile "username");
      ("profile_fullname", dict_get_none profile "userFullName");
      ("profile_followers", dict_get_none profile "totalFollowers");
      ("profile_url", profile_link);
      ("tweet_url", tweet_link);
      ("retweet_count", dict_get_none r "retweet_count");
      ("reply_count", dict_get_none r "reply_count");
      ("like_count", dict_get_none r "like_count");
      ("quote_count", dict_get_none r "quote_count");
      ("created_at", dict_get_none r "created_at") ].

Definition retweeter_row (tid main_tweet_text : pyval)
    (profile : gmap string pyval) (profile_link tweet_link : pyval)
    (r : gmap string pyval) : gmap string pyval :=
  dict_of
    [ ("tweet_id", tid);
      ("interaction_type", PStr "retweeter");
      ("username", dict_get_none r "userName");
      ("name", dict_get_none r "name");
      ("verified", dict_get_none r "isVerified");
      ("followers", dict_get_none r "followers");
      ("text", PStr "");
      ("reply_url", PStr "");
      ("tweet_text", main_tweet_text);
      ("profile_username", dict_get_none profile "username");
      ("profile_fullname", dict_get_none profile "userFullName");
      ("profile_followers", dict_get_none profile "totalFollowers");
      ("profile_url", profile_link);
      ("tweet_url", tweet_link);
      ("retweet_count", PNone);
      ("reply_count", PNone);
      ("like_count", PNone);
      ("quote_count", PNone);
      ("created_at", PNone) ].

(** The rows one entry of [data] appends in [_process_and_save_final]. *)
Definition rows_of_tweet (t : tweet_data) : list (gmap string pyval) :=
  let tid := tweet_id t in
  let profile := default ∅ (profile_user t) in
  let tweet_link := dict_get (profile_info t) "tweet_url" (PStr "") in
  let profile_link := dict_get profile "url" (PStr "") in
  let '(main_tweet_text, replies_list) :=
    match replies t with
    | first :: rest => (dict_get first "text" (PStr ""), rest)
    | [] => (dict_get (profile_info t) "tweet_text" (PStr ""), [])
    end in
  map (reply_row tid main_tweet_text profile profile_link tweet_link) replies_list
  ++ map (retweeter_row tid main_tweet_text profile profile_link tweet_link)
       (retweeters t).

(** The text [_process_and_save_final] takes for the tweet itself. *)
Definition main_text (t : tweet_data) : pyval :=
  match replies t with
  | first :: _ => dict_get first "text" (PStr "")
  | [] => dict_get (profile_info t) "tweet_text" (PStr "")
  end.

(** The loop [for tweet_data in data]. *)
Definition final_rows (data : list tweet_data) : list (gmap string pyval) :=
  foldl (fun rows t => rows ++ rows_of_tweet t) [] data.

(** [analyze_twitter_data] of [sentiment_twitter.py] on a frame that has
    the columns [tweet_text], [text] and [interaction_type], as every frame
    of this pipeline has. *)
Definition is_reply (r : frame_row) : bool :=
  bool_decide (cells r !! "interaction_type" = Some (PStr "reply")).

(** [df.loc[reply_mask, ...] = [...]] over columns initialised to
    NEUTRAL and 0.0: the masked rows take the results in order. *)
Fixpoint fill_replies (df : list frame_row) (results : list sentiment)
    : list frame_row :=
  match df with
  | [] => []
  | r :: df' =>
      if is_reply r
      then match results with
           | s :: results' =>
               set_sentiment "interaction_sentiment_label"
                 "interaction_sentiment_score" r s
               :: fill_replies df' results'
           | [] =>
               set_sentiment "interaction_sentiment_label"
                 "interaction_sentiment_score" r NEUTRAL
               :: fill_replies df' []
           end
      else set_sentiment "interaction_sentiment_label"
             "interaction_sentiment_score" r NEUTRAL
           :: fill_replies df' results
  end.

Definition analyze_twitter_data (clf : classifier) (df : list frame_row)
    : list frame_row :=
  match df with
  | [] => df
  | _ =>
      let tweet_texts := map (fun r => PStr (fillna_str (cells r !! "tweet_text"))) df in
      let tweet_results :=
        snd (TwitterSentimentAnalyzer.analyze_text_batch clf tweet_texts) in
      let df :=
        zip_with (set_sentiment "tweet_sentiment_label" "tweet_sentiment_score")
                 df tweet_results in
      let reply_texts :=
        map (fun r => PStr (fillna_str (cells r !! "text"))) (filter is_reply df) in
      let reply_results :=
        snd (TwitterSentimentAnalyzer.analyze_text_batch clf reply_texts) in
      fill_replies df reply_results
  end.

(** The DataFrame [_process_and_save_final] writes to the final CSV,
    [None] when no file is written; [analyzer] is [None] when the sentiment
    step raises, and the frame is then written as it is. *)
Definition _process_and_save_final (analyzer : option classifier)
    (data : list tweet_data) : option (list frame_row) :=
  match final_rows data with
  | [] => None
  | rows =>
      let df := map of_cells rows in
      Some match analyzer with
           | Some clf => analyze_twitter_data clf df
           | None => df
           end
  end.

(** *** [_fetch_profile_info] *)

(** A dataset item of the profile actor: its scalar fields and the dict
    [item.get("user", {}) or {}]. *)
Record profile_item : Type := ProfileItem {
  profile_fields : gmap string pyval;
  user : gmap string pyval
}.

(** The dict built from the first item: its scalar fields and the dict
    under its ["user"] key. *)
Definition profile_of_item (profile_url username : string) (tweet_id : pyval)
    (item : profile_item) : gmap string pyval * option (gmap string pyval) :=
  let f := profile_fields item in
  let pdata := user item in
  (dict_of
     [ ("id", dict_get_none f "id");
       ("tweet_url",
         PStr ("https://x.com/" +:+ username +:+ "/status/" +:+ py_str tweet_id));
       ("verified", dict_get_none pdata "verified");
       ("username", PStr ("@" +:+ username));
       ("tweet_text",
         py_or (py_or (dict_get_none f "text") (dict_get_none f "tweetText"))
               (PStr "")) ],
   Some (dict_of
     [ ("avatar",
         py_or (dict_get_none pdata "profileImageUrl")
               (dict_get_none pdata "avatar"));
       ("username", PStr ("@" +:+ username));
       ("userFullName", dict_get_none pdata "name");
       ("url", PStr profile_url);
       ("totalFollowers",
         py_or (dict_get_none pdata "followers")
               (dict_get_none pdata "totalFollowers")) ])).

(** [_fetch_profile_info(profile_url, username, tweet_id)] run from call
    count [n]; [{}] is the pair of an empty dict and no ["user"] dict. *)
Definition _fetch_profile_info (w : world profile_item) (n : nat)
    (profile_url username : string) (tweet_id : pyval)
    : result (gmap string pyval * option (gmap string pyval)) * nat :=
  match _run_actor_and_get_items w n with
  | (Returned [], n') => (Returned (∅, None), n')
  | (Returned (item :: _), n') =>
      (Returned (profile_of_item profile_url username tweet_id item), n')
  | (Propagated e, n') => (Propagated e, n')
  end.

(** *** [scrape_from_user] *)

(** The three actors behind the one client; the call count is the
    client's. *)
Record service : Type := Service {
  profile_actor : world profile_item;
  replies_actor : world reply_item;
  retweeters_actor : world (gmap string pyval)
}.

(** [username] and [profile_url] as [scrape_from_user] normalises them. *)
Definition normalize_user (user_input : string) : string * string :=
  if negb (Text.starts_with "http" user_input)
  then
    let username := Text.strip (Text.replace "@" "" user_input) in
    (username, "https://x.com/" +:+ username)
  else
    let profile_url := Text.replace "twitter.com" "x.com" user_input in
    (List.last (Text.split_on Text.SLASH (Text.rstrip_char Text.SLASH profile_url))
       "",
     profile_url).

(** The body of the loop [for tid in tweet_ids]. *)
Definition scrape_tweet (svc : service) (n : nat)
    (profile_url username : string) (tid : pyval) : result tweet_data * nat :=
  match _fetch_profile_info (profile_actor svc) n profile_url username tid with
  | (Propagated e, n1) => (Propagated e, n1)
  | (Returned (info, usr), n1) =>
      match _scrape_replies (replies_actor svc) n1 with
      | (Propagated e, n2) => (Propagated e, n2)
      | (Returned replies_list, n2) =>
          match _scrape_retweeters (retweeters_actor svc) n2 with
          | (Propagated e, n3) => (Propagated e, n3)
          | (Returned retweets_list, n3) =>
              (Returned {| tweet_id := tid;
                           profile_info := info;
                           profile_user := usr;
                           replies := replies_list;
                           retweeters := retweets_list |}, n3)
          end
      end
  end.

Definition scrape_loop (svc : service) (n : nat)
    (profile_url username : string) (tweet_ids : list pyval)
    : result (list tweet_data) * nat :=
  foldl
    (fun acc tid =>
       match fst acc with
       | Propagated e => acc
       | Returned all_data =>
           match scrape_tweet svc (snd acc) profile_url username tid with
           | (Returned t, n') => (Returned (all_data ++ [t]), n')
           | (Propagated e, n') => (Propagated e, n')
           end
       end)
    (Returned [], n) tweet_ids.

(** The dict [scrape_from_user] returns: under ["raw_file"] and
    ["final_file"] what the files hold, [None] for no file. *)
Record user_result : Type := UserResult {
  res_raw_file : option (list tweet_data);
  res_final_file : option (list frame_row);
  res_tweets : nat;
  res_replies : nat;
  res_retweeters : nat
}.

Definition scrape_from_user (analyzer : option classifier) (svc : service)
    (n : nat) (user_input : string) (tweet_ids : list pyval)
    : result user_result * nat :=
  let '(username, profile_url) := normalize_user user_input in
  match tweet_ids with
  | [] =>
      (Returned {| res_raw_file := None; res_final_file := None;
                   res_tweets := 0; res_replies := 0; res_retweeters := 0 |}, n)
  | _ =>
      match scrape_loop svc n profile_url username tweet_ids with
      | (Propagated e, n') => (Propagated e, n')
      | (Returned all_data, n') =>
          (Returned
             {| res_raw_file := Some all_data;
                res_final_file := _process_and_save_final analyzer all_data;
                res_tweets := length all_data;
                res_replies :=
                  sum_list (map (fun t => length (replies t)) all_data);
                res_retweeters :=
                  sum_list (map (fun t => length (retweeters t)) all_data) |},
           n')
      end
  end.

(** The outcome of the [k]-th call [scrape_from_user] makes from call
    count [n]: the calls go to the profile, the replies and the retweeters
    actor in turn. *)
Definition nth_call (svc : service) (n k : nat) : call_result :=
  match (k mod 3)%nat with
  | O => call (profile_actor svc (n + k)%nat)
  | S O => call (replies_actor svc (n + k)%nat)
  | _ => call (retweeters_actor svc (n + k)%nat)
  end.

(** The tweets of [data] that some reply was scraped for. *)
Definition with_replies (data : list tweet_data) : list tweet_data :=
  List.filter (fun t => negb (bool_decide (replies t = []))) data.

(** The key the specification names for a row: tweet id and interaction
    identity. *)
Definition interaction_key (r : frame_row) : list pyval :=
  key_of ["tweet_id"; "interaction_type"; "username"] (cells r).

(** The keys of the interactions scraped for one tweet, in the order of
    the rows made from them: the replies after the first, then the
    retweeters. *)
Definition scraped_keys (t : tweet_data) : list (list pyval) :=
  map (fun r => [tweet_id t; PStr "reply"; dict_get_none r "author_username"])
      (tail (replies t))
  ++ map (fun r => [tweet_id t; PStr "retweeter"; dict_get_none r "userName"])
       (retweeters t).

(** One tweet whose retweeter list holds the same account twice. *)
Definition retweeted_twice : list tweet_data :=
  [ {| tweet_id := PStr "1849";
       profile_info := ∅;
       profile_user := None;
       replies := [];
       retweeters := [ dict_of [("userName", PStr "ana")];
                       dict_of [("userName", PStr "ana")] ] |} ].

End Twitter.

(** ** Concrete stand-ins for what lies outside the repository *)

(** A [pd.to_numeric] that parses no string. *)
Definition no_parse : string -> option Z := fun _ => None.

(** A classifier that finds every text positive. *)
Definition positive_clf : classifier :=
  fun _ => Some {| label := "POSITIVE"; score := (9 # 10)%Q |}.

(** ** Concrete runs of the actor service *)

(** A run that names its dataset. *)
Definition run_with_dataset : gmap string pyval :=
  dict_of [("defaultDatasetId", PStr "ds1")].

(** The first call raises, every later call succeeds with one item. *)
Definition fails_once : world Instagram.item :=
  fun n =>
    match n with
    | O => Attempt CallRaises None
    | S _ =>
        Attempt (CallReturns (Some run_with_dataset))
          (Some [ {| Instagram.item_fields :=
                       dict_of [("url", PStr "https://www.instagram.com/p/Cx1/")];
                     Instagram.latestComments := None |} ])
    end.

(** Every call returns [None] for the run. *)
Definition returns_no_run : world (gmap string pyval) :=
  fun _ => Attempt (CallReturns None) None.

(** Every call raises. *)
Definition always_raises {I : Type} : world I :=
  fun _ => Attempt CallRaises None.

(** * Properties *)

(** ** Text primitives *)

Section TextFacts.

Import Text.

Lemma is_nul_NUL : is_nul NUL = true.
Proof. reflexivity. Qed.

Lemma is_space_SP : is_space SP = true.
Proof. reflexivity. Qed.


Lemma string_eqb_empty s : String.eqb s "" = true <-> s = "".
Proof. apply String.eqb_eq. Qed.

(** [replace("\x00", "")] deletes the NUL characters. *)
Lemma replace_nul_remove s : replace NULs "" s = remove_nul s.
Proof.
  unfold replace. induction s as [|c s IH]; [done|].
  cbn [replace_from remove_nul NULs starts_with String.length].
  unfold is_nul. rewrite Ascii.eqb_sym.
  destruct (Ascii.eqb c NUL); cbn; by rewrite IH.
Qed.

(** *** NUL-free strings *)

Lemma nul_free_remove_nul s : nul_free (remove_nul s) = true.
Proof.
  induction s as [|c s IH]; [done|]. cbn.
  destruct (is_nul c) eqn:Hc; [done|]. cbn. by rewrite Hc.
Qed.

Lemma remove_nul_id s : nul_free s = true -> remove_nul s = s.
Proof.
  induction s as [|c s IH]; [done|]. cbn.
  destruct (is_nul c); [done|]. cbn. intros H. by rewrite IH.
Qed.

Lemma nul_free_collapse_from b s :
  nul_free s = true -> nul_free (collapse_from b s) = true.
Proof.
  revert b. induction s as [|c s IH]; intros b; [done|]. cbn.
  destruct (is_nul c) eqn:Hc; [done|]. cbn. intros Hs.
  destruct (is_space c), b; cbn [nul_free]; rewrite ?Hc; cbn [negb andb];
    try change (is_nul SP) with false; cbn [negb andb]; auto.
Qed.

Lemma nul_free_lstrip s : nul_free s = true -> nul_free (lstrip s) = true.
Proof.
  induction s as [|c s IH]; [done|]. cbn.
  destruct (is_space c); cbn; destruct (is_nul c); cbn; auto; done.
Qed.

Lemma nul_free_rstrip s : nul_free s = true -> nul_free (rstrip s) = true.
Proof.
  induction s as [|c s IH]; [done|]. cbn.
  destruct (is_nul c) eqn:Hc; [done|]. cbn. intros Hs.
  destruct (is_space c && String.eqb (rstrip s) ""); [done|].
  cbn. rewrite Hc. cbn. auto.
Qed.

(** *** Strings whose whitespace is already collapsed *)

Lemma collapsed_collapse_from b s : collapsed_from b (collapse_from b s) = true.
Proof.
  revert b. induction s as [|c s IH]; intros b; [done|]. cbn.
  destruct (is_space c) eqn:Hc.
  - destruct b; [apply IH|]. cbn. rewrite is_space_SP. cbn.
    rewrite Ascii.eqb_refl. apply IH.
  - cbn. rewrite Hc. apply IH.
Qed.

Lemma collapse_from_id b s : collapsed_from b s = true -> collapse_from b s = s.
Proof.
  revert b. induction s as [|c s IH]; intros b; [done|]. cbn.
  destruct (is_space c).
  - destruct b; [done|]. cbn.
    destruct (Ascii.eqb_spec c SP) as [->|]; [|done]. cbn.
    intros H. by rewrite IH.
  - intros H. by rewrite IH.
Qed.

Lemma collapsed_from_weaken s :
  collapsed_from true s = true -> collapsed_from false s = true.
Proof. destruct s as [|c s]; [done|]. cbn. by destruct (is_space c). Qed.

Lemma collapsed_lstrip b s :
  collapsed_from b s = true -> collapsed_from false (lstrip s) = true.
Proof.
  revert b. induction s as [|c s IH]; intros b; [done|].
  cbn [lstrip]. destruct (is_space c) eqn:Hc.
  - cbn. rewrite Hc. intros H.
    apply andb_prop in H as [H Hs]. eauto.
  - cbn. rewrite Hc. auto.
Qed.

Lemma collapsed_rstrip b s :
  collapsed_from b s = true -> collapsed_from b (rstrip s) = true.
Proof.
  revert b. induction s as [|c s IH]; intros b; [done|].
  cbn [rstrip collapsed_from]. destruct (is_space c) eqn:Hc; cbn [andb].
  - intros H. apply andb_prop in H as [H Hs].
    destruct (String.eqb (rstrip s) ""); [done|].
    cbn. rewrite Hc, H. cbn. auto.
  - intros H. cbn. rewrite Hc. auto.
Qed.

(** *** Stripping *)

Lemma rstrip_idemp s : rstrip (rstrip s) = rstrip s.
Proof.
  induction s as [|c s IH]; [done|]. cbn [rstrip].
  destruct (is_space c && String.eqb (rstrip s) "") eqn:Hc; [done|].
  cbn [rstrip]. by rewrite IH, Hc.
Qed.

Lemma rstrip_lstrip_fixed s : rstrip s = s -> rstrip (lstrip s) = lstrip s.
Proof.
  induction s as [|c s IH]; [done|]. cbn [lstrip].
  destruct (is_space c) eqn:Hc; [|done].
  cbn [rstrip]. rewrite Hc. cbn [andb].
  destruct (String.eqb (rstrip s) ""); [done|].
  intros [= H]. auto.
Qed.

Lemma lstrip_idemp s : lstrip (lstrip s) = lstrip s.
Proof.
  induction s as [|c s IH]; [done|]. cbn [lstrip].
  destruct (is_space c) eqn:Hc; [done|]. cbn [lstrip]. by rewrite Hc.
Qed.

Lemma strip_idemp s : strip (strip s) = strip s.
Proof.
  unfold strip.
  rewrite (rstrip_lstrip_fixed (rstrip s)) by apply rstrip_idemp.
  apply lstrip_idemp.
Qed.

Lemma rstrip_empty_blank s : rstrip s = "" <-> blank s = true.
Proof.
  induction s as [|c s IH]; [done|]. cbn [rstrip blank].
  destruct (is_space c); cbn [andb].
  - destruct (String.eqb (rstrip s) "") eqn:He.
    + apply string_eqb_empty in He. split; [|done]. intros _. by apply IH.
    + split; [done|]. intros Hb. apply IH in Hb. rewrite Hb in He. done.
  - done.
Qed.

Lemma lstrip_empty_blank s : lstrip s = "" <-> blank s = true.
Proof.
  induction s as [|c s IH]; [done|]. cbn [lstrip blank].
  destruct (is_space c); cbn [andb]; done.
Qed.

(** [s.strip() == ""] holds exactly for the whitespace-only strings. *)
Lemma strip_empty_blank s : String.eqb (strip s) "" = blank s.
Proof.
  apply eq_true_iff_eq. rewrite string_eqb_empty. unfold strip.
  rewrite lstrip_empty_blank. split.
  - intros Hb. apply rstrip_empty_blank in Hb. rewrite rstrip_idemp in Hb.
    by apply rstrip_empty_blank.
  - intros Hb. apply rstrip_empty_blank in Hb. by rewrite Hb.
Qed.

(** The normal form [_clean_dataframe] gives a text cell. *)
Lemma normalise_idemp s :
  let t := strip (collapse (remove_nul s)) in
  strip (collapse (remove_nul t)) = t.
Proof.
  intros t.
  assert (Hn : nul_free t = true).
  { apply nul_free_lstrip, nul_free_rstrip, nul_free_collapse_from,
      nul_free_remove_nul. }
  assert (Hc : collapsed_from false t = true).
  { eapply collapsed_lstrip, collapsed_rstrip, collapsed_collapse_from. }
  rewrite (remove_nul_id _ Hn). unfold collapse.
  rewrite (collapse_from_id _ _ Hc). apply strip_idemp.
Qed.

End TextFacts.

(** ** [drop_duplicates] *)

Section DropDuplicates.

Variable subset : list string.

Lemma drop_duplicates_from_sublist seen df :
  sublist (drop_duplicates_from seen subset df) df.
Proof.
  revert seen. induction df as [|r df IH]; intros seen; cbn; [constructor|].
  case_bool_decide.
  - by apply sublist_cons.
  - by apply sublist_skip.
Qed.

Lemma drop_duplicates_from_fresh seen df r :
  r ∈ drop_duplicates_from seen subset df -> key_of subset r ∉ seen.
Proof.
  revert seen. induction df as [|r0 df IH]; intros seen; cbn.
  - by intros ?%elem_of_nil.
  - case_bool_decide as Hseen.
    + apply IH.
    + intros [->|Hr]%elem_of_cons; [done|].
      apply IH in Hr. by apply not_elem_of_cons in Hr as [_ ?].
Qed.

Lemma drop_duplicates_from_NoDup seen df :
  NoDup (map (key_of subset) (drop_duplicates_from seen subset df)).
Proof.
  revert seen. induction df as [|r0 df IH]; intros seen; cbn; [constructor|].
  case_bool_decide as Hseen; [apply IH|].
  cbn. constructor; [|apply IH].
  intros (r & Hk & Hr)%list_elem_of_fmap.
  apply drop_duplicates_from_fresh in Hr.
  apply Hr. rewrite <- Hk. by left.
Qed.

Lemma drop_duplicates_from_first seen df r :
  r ∈ drop_duplicates_from seen subset df ->
  first_with_key subset (key_of subset r) df = Some r.
Proof.
  revert seen. induction df as [|r0 df IH]; intros seen; cbn.
  - by intros ?%elem_of_nil.
  - case_bool_decide as Hseen.
    + intros Hr. case_bool_decide as Hk.
      * apply drop_duplicates_from_fresh in Hr. by rewrite <- Hk in Hr.
      * by eapply IH.
    + intros [->|Hr]%elem_of_cons.
      * by rewrite bool_decide_eq_true_2.
      * case_bool_decide as Hk.
        -- apply drop_duplicates_from_fresh in Hr.
           rewrite <- Hk in Hr. exfalso. apply Hr. by left.
        -- by eapply IH.
Qed.

Lemma drop_duplicates_from_kept seen df k r :
  k ∉ seen -> first_with_key subset k df = Some r ->
  r ∈ drop_duplicates_from seen subset df.
Proof.
  revert seen. induction df as [|r0 df IH]; intros seen Hk; cbn; [done|].
  case_bool_decide as Hkey.
  - intros [= ->]. rewrite bool_decide_eq_false_2 by by rewrite Hkey.
    by left.
  - intros Hf. case_bool_decide as Hseen; [by apply IH|].
    right. apply IH; [|done]. apply not_elem_of_cons. by split.
Qed.

Lemma first_with_key_found df r :
  r ∈ df -> exists r0, first_with_key subset (key_of subset r) df = Some r0.
Proof.
  induction df as [|r1 df IH]; cbn; [by intros ?%elem_of_nil|].
  intros [->|Hr]%elem_of_cons.
  - rewrite bool_decide_eq_true_2 by done. eauto.
  - case_bool_decide; eauto.
Qed.

Lemma first_with_key_Some df k r :
  first_with_key subset k df = Some r -> r ∈ df /\ key_of subset r = k.
Proof.
  intros [Hin Hk]%List.find_some. split; [by apply list_elem_of_In|].
  by apply bool_decide_eq_true in Hk.
Qed.

(** What [drop_duplicates(subset, keep="first")] returns: a sub-frame in
    the original order, with pairwise different keys, made of exactly the
    first row of each key. *)
Lemma drop_duplicates_spec df :
  let out := drop_duplicates subset df in
  sublist out df
  /\ NoDup (map (key_of subset) out)
  /\ (forall r, r ∈ out <-> first_with_key subset (key_of subset r) df = Some r)
  /\ (forall r, r ∈ df -> exists r0, r0 ∈ out /\ key_of subset r0 = key_of subset r).
Proof.
  unfold drop_duplicates. repeat split.
  - apply drop_duplicates_from_sublist.
  - apply drop_duplicates_from_NoDup.
  - apply drop_duplicates_from_first.
  - apply drop_duplicates_from_kept. apply not_elem_of_nil.
  - intros r Hr. destruct (first_with_key_found df r Hr) as [r0 Hf].
    exists r0. split.
    + eapply drop_duplicates_from_kept; [apply not_elem_of_nil|done].
    + by apply first_with_key_Some in Hf as [_ ?].
Qed.

End DropDuplicates.

(** ** Facebook: flattening *)

Section FacebookFlatten.

Import Facebook.

Lemma foldl_append_flat_map {A B : Type} (f : A -> list B) (init : list B)
    (l : list A) :
  foldl (fun acc x => acc ++ f x) init l = init ++ flat_map f l.
Proof.
  revert init. induction l as [|x l IH]; intros init; cbn.
  - by rewrite app_nil_r.
  - by rewrite IH, app_assoc.
Qed.

Lemma foldl_append_map {A B : Type} (f : A -> B) (init : list B) (l : list A) :
  foldl (fun acc x => acc ++ [f x]) init l = init ++ map f l.
Proof.
  revert init. induction l as [|x l IH]; intros init; cbn.
  - by rewrite app_nil_r.
  - by rewrite IH, <- app_assoc.
Qed.

Lemma foldl_pointwise {A B : Type} (f g : B -> A -> B) (init : B) (l : list A) :
  (forall acc x, f acc x = g acc x) -> foldl f init l = foldl g init l.
Proof.
  intros Hfg. revert init. induction l as [|x l IH]; intros init; cbn; [done|].
  by rewrite Hfg, IH.
Qed.

(** The nested loops append, post by post, the rows of [rows_of_post]. *)
Lemma rows_loop_flat_map finish data :
  rows_loop finish data = flat_map (rows_of_post finish) data.
Proof.
  unfold rows_loop.
  rewrite <- (app_nil_l (flat_map _ _)).
  rewrite <- foldl_append_flat_map.
  apply foldl_pointwise. intros rows p.
  unfold rows_of_post. destruct (post_comments p) as [|c cs]; [done|].
  apply (foldl_append_map
           (fun c => finish (dict_merge (_flatten_post p) (_flatten_comment c)))).
Qed.

Lemma rows_of_post_length finish p :
  length (rows_of_post finish p) = Nat.max 1 (length (post_comments p)).
Proof.
  unfold rows_of_post. destruct (post_comments p) as [|c cs]; [done|].
  by rewrite length_map.
Qed.

Lemma rows_loop_length finish data :
  length (rows_loop finish data)
  = sum_list (map (fun p => Nat.max 1 (length (post_comments p))) data).
Proof.
  rewrite rows_loop_flat_map.
  induction data as [|p data IH]; [done|]. cbn [flat_map map sum_list].
  by rewrite length_app, rows_of_post_length, IH.
Qed.

Lemma rows_loop_nil finish data : rows_loop finish data = [] <-> data = [].
Proof.
  split; [|by intros ->].
  intros H. apply (f_equal length) in H. rewrite rows_loop_length in H.
  destruct data as [|p data]; [done|]. cbn in H. lia.
Qed.

End FacebookFlatten.

(** C3. The flattening step makes exactly one row per (post, comment)
    pair. For every list of posts, the rows [_save_raw_data] writes and the
    rows [_process_and_save_final] builds are, post after post: for a post
    with comments, one row per comment, the merge of the post's flattened
    fields with that comment's flattened fields; for a post without
    comments, one row, the merge with the empty-comment defaults (the
    final rows having gone through [_clean_row]). So the number of rows
    before deduplication is the sum over the posts of max(1, number of
    comments). *)
Theorem C3_one_row_per_post_comment_pair (data : list Facebook.post) :
  Facebook.raw_rows data = flat_map (Facebook.rows_of_post id) data
  /\ Facebook.final_rows data
     = flat_map (Facebook.rows_of_post Facebook._clean_row) data
  /\ (forall finish fields c cs,
        let p := Facebook.Post fields (c :: cs) in
        Facebook.rows_of_post finish p
        = map (fun c => finish (dict_merge (Facebook._flatten_post p)
                                           (Facebook._flatten_comment c)))
              (c :: cs))
  /\ (forall finish fields,
        let p := Facebook.Post fields [] in
        Facebook.rows_of_post finish p
        = [finish (dict_merge (Facebook._flatten_post p)
                              Facebook._empty_comment)])
  /\ length (Facebook.raw_rows data)
     = sum_list (map (fun p => Nat.max 1 (length (Facebook.post_comments p))) data)
  /\ length (Facebook.final_rows data)
     = sum_list (map (fun p => Nat.max 1 (length (Facebook.post_comments p))) data).
Proof.
  unfold Facebook.raw_rows, Facebook.final_rows.
  rewrite !rows_loop_flat_map, <- !rows_loop_flat_map, !rows_loop_length.
  repeat split; apply rows_loop_flat_map.
Qed.

(** ** Facebook: derived columns *)

Section FacebookDerived.

Import Facebook.

Variable to_numeric_str : string -> option Z.

Lemma int_cell_insert_eq (r : gmap string pyval) c z :
  int_cell (<[c := PInt z]> r) c = z.
Proof. unfold int_cell. by rewrite lookup_insert_eq. Qed.



Lemma mapM_total {A B : Type} (f : A -> option B) (g : A -> B) (l : list A) :
  (forall x, f x = Some (g x)) -> mapM f l = Some (map g l).
Proof.
  intros Hf. induction l as [|x l IH]; [done|].
  cbn. rewrite Hf. cbn. by rewrite IH.
Qed.

(** *** The coercion loops *)





(** *** [idxmax] *)





(** *** The assigned columns *)

Lemma py_truediv_pos a b :
  (0 < b)%Z -> py_truediv a b = Some (Qmake a (Z.to_pos b)).
Proof.
  intros Hb. unfold py_truediv.
  destruct (Z.eqb_spec b 0) as [->|_]; [lia|].
  by rewrite Z.sgn_pos, Z.mul_1_r, Z.abs_eq by lia.
Qed.

Lemma sentiment_ratio_lambda_eq x :
  sentiment_ratio_lambda x
  = if (0 <? int_cell x "post_total_reactions")%Z
    then ([int_cell x "post_total_reactions"], Some (guarded_ratio x))
    else ([], Some (guarded_ratio x)).
Proof.
  unfold sentiment_ratio_lambda, guarded_ratio.
  destruct (Z.ltb_spec 0 (int_cell x "post_total_reactions")); [|done].
  by rewrite py_truediv_pos.
Qed.


Lemma derive_row_eq r :
  derive_row r
  = Some {| cells := derive_cells r;
            floats := {["sentiment_ratio" := guarded_ratio (derive_cells r)]} |}.
Proof.
  unfold derive_row. cbv zeta. rewrite sentiment_ratio_lambda_eq.
  by destruct (_ <? _)%Z.
Qed.






Lemma add_derived_columns_eq df :
  _add_derived_columns to_numeric_str df
  = Some (map (fun r => {| cells := derive_cells r;
                           floats := {["sentiment_ratio" :=
                                        guarded_ratio (derive_cells r)]} |})
              (foldl (coerce_column to_numeric_str)
                 (foldl (coerce_column to_numeric_str) df emoji_cols)
                 total_cols)).
Proof. unfold _add_derived_columns. apply mapM_total, derive_row_eq. Qed.

End FacebookDerived.



(** ** Sentiment analyzers *)

Section SentimentFacts.

Variable clf : classifier.

(** The accumulating loop of the analyzers, as a map over the texts. *)
Lemma analyze_foldl {A : Type} (f : A -> list string * sentiment)
    (calls : list string) (results : list sentiment) (texts : list A) :
  foldl
    (fun acc text =>
       let '(c, r) := f text in (fst acc ++ c, snd acc ++ [r]))
    (calls, results) texts
  = (calls ++ concat (map (fun t => fst (f t)) texts),
     results ++ map (fun t => snd (f t)) texts).
Proof.
  revert calls results.
  induction texts as [|t texts IH]; intros calls results; cbn.
  - by rewrite !app_nil_r.
  - destruct (f t) as [c r] eqn:Hf. cbn. rewrite IH.
    by rewrite <- !app_assoc.
Qed.

Lemma concat_calls {A : Type} (skip : A -> bool) (arg : A -> string)
    (texts : list A) :
  concat (map (fun t => if skip t then [] else [arg t]) texts)
  = map arg (List.filter (fun t => negb (skip t)) texts).
Proof.
  induction texts as [|t texts IH]; [done|]. cbn.
  destruct (skip t); cbn; by rewrite IH.
Qed.

Lemma zip_with_map_r {A B C : Type} (f : A -> B -> C) (g : A -> B) (l : list A) :
  zip_with f l (map g l) = map (fun x => f x (g x)) l.
Proof. induction l as [|x l IH]; [done|]. cbn. by rewrite IH. Qed.

(** *** Facebook *)

Lemma fb_analyze_one_eq text :
  SentimentAnalyzer.analyze_one clf text
  = (if spec_skipped text then [] else [Text.take 512 text],
     spec_sentiment clf text).
Proof.
  unfold SentimentAnalyzer.analyze_one, spec_sentiment, spec_skipped.
  rewrite strip_empty_blank.
  destruct (Text.blank text || String.eqb text "nan"); [done|].
  by destruct (clf _).
Qed.

Lemma fb_analyze_loop_eq texts :
  SentimentAnalyzer.analyze_loop clf texts
  = (map (Text.take 512) (List.filter (fun t => negb (spec_skipped t)) texts),
     map (spec_sentiment clf) texts).
Proof.
  unfold SentimentAnalyzer.analyze_loop. rewrite analyze_foldl. cbn [app].
  f_equal.
  - rewrite <- concat_calls. f_equal. apply map_ext. intros t.
    by rewrite fb_analyze_one_eq.
  - apply map_ext. intros t. by rewrite fb_analyze_one_eq.
Qed.

(** The frame [analyze_posts_and_comments] returns, row by row. *)
Lemma fb_analyze_frame df :
  snd (SentimentAnalyzer.analyze_posts_and_comments clf df)
  = map (spec_analyzed_row clf) df.
Proof.
  unfold SentimentAnalyzer.analyze_posts_and_comments.
  destruct df as [|r0 df0]; [done|].
  set (df := r0 :: df0). clearbody df.
  rewrite !fb_analyze_loop_eq. cbn [snd].
  rewrite !map_map, !zip_with_map_r, !map_map.
  apply map_ext. intros r. unfold spec_analyzed_row.
  cbn [set_sentiment cells]. by rewrite lookup_insert_ne by done.
Qed.




(** *** Instagram and Twitter *)

Lemma insta_analyze_one_eq v :
  InstagramSentimentAnalyzer.analyze_one clf v
  = (if spec_skipped_value v then [] else [Text.take 512 (py_str v)],
     spec_sentiment_value clf v).
Proof.
  unfold InstagramSentimentAnalyzer.analyze_one, spec_sentiment_value,
    spec_skipped_value, spec_skipped.
  rewrite strip_empty_blank, <- orb_assoc.
  destruct (_ || _); [done|]. by destruct (clf _).
Qed.

Lemma twitter_analyze_one_eq v :
  TwitterSentimentAnalyzer.analyze_one clf v
  = (if spec_skipped_value v then [] else [Text.take 512 (py_str v)],
     spec_sentiment_value clf v).
Proof.
  unfold TwitterSentimentAnalyzer.analyze_one, spec_sentiment_value,
    spec_skipped_value, spec_skipped.
  rewrite strip_empty_blank, <- orb_assoc.
  destruct (_ || _); [done|]. by destruct (clf _).
Qed.

Lemma insta_batch_eq texts :
  InstagramSentimentAnalyzer.analyze_text_batch clf texts
  = (map (fun v => Text.take 512 (py_str v))
       (List.filter (fun v => negb (spec_skipped_value v)) texts),
     map (spec_sentiment_value clf) texts).
Proof.
  unfold InstagramSentimentAnalyzer.analyze_text_batch.
  rewrite analyze_foldl. cbn [app]. f_equal.
  - rewrite <- concat_calls. f_equal. apply map_ext. intros t.
    by rewrite insta_analyze_one_eq.
  - apply map_ext. intros t. by rewrite insta_analyze_one_eq.
Qed.

Lemma twitter_batch_eq texts :
  TwitterSentimentAnalyzer.analyze_text_batch clf texts
  = (map (fun v => Text.take 512 (py_str v))
       (List.filter (fun v => negb (spec_skipped_value v)) texts),
     map (spec_sentiment_value clf) texts).
Proof.
  unfold TwitterSentimentAnalyzer.analyze_text_batch.
  rewrite analyze_foldl. cbn [app]. f_equal.
  - rewrite <- concat_calls. f_equal. apply map_ext. intros t.
    by rewrite twitter_analyze_one_eq.
  - apply map_ext. intros t. by rewrite twitter_analyze_one_eq.
Qed.

End SentimentFacts.


(** ** Facebook: the final frame *)

Section FacebookFinal.

Import Facebook.

Variable to_numeric_str : string -> option Z.

Lemma Forall2_map_eq {A B C : Type} (f : A -> C) (g : B -> C) l l' :
  Forall2 (fun x y => f x = g y) l l' -> map f l = map g l'.
Proof. induction 1 as [|x y l l' Hxy _ IH]; [done|]. cbn. by rewrite Hxy, IH. Qed.

Lemma coerce_column_Forall2 df c :
  Forall2 (fun r r' => forall k, k ≠ c -> r' !! k = r !! k)
    df (coerce_column to_numeric_str df c).
Proof.
  unfold coerce_column.
  destruct (negb (has_column df c));
    apply Forall2_fmap_r, Forall_Forall2_diag, Forall_forall;
    intros r _ k Hk; by rewrite lookup_insert_ne.
Qed.

Lemma coerce_loop_Forall2 df cols :
  Forall2 (fun r r' => forall k, k ∉ cols -> r' !! k = r !! k)
    df (foldl (coerce_column to_numeric_str) df cols).
Proof.
  revert df. induction cols as [|c cols IH]; intros df; cbn.
  - by apply Forall_Forall2_diag, Forall_forall.
  - eapply Forall2_trans; [|apply coerce_column_Forall2|apply IH].
    cbn. intros r r1 r2 H1 H2 k [Hk1 Hk2]%not_elem_of_cons.
    rewrite H2 by done. by apply H1.
Qed.

Lemma derive_cells_other (r : gmap string pyval) k :
  k ∉ assigned_cols -> derive_cells r !! k = r !! k.
Proof.
  unfold assigned_cols, emoji_cols, total_cols. cbn [app].
  rewrite !not_elem_of_cons. intros H. unfold derive_cells.
  rewrite !lookup_insert_ne; [done|..]; intros <-; tauto.
Qed.

Lemma spec_analyzed_row_other clf r k :
  k ∉ assigned_cols -> cells (spec_analyzed_row clf r) !! k = cells r !! k.
Proof.
  unfold assigned_cols, emoji_cols, total_cols. cbn [app].
  rewrite !not_elem_of_cons. intros H.
  unfold spec_analyzed_row, set_sentiment. cbn [cells].
  rewrite !lookup_insert_ne; [done|..]; intros <-; tauto.
Qed.

(** The frame written to the final CSV is the deduplicated frame, row for
    row, with only the assigned columns changed. *)
Lemma process_and_save_final_rows analyzer data :
  match _process_and_save_final to_numeric_str analyzer data with
  | None => data = []
  | Some df =>
      Forall2 (fun r' r => forall k, k ∉ assigned_cols -> cells r' !! k = r !! k)
        df
        (drop_duplicates ["post_id"; "comment_id"]
           (_clean_dataframe (final_rows data)))
  end.
Proof.
  unfold _process_and_save_final.
  destruct (final_rows data) as [|r0 rows0] eqn:Hrows.
  { by apply rows_loop_nil in Hrows. }
  rewrite add_derived_columns_eq.
  set (kept := drop_duplicates _ _).
  set (coerced := foldl _ (foldl _ kept emoji_cols) total_cols).
  assert (Hco : Forall2 (fun r r' => forall k, k ∉ assigned_cols -> r' !! k = r !! k)
                  kept coerced).
  { eapply Forall2_trans; [|apply coerce_loop_Forall2|apply coerce_loop_Forall2].
    intros r r1 r2 H1 H2 k Hk. cbn beta in *.
    unfold assigned_cols in Hk. rewrite !not_elem_of_app in Hk.
    rewrite H2 by tauto. apply H1. tauto. }
  apply Forall2_flip.
  destruct analyzer as [clf|].
  - rewrite fb_analyze_frame, map_map. apply Forall2_fmap_r.
    eapply Forall2_impl; [exact Hco|]. intros r r' H k Hk. cbn beta.
    rewrite spec_analyzed_row_other by done. cbn [cells].
    rewrite derive_cells_other by done. by apply H.
  - apply Forall2_fmap_r.
    eapply Forall2_impl; [exact Hco|]. intros r r' H k Hk. cbn [cells].
    rewrite derive_cells_other by done. by apply H.
Qed.

Lemma key_not_assigned :
  ("post_id" ∉ assigned_cols) /\ ("comment_id" ∉ assigned_cols).
Proof.
  unfold assigned_cols, emoji_cols, total_cols. cbn [app].
  rewrite !not_elem_of_cons. split; repeat split; try done; apply not_elem_of_nil.
Qed.

End FacebookFinal.

(** ** Instagram: the post-URL frame *)

Section InstagramPostUrls.

Import Instagram.

Lemma comment_record_has_id base c :
  is_Some (comment_record base c !! "comment_id").
Proof.
  unfold comment_record, dict_merge, dict_of. cbn [foldl fst snd].
  eexists. apply lookup_union_Some_l.
  rewrite !lookup_insert_ne by done. apply lookup_insert_eq.
Qed.

Lemma no_comment_record_has_id base :
  is_Some (no_comment_record base !! "comment_id").
Proof.
  unfold no_comment_record, dict_merge, dict_of. cbn [foldl fst snd].
  eexists. apply lookup_union_Some_l.
  rewrite !lookup_insert_ne by done. apply lookup_insert_eq.
Qed.

Lemma records_of_item_has_id include_comments max_comments it rs :
  records_of_item include_comments max_comments it = Returned rs ->
  Forall (fun r => is_Some (r !! "comment_id")) rs.
Proof.
  unfold records_of_item. destruct (post_url_of _) as [post_url|]; [|done].
  cbv zeta.
  set (comments := match latestComments it with Some _ => _ | None => _ end).
  destruct comments as [|c cs].
  - intros [= <-]. repeat constructor. apply no_comment_record_has_id.
  - intros [= <-].
    change (Forall (fun r => is_Some (r !! "comment_id"))
              (map (comment_record (base_record (item_fields it) post_url))
                   (c :: cs))).
    apply Forall_forall. intros r (c' & -> & _)%list_elem_of_fmap.
    apply comment_record_has_id.
Qed.

Lemma unified_records_from_has_id include_comments max_comments items acc records :
  foldl
    (fun acc it =>
       match acc with
       | Propagated e => Propagated e
       | Returned records =>
           match records_of_item include_comments max_comments it with
           | Propagated e => Propagated e
           | Returned rs => Returned (records ++ rs)
           end
       end)
    acc items = Returned records ->
  (forall rs, acc = Returned rs ->
              Forall (fun r => is_Some (r !! "comment_id")) rs) ->
  Forall (fun r => is_Some (r !! "comment_id")) records.
Proof.
  revert acc. induction items as [|it items IH]; intros acc; cbn.
  - intros -> H. by apply H.
  - intros Hf Hacc. eapply IH; [exact Hf|].
    intros rs. destruct acc as [recs|e]; [|done].
    destruct (records_of_item _ _ it) as [rs'|e] eqn:Hit; [|done].
    intros [= <-]. apply Forall_app. split; [by apply Hacc|].
    by eapply records_of_item_has_id.
Qed.

Lemma unified_records_has_id include_comments max_comments items records :
  unified_records include_comments max_comments items = Returned records ->
  Forall (fun r => is_Some (r !! "comment_id")) records.
Proof.
  intros H. eapply unified_records_from_has_id; [exact H|].
  by intros rs [= <-].
Qed.

Lemma has_column_Forall df col :
  Forall (fun r => is_Some (r !! col)) df -> df ≠ [] -> has_column df col = true.
Proof.
  destruct 1 as [|r df Hr _]; [done|]. intros _. cbn.
  by rewrite bool_decide_eq_true_2.
Qed.

(** [scrape_post_urls] returns the deduplicated records: the
    [comment_id] column is there whenever there is a row. *)
Lemma scrape_post_urls_frame (w : world item) n include_comments max_comments :
  fst (scrape_post_urls w n include_comments max_comments)
  = match unified_records include_comments max_comments
            (fst (_run_apify_actor w n)) with
    | Propagated e => Propagated e
    | Returned records =>
        Returned (drop_duplicates ["post_url"; "comment_id"] records)
    end.
Proof.
  unfold scrape_post_urls. destruct (_run_apify_actor w n) as [post_items n'].
  cbn [fst]. destruct post_items as [|it items]; [done|].
  destruct (unified_records _ _ (it :: items)) as [records|e] eqn:Hrec; [|done].
  cbn [fst]. f_equal. destruct records as [|r records]; [by destruct (has_column _ _)|].
  rewrite (has_column_Forall (r :: records)); [done| |done].
  by eapply unified_records_has_id.
Qed.

End InstagramPostUrls.

(** C1. The final table is deduplicated by the composite key. Facebook:
    [_process_and_save_final] writes a file for every non-empty [data], and
    in the DataFrame it writes no two rows have both the same [post_id] and
    the same [comment_id]; its rows are, in order, the rows
    [drop_duplicates] keeps of the cleaned frame, changed only in the
    columns assigned afterwards; a row is kept exactly when it is the first
    row of the cleaned frame with its key, and every key of the cleaned
    frame is still in the final frame. Instagram: the DataFrame
    [scrape_post_urls] returns is the deduplicated frame of the unified
    records, in which no two rows have both the same [post_url] and the
    same [comment_id] and the first row of every key is the one kept. *)
Theorem C1_final_table_deduplicated (to_numeric_str : string -> option Z)
    (analyzer : option classifier) (data : list Facebook.post)
    (w : world Instagram.item) (n : nat) (include_comments : bool)
    (max_comments : Z) :
  (let key := key_of ["post_id"; "comment_id"] in
   let input := Facebook._clean_dataframe (Facebook.final_rows data) in
   let kept := drop_duplicates ["post_id"; "comment_id"] input in
   match Facebook._process_and_save_final to_numeric_str analyzer data with
   | None => data = []
   | Some df =>
       NoDup (map (fun r => key (cells r)) df)
       /\ Forall2
            (fun r' r =>
               forall k, k ∉ Facebook.assigned_cols -> cells r' !! k = r !! k)
            df kept
       /\ (forall r, r ∈ kept
                     <-> first_with_key ["post_id"; "comment_id"] (key r) input
                         = Some r)
       /\ (forall r, r ∈ input ->
                     exists r', r' ∈ df /\ key (cells r') = key r)
   end)
  /\ (let key := key_of ["post_url"; "comment_id"] in
      fst (Instagram.scrape_post_urls w n include_comments max_comments)
      = match Instagram.unified_records include_comments max_comments
                (fst (Instagram._run_apify_actor w n)) with
        | Propagated e => Propagated e
        | Returned records =>
            Returned (drop_duplicates ["post_url"; "comment_id"] records)
        end
      /\ forall records,
           let df := drop_duplicates ["post_url"; "comment_id"] records in
           NoDup (map key df)
           /\ (forall r, r ∈ df
                         <-> first_with_key ["post_url"; "comment_id"] (key r)
                               records = Some r)
           /\ (forall r, r ∈ records -> exists r0, r0 ∈ df /\ key r0 = key r)).
Proof.
  split.
  - cbv zeta.
    pose proof (process_and_save_final_rows to_numeric_str analyzer data) as Hrows.
    destruct (Facebook._process_and_save_final _ _ _) as [df|]; [|done].
    destruct (drop_duplicates_spec ["post_id"; "comment_id"]
                (Facebook._clean_dataframe (Facebook.final_rows data)))
      as (_ & Hnodup & Hfirst & Hall).
    destruct key_not_assigned as [Hp Hc].
    assert (Hkeys : Forall2
              (fun r' r => key_of ["post_id"; "comment_id"] (cells r')
                           = key_of ["post_id"; "comment_id"] r)
              df (drop_duplicates ["post_id"; "comment_id"]
                    (Facebook._clean_dataframe (Facebook.final_rows data)))).
    { eapply Forall2_impl; [exact Hrows|]. intros r' r H.
      unfold key_of, dict_get_none, dict_get. cbn [map].
      by rewrite !H by done. }
    repeat split.
    + by rewrite (Forall2_map_eq _ _ _ _ Hkeys).
    + exact Hrows.
    + apply Hfirst.
    + apply Hfirst.
    + intros r Hr. destruct (Hall r Hr) as (r0 & Hr0 & Hk).
      apply list_elem_of_lookup in Hr0 as [i Hi].
      destruct (Forall2_lookup_r _ _ _ _ _ Hkeys Hi) as (r' & Hi' & Hk').
      exists r'. split; [by eapply list_elem_of_lookup_2|]. congruence.
  - cbv zeta. split; [apply scrape_post_urls_frame|].
    intros records.
    destruct (drop_duplicates_spec ["post_url"; "comment_id"] records)
      as (_ & Hnodup & Hfirst & Hall).
    repeat split; try done; apply Hfirst.
Qed.

(** ** Twitter: the final frame *)

Section TwitterFinal.

Import Twitter.

Lemma final_rows_flat_map data : final_rows data = flat_map rows_of_tweet data.
Proof. unfold final_rows. by rewrite foldl_append_flat_map. Qed.

Lemma list3_eq {A : Type} (a b c x y z : A) :
  a = x -> b = y -> c = z -> [a; b; c] = [x; y; z].
Proof. by intros -> -> ->. Qed.

Lemma reply_row_key tid text profile plink tlink r :
  key_of ["tweet_id"; "interaction_type"; "username"]
    (reply_row tid text profile plink tlink r)
  = [tid; PStr "reply"; dict_get_none r "author_username"].
Proof.
  unfold key_of. cbn [map]. unfold reply_row, dict_of. cbn [foldl fst snd].
  apply list3_eq;
    unfold dict_get_none at 1, dict_get at 1;
    rewrite ?lookup_insert_ne by done; by rewrite lookup_insert_eq.
Qed.

Lemma retweeter_row_key tid text profile plink tlink r :
  key_of ["tweet_id"; "interaction_type"; "username"]
    (retweeter_row tid text profile plink tlink r)
  = [tid; PStr "retweeter"; dict_get_none r "userName"].
Proof.
  unfold key_of. cbn [map]. unfold retweeter_row, dict_of. cbn [foldl fst snd].
  apply list3_eq;
    unfold dict_get_none at 1, dict_get at 1;
    rewrite ?lookup_insert_ne by done; by rewrite lookup_insert_eq.
Qed.

Lemma rows_of_tweet_keys t :
  map (key_of ["tweet_id"; "interaction_type"; "username"]) (rows_of_tweet t)
  = scraped_keys t.
Proof.
  unfold rows_of_tweet, scraped_keys. cbv zeta.
  destruct (replies t) as [|first rest]; cbn [tail];
    rewrite map_app, !map_map; f_equal; apply map_ext; intros r;
    auto using reply_row_key, retweeter_row_key.
Qed.

Lemma final_rows_keys data :
  map (key_of ["tweet_id"; "interaction_type"; "username"]) (final_rows data)
  = flat_map scraped_keys data.
Proof.
  rewrite final_rows_flat_map.
  induction data as [|t data IH]; [done|]. cbn [flat_map].
  by rewrite map_app, rows_of_tweet_keys, IH.
Qed.

Lemma set_sentiment_key lab sc r s :
  lab ∉ ["tweet_id"; "interaction_type"; "username"] ->
  interaction_key (set_sentiment lab sc r s) = interaction_key r.
Proof.
  rewrite !not_elem_of_cons. intros (? & ? & ? & _).
  unfold interaction_key, key_of, dict_get_none, dict_get, set_sentiment.
  cbn [map cells]. by rewrite !lookup_insert_ne by done.
Qed.

Lemma fill_replies_keys df results :
  map interaction_key (fill_replies df results) = map interaction_key df.
Proof.
  revert results. induction df as [|r df IH]; intros results; [done|].
  cbn [fill_replies]. destruct (is_reply r); [destruct results|];
    cbn [map]; rewrite IH, set_sentiment_key; try done;
    rewrite !not_elem_of_cons; repeat split; try done; apply not_elem_of_nil.
Qed.

Lemma zip_with_set_sentiment_keys lab sc df results :
  lab ∉ ["tweet_id"; "interaction_type"; "username"] ->
  length results = length df ->
  map interaction_key (zip_with (set_sentiment lab sc) df results)
  = map interaction_key df.
Proof.
  intros Hlab. revert results.
  induction df as [|r df IH]; intros [|s results]; try done.
  cbn [length zip_with map]. intros [= Hlen]. by rewrite IH, set_sentiment_key.
Qed.

Lemma analyze_twitter_data_keys clf df :
  map interaction_key (analyze_twitter_data clf df) = map interaction_key df.
Proof.
  unfold analyze_twitter_data. destruct df as [|r0 df0]; [done|].
  set (df := r0 :: df0). clearbody df.
  rewrite fill_replies_keys. apply zip_with_set_sentiment_keys.
  - rewrite !not_elem_of_cons; repeat split; try done; apply not_elem_of_nil.
  - rewrite twitter_batch_eq. cbn [snd]. by rewrite !length_map.
Qed.

Lemma analyze_twitter_data_length clf df :
  length (analyze_twitter_data clf df) = length df.
Proof.
  rewrite <- (length_map interaction_key), analyze_twitter_data_keys.
  apply length_map.
Qed.

End TwitterFinal.

(** C2, the claim as stated, fails: one tweet whose retweeter list holds
    the same account twice gives a final frame with two rows of the same
    tweet id, interaction type and username, with or without the
    sentiment step. *)
Lemma C2_counterexample_duplicate_interaction :
  (exists df,
      Twitter._process_and_save_final None Twitter.retweeted_twice = Some df
      /\ ~ NoDup (map Twitter.interaction_key df))
  /\ (exists df,
        Twitter._process_and_save_final (Some (fun _ => None))
          Twitter.retweeted_twice = Some df
        /\ ~ NoDup (map Twitter.interaction_key df)).
Proof.
  split; (eexists; split; [reflexivity|]);
    apply (bool_decide_unpack _); by vm_compute.
Qed.

(** C2, amended. The Twitter final table is not deduplicated:
    [_process_and_save_final] writes a file whenever there is a row, and
    the DataFrame it writes has, in order, exactly one row per scraped
    reply after the first and one row per scraped retweeter of each tweet.
    The (tweet id, interaction type, username) keys of its rows are the
    keys of the scraped interactions, each as often as it was scraped; so
    no two rows share a key exactly when no two scraped interactions do. *)
Theorem C2_twitter_rows_as_scraped (analyzer : option classifier)
    (data : list Twitter.tweet_data) :
  match Twitter._process_and_save_final analyzer data with
  | None => flat_map Twitter.scraped_keys data = []
  | Some df =>
      map Twitter.interaction_key df = flat_map Twitter.scraped_keys data
      /\ length df
         = sum_list
             (map (fun t => (length (tail (Twitter.replies t))
                             + length (Twitter.retweeters t))%nat) data)
      /\ (NoDup (map Twitter.interaction_key df)
          <-> NoDup (flat_map Twitter.scraped_keys data))
  end.
Proof.
  unfold Twitter._process_and_save_final.
  pose proof (final_rows_keys data) as Hkeys.
  destruct (Twitter.final_rows data) as [|r0 rows0] eqn:Hrows; [done|].
  set (rows := r0 :: rows0) in *. clearbody rows.
  assert (Hk : map Twitter.interaction_key
                 match analyzer with
                 | Some clf => Twitter.analyze_twitter_data clf (map of_cells rows)
                 | None => map of_cells rows
                 end
               = flat_map Twitter.scraped_keys data).
  { rewrite <- Hkeys. destruct analyzer as [clf|].
    - rewrite analyze_twitter_data_keys. by rewrite map_map.
    - by rewrite map_map. }
  repeat split.
  - exact Hk.
  - rewrite <- (length_map Twitter.interaction_key), Hk.
    clear. induction data as [|t data IH]; [done|]. cbn [flat_map map sum_list].
    rewrite length_app, IH. f_equal.
    unfold Twitter.scraped_keys. by rewrite length_app, !length_map.
  - by rewrite Hk.
  - by rewrite Hk.
Qed.

(** ** The actor helpers *)

Section ActorHelpers.

(** *** Facebook *)

Lemma scrape_comments_returns (w : world (gmap string pyval)) n post_url :
  exists comments, fst (Facebook._scrape_comments w n post_url) = Returned comments.
Proof.
  unfold Facebook._scrape_comments.
  destruct (_ || _); [by eexists|].
  destruct (call (w n)) as [|run]; [by eexists|].
  destruct (_ || _); [by eexists|].
  destruct (iterate_items (w n)); by eexists.
Qed.

Lemma scrape_comments_calls (w : world (gmap string pyval)) n post_url :
  snd (Facebook._scrape_comments w n post_url)
  = if negb (truthy post_url) || Text.blank (py_str post_url) then n else S n.
Proof.
  unfold Facebook._scrape_comments. rewrite strip_empty_blank.
  destruct (_ || _); [done|].
  destruct (call (w n)) as [|run]; [done|].
  destruct (_ || _); [done|].
  by destruct (iterate_items (w n)).
Qed.

Lemma scrape_comments_loop_from (w : world (gmap string pyval)) posts done n :
  exists complete n',
    foldl
      (fun acc p =>
         match fst acc with
         | None => acc
         | Some complete_data =>
             match Facebook._scrape_comments w (snd acc)
                     (dict_get (Facebook.post_fields p) "url" (PStr "")) with
             | (Returned comments, n') =>
                 (Some (complete_data
                          ++ [{| Facebook.post_fields := Facebook.post_fields p;
                                 Facebook.post_comments := comments |}]), n')
             | (Propagated _, n') => (None, n')
             end
         end)
      (Some done, n) posts
    = (Some (done ++ complete), n')
    /\ Forall2 (fun p p' => Facebook.post_fields p' = Facebook.post_fields p)
         posts complete.
Proof.
  revert done n. induction posts as [|p posts IH]; intros done n; cbn [foldl].
  - exists [], n. by rewrite app_nil_r.
  - cbn [fst snd].
    destruct (scrape_comments_returns w n
                (dict_get (Facebook.post_fields p) "url" (PStr ""))) as [cs Hcs].
    destruct (Facebook._scrape_comments w n _) as [res n1]. cbn in Hcs. subst res.
    destruct (IH (done ++ [{| Facebook.post_fields := Facebook.post_fields p;
                              Facebook.post_comments := cs |}]) n1)
      as (complete & n' & Heq & Hall).
    eexists (_ :: complete), n'. rewrite Heq. split.
    + by rewrite <- app_assoc.
    + by constructor.
Qed.

(** *** Instagram *)

Lemma run_apify_actor_unfold {I : Type} (w : world I) n :
  Instagram._run_apify_actor w n
  = match Instagram.try_attempt (w n) with
    | Some items => (items, S n)
    | None =>
        match Instagram.try_attempt (w (S n)) with
        | Some items => (items, S (S n))
        | None =>
            match Instagram.try_attempt (w (S (S n))) with
            | Some items => (items, S (S (S n)))
            | None => ([], S (S (S n)))
            end
        end
    end.
Proof.
  unfold Instagram._run_apify_actor. cbn.
  repeat (destruct (Instagram.try_attempt _); [done|]). done.
Qed.

End ActorHelpers.


(** C6, the claim as stated, fails in two places. Instagram: the first
    call raises, and the helper, instead of returning an empty list, calls
    again and returns the item of the second attempt. Twitter: the call
    returns no run at all ([None]), so no dataset id is returned, and the
    helper lets the [AttributeError] of [run.get] out. *)
Lemma C6_counterexample_retry_and_missing_run :
  (call (fails_once 0) = CallRaises
   /\ fst (Instagram._run_apify_actor fails_once 0) <> []
   /\ snd (Instagram._run_apify_actor fails_once 0) = 2%nat)
  /\ (call (returns_no_run 0) = CallReturns None
      /\ Twitter._run_actor_and_get_items returns_no_run 0
         = (Propagated "AttributeError", 1%nat)).
Proof. by vm_compute. Qed.

(** C6, amended. Failures of the service give empty results.
    - Facebook, [_scrape_comments]: it always returns a list; the list is
      empty when the call raises, when the run is [None] or empty or has no
      [defaultDatasetId] key, and when iterating the dataset raises. Its
      caller, the comment loop of [scrape_from_url], always runs to the end
      and keeps every post.
    - Twitter, [_run_actor_and_get_items]: it returns an empty list when
      the call raises, when the run it got has no (or an empty)
      [defaultDatasetId], and when iterating the dataset raises; then
      [_scrape_replies] and [_scrape_retweeters] return an empty list too.
    - Instagram, [_run_apify_actor]: it always returns a list; an attempt
      fails when the call raises, returns no run, or the iteration raises;
      a failed attempt is retried, and the list is empty when a run without
      dataset id is returned and when all three attempts fail. With an
      empty list [scrape_post_urls] returns an empty DataFrame. *)
Theorem C6_failures_give_empty_results :
  (forall (w : world (gmap string pyval)) n post_url,
      exists comments,
        fst (Facebook._scrape_comments w n post_url) = Returned comments)
  /\ (forall (w : world (gmap string pyval)) n post_url,
        call (w n) = CallRaises ->
        fst (Facebook._scrape_comments w n post_url) = Returned [])
  /\ (forall (w : world (gmap string pyval)) n post_url run,
        call (w n) = CallReturns run ->
        run = None \/ run = Some ∅
        \/ default ∅ run !! "defaultDatasetId" = None ->
        fst (Facebook._scrape_comments w n post_url) = Returned [])
  /\ (forall (w : world (gmap string pyval)) n post_url,
        iterate_items (w n) = None ->
        fst (Facebook._scrape_comments w n post_url) = Returned [])
  /\ (forall (w : world (gmap string pyval)) posts n,
        exists complete_data,
          fst (Facebook.scrape_comments_loop w posts n) = Some complete_data
          /\ Forall2
               (fun p p' => Facebook.post_fields p' = Facebook.post_fields p)
               posts complete_data)
  /\ (forall (I : Type) (w : world I) n,
        call (w n) = CallRaises ->
        fst (Twitter._run_actor_and_get_items w n) = Returned [])
  /\ (forall (I : Type) (w : world I) n run,
        call (w n) = CallReturns (Some run) ->
        truthy (dict_get_none run "defaultDatasetId") = false ->
        fst (Twitter._run_actor_and_get_items w n) = Returned [])
  /\ (forall (I : Type) (w : world I) n run,
        call (w n) = CallReturns (Some run) ->
        iterate_items (w n) = None ->
        fst (Twitter._run_actor_and_get_items w n) = Returned [])
  /\ (forall (w : world Twitter.reply_item) n,
        fst (Twitter._run_actor_and_get_items w n) = Returned [] ->
        fst (Twitter._scrape_replies w n) = Returned [])
  /\ (forall (w : world (gmap string pyval)) n,
        fst (Twitter._run_actor_and_get_items w n) = Returned [] ->
        fst (Twitter._scrape_retweeters w n) = Returned [])
  /\ (forall (I : Type) (a : attempt I),
        Instagram.try_attempt a = None
        <-> call a = CallRaises
            \/ call a = CallReturns None
            \/ exists run,
                 call a = CallReturns (Some run)
                 /\ truthy (dict_get_none run "defaultDatasetId") = true
                 /\ iterate_items a = None)
  /\ (forall (I : Type) (w : world I) n run,
        call (w n) = CallReturns (Some run) ->
        truthy (dict_get_none run "defaultDatasetId") = false ->
        Instagram._run_apify_actor w n = ([], S n))
  /\ (forall (I : Type) (w : world I) n,
        Instagram.try_attempt (w n) = None ->
        Instagram.try_attempt (w (S n)) = None ->
        Instagram.try_attempt (w (S (S n))) = None ->
        Instagram._run_apify_actor w n = ([], S (S (S n))))
  /\ (forall (w : world Instagram.item) n include_comments max_comments,
        fst (Instagram._run_apify_actor w n) = [] ->
        fst (Instagram.scrape_post_urls w n include_comments max_comments)
        = Returned []).
Proof.
  repeat apply conj.
  - apply scrape_comments_returns.
  - intros w n post_url Hc. unfold Facebook._scrape_comments.
    destruct (_ || _); [done|]. by rewrite Hc.
  - intros w n post_url run Hc Hrun. unfold Facebook._scrape_comments.
    destruct (_ || _); [done|]. rewrite Hc.
    destruct Hrun as [->|[->|Hrun]]; [done|done|].
    rewrite Hrun. cbn. by rewrite orb_true_r.
  - intros w n post_url Hi. unfold Facebook._scrape_comments.
    destruct (_ || _); [done|]. destruct (call (w n)); [done|].
    destruct (_ || _); [done|]. by rewrite Hi.
  - intros w posts n. unfold Facebook.scrape_comments_loop.
    destruct (scrape_comments_loop_from w posts [] n) as (complete & n' & -> & H).
    by exists complete.
  - intros I w n Hc. unfold Twitter._run_actor_and_get_items. by rewrite Hc.
  - intros I w n run Hc Hid. unfold Twitter._run_actor_and_get_items.
    by rewrite Hc, Hid.
  - intros I w n run Hc Hi. unfold Twitter._run_actor_and_get_items.
    rewrite Hc, Hi. by destruct (negb _).
  - intros w n. unfold Twitter._scrape_replies.
    destruct (Twitter._run_actor_and_get_items w n) as [[items|e] n']; [|done].
    by intros [= ->].
  - intros w n. unfold Twitter._scrape_retweeters.
    destruct (Twitter._run_actor_and_get_items w n) as [[items|e] n']; [|done].
    by intros [= ->].
  - intros I a. unfold Instagram.try_attempt.
    destruct (call a) as [|[run|]]; [by split; auto| |by split; auto].
    destruct (truthy _) eqn:Hid; cbn [negb].
    + split.
      * intros Hi. right; right. by exists run.
      * by intros [|[|(run' & _ & _ & Hi)]].
    + split; [done|]. intros [|[|(run' & [= <-] & Ht & _)]]; congruence.
  - intros I w n run Hc Hid. rewrite run_apify_actor_unfold.
    unfold Instagram.try_attempt at 1. by rewrite Hc, Hid.
  - intros I w n H1 H2 H3. by rewrite run_apify_actor_unfold, H1, H2, H3.
  - intros w n inc maxc. unfold Instagram.scrape_post_urls.
    destruct (Instagram._run_apify_actor w n) as [items n'].
    cbn [fst]. by intros ->.
Qed.

(** The amended C6 at work: the service raises on every call. *)
Lemma C6_witness_service_always_raises :
  fst (Facebook._scrape_comments always_raises 0 (PStr "https://fb.example/p/1"))
  = Returned []
  /\ fst (Twitter._run_actor_and_get_items
            (always_raises (I := gmap string pyval)) 0) = Returned []
  /\ Instagram._run_apify_actor (always_raises (I := Instagram.item)) 0
     = ([], 3%nat)
  /\ fst (Instagram.scrape_post_urls always_raises 0 true 100) = Returned [].
Proof.
  destruct C6_failures_give_empty_results
    as (_ & Hfb & _ & _ & _ & Htw & _ & _ & _ & _ & _ & _ & Hig & Hcaller).
  split; [by apply Hfb|].
  split; [by apply Htw|].
  split; [by apply Hig|].
  apply Hcaller. by rewrite Hig.
Defined.

(** ** Facebook: the text clean-up *)

Section FacebookCleaning.

Import Facebook.

Lemma clean_cell_idemp v : clean_cell (Some (clean_cell v)) = clean_cell v.
Proof.
  unfold clean_cell. cbn [fillna_str py_str]. f_equal.
  rewrite !replace_nul_remove. apply normalise_idemp.
Qed.

Lemma clean_cols_lookup cols (r : gmap string pyval) k :
  clean_cols cols r !! k
  = if decide (k ∈ cols) then Some (clean_cell (r !! k)) else r !! k.
Proof.
  revert r. induction cols as [|c cols IH]; intros r.
  - cbn. by rewrite decide_False by apply not_elem_of_nil.
  - change (clean_cols (c :: cols) r)
      with (clean_cols cols (<[c := clean_cell (r !! c)]> r)).
    rewrite IH. destruct (decide (k = c)) as [->|Hne].
    + rewrite lookup_insert_eq, clean_cell_idemp.
      rewrite (decide_True (P := c ∈ c :: cols)) by by left.
      by destruct (decide (c ∈ cols)).
    + rewrite lookup_insert_ne by done.
      destruct (decide (k ∈ cols)) as [Hin|Hout].
      * by rewrite decide_True by by right.
      * rewrite decide_False; [done|]. by intros [?|?]%elem_of_cons.
Qed.

Lemma clean_cols_idemp cols (r : gmap string pyval) :
  clean_cols cols (clean_cols cols r) = clean_cols cols r.
Proof.
  apply map_eq. intros k. rewrite !clean_cols_lookup.
  destruct (decide (k ∈ cols)); [|done]. by rewrite clean_cell_idemp.
Qed.

Lemma has_column_insert df c c' (f : gmap string pyval -> pyval) :
  has_column df c = true ->
  has_column (map (fun r => <[c := f r]> r) df) c' = has_column df c'.
Proof.
  intros Hc. destruct (decide (c' = c)) as [->|Hne].
  - rewrite Hc. destruct df as [|r df]; [done|]. cbn.
    by rewrite lookup_insert_eq.
  - clear Hc. induction df as [|r df IH]; [done|]. cbn.
    rewrite lookup_insert_ne by done. f_equal. apply IH.
Qed.

Lemma has_column_clean_column df c c' :
  has_column (clean_column df c) c' = has_column df c'.
Proof.
  unfold clean_column. destruct (has_column df c) eqn:Hc; [|done].
  by apply has_column_insert.
Qed.

Lemma has_column_clean_loop df cols c' :
  has_column (foldl clean_column df cols) c' = has_column df c'.
Proof.
  revert df. induction cols as [|c cols IH]; intros df; [done|].
  cbn [foldl]. by rewrite IH, has_column_clean_column.
Qed.

(** The column loop of [_clean_dataframe], row by row. *)
Lemma clean_loop_rows df cols :
  foldl clean_column df cols
  = map (clean_cols (List.filter (has_column df) cols)) df.
Proof.
  revert df. induction cols as [|c cols IH]; intros df.
  - cbn. by rewrite map_id.
  - cbn [foldl List.filter]. rewrite IH.
    rewrite (filter_ext _ (has_column df))
      by (intros c'; apply has_column_clean_column).
    unfold clean_column. destruct (has_column df c); [|done].
    by rewrite map_map.
Qed.

(** [_clean_dataframe] is idempotent. *)
Lemma clean_dataframe_idemp df :
  _clean_dataframe (_clean_dataframe df) = _clean_dataframe df.
Proof.
  unfold _clean_dataframe. rewrite (clean_loop_rows (foldl _ _ _)).
  rewrite (filter_ext _ (has_column df))
    by (intros c'; apply has_column_clean_loop).
  rewrite clean_loop_rows, map_map. apply map_ext. intros r.
  apply clean_cols_idemp.
Qed.

End FacebookCleaning.

(** C10. The clean-up of a row is not idempotent, although the clean-up
    of the frame is. [_clean_row] joins the words first and removes the
    NUL characters afterwards, so in "a \x00 b" the NUL survives as a word
    and its removal leaves two adjacent spaces: the first application gives
    "a  b", the second "a b". [_clean_dataframe], which removes the NUL
    characters before it collapses the whitespace, gives the same frame
    when applied twice. *)
Theorem C10_clean_row_not_idempotent :
  Facebook.row_with_nul !! "post_message"
  = Some (PStr ("a " +:+ Text.NULs +:+ " b"))
  /\ Facebook._clean_row Facebook.row_with_nul !! "post_message"
     = Some (PStr "a  b")
  /\ Facebook._clean_row (Facebook._clean_row Facebook.row_with_nul)
       !! "post_message"
     = Some (PStr "a b")
  /\ Facebook._clean_row (Facebook._clean_row Facebook.row_with_nul)
     <> Facebook._clean_row Facebook.row_with_nul
  /\ (forall df,
        Facebook._clean_dataframe (Facebook._clean_dataframe df)
        = Facebook._clean_dataframe df).
Proof.
  split; [by vm_compute|]. split; [by vm_compute|]. split; [by vm_compute|].
  split; [|apply clean_dataframe_idemp].
  intros H. apply (f_equal (fun r => r !! "post_message")) in H.
  vm_compute in H. discriminate H.
Qed.

(** ** The pipelines on concrete scrapes *)

Example final_rows_of_scrape :
  map (fun r => (r !! "post_id", r !! "comment_id", r !! "comment_text"))
      (Facebook.final_rows Facebook.scraped_with_repeat)
  = [ (Some (PStr "p1"), Some (PStr "c1"), Some (PStr "first comment"));
      (Some (PStr "p1"), Some (PStr "c1"), Some (PStr "first comment, again"));
      (Some (PStr "p1"), Some (PStr "c2"), Some (PStr "second"));
      (Some (PStr "p2"), Some (PStr ""), Some (PStr "")) ].
Proof. by vm_compute. Qed.

Example final_frame_of_scrape :
  option_map
    (map (fun r => (cells r !! "comment_id", cells r !! "comment_text",
                    cells r !! "post_engagement_total",
                    cells r !! "dominant_emotion",
                    cells r !! "positive_reactions",
                    cells r !! "negative_reactions",
                    floats r !! "sentiment_ratio",
                    cells r !! "comment_sentiment_label")))
    (Facebook._process_and_save_final no_parse (Some positive_clf)
       Facebook.scraped_with_repeat)
  = Some
      [ (Some (PStr "c1"), Some (PStr "first comment"), Some (PInt 14),
         Some (PStr "love"), Some (PInt 8), Some (PInt 1), Some (8 # 9)%Q,
         Some (PStr "POSITIVE"));
        (Some (PStr "c2"), Some (PStr "second"), Some (PInt 14),
         Some (PStr "love"), Some (PInt 8), Some (PInt 1), Some (8 # 9)%Q,
         Some (PStr "POSITIVE"));
        (Some (PStr ""), Some (PStr ""), Some (PInt 0),
         Some (PStr "like"), Some (PInt 0), Some (PInt 0), Some 0%Q,
         Some (PStr "NEUTRAL")) ].
Proof. by vm_compute. Qed.

Example batch_of_texts :
  TwitterSentimentAnalyzer.analyze_text_batch positive_clf
    [PNone; PStr "   "; PStr "nan"; PStr "great"; PInt 7]
  = (["great"; "7"],
     [NEUTRAL; NEUTRAL; NEUTRAL;
      {| label := "POSITIVE"; score := (9 # 10)%Q |};
      {| label := "POSITIVE"; score := (9 # 10)%Q |}]).
Proof. by vm_compute. Qed.

Example batch_when_classifier_raises :
  InstagramSentimentAnalyzer.analyze_text_batch (fun _ => None)
    [PStr "great"; PStr ""]
  = (["great"], [NEUTRAL; NEUTRAL]).
Proof. by vm_compute. Qed.

Example instagram_retries :
  Instagram._run_apify_actor (always_raises (I := Instagram.item)) 5
  = ([], 8%nat).
Proof. by vm_compute. Qed.

(** The Facebook part of C1 on a scrape in which comment [c1] of post
    [p1] comes twice: the file is written, and of the four rows three are
    left, with pairwise different keys. *)
Lemma C1_witness_repeated_comment :
  exists df,
    Facebook._process_and_save_final (fun _ => None) None
      Facebook.scraped_with_repeat = Some df
    /\ length df = 3%nat
    /\ NoDup (map (fun r => key_of ["post_id"; "comment_id"] (cells r)) df).
Proof.
  destruct (C1_final_table_deduplicated (fun _ => None) None
              Facebook.scraped_with_repeat
              (always_raises (I := Instagram.item)) 0 true 100) as [Hfb _].
  cbv zeta in Hfb.
  destruct (Facebook._process_and_save_final _ _ _) as [df|] eqn:Hdf;
    [|discriminate Hfb].
  exists df. destruct Hfb as (Hnodup & Hrows & _).
  split; [reflexivity|]. split; [|exact Hnodup].
  rewrite (Forall2_length _ _ _ Hrows). by vm_compute.
Defined.

(** * Further properties of the pipelines *)

(** ** Facebook: what the frame clean-up leaves in a text cell *)

Section CleanFrameNormalForm.

Import Facebook.


Lemma elem_of_filter_bool {A : Type} (f : A -> bool) (l : list A) x :
  x ∈ List.filter f l <-> x ∈ l /\ f x = true.
Proof. rewrite !list_elem_of_In. apply filter_In. Qed.

End CleanFrameNormalForm.


(** ** Facebook: row counts *)

Section RowCounts.

Lemma drop_duplicates_from_length seen subset df :
  (length (drop_duplicates_from seen subset df) <= length df)%nat.
Proof.
  revert seen. induction df as [|r df IH]; intros seen; cbn; [done|].
  case_bool_decide; [specialize (IH seen)|specialize (IH (key_of subset r :: seen))];
    cbn; lia.
Qed.

Lemma drop_duplicates_from_full seen subset df :
  length (drop_duplicates_from seen subset df) = length df ->
  drop_duplicates_from seen subset df = df.
Proof.
  revert seen. induction df as [|r df IH]; intros seen; cbn; [done|].
  case_bool_decide.
  - pose proof (drop_duplicates_from_length seen subset df). lia.
  - cbn. intros [= H']. by rewrite IH.
Qed.

Lemma drop_duplicates_from_id seen subset df :
  NoDup (map (key_of subset) df) ->
  (forall r, r ∈ df -> key_of subset r ∉ seen) ->
  drop_duplicates_from seen subset df = df.
Proof.
  revert seen. induction df as [|r df IH]; intros seen Hnd Hseen; cbn; [done|].
  cbn in Hnd. apply NoDup_cons in Hnd as [Hr Hnd].
  rewrite bool_decide_eq_false_2 by (apply Hseen; by left).
  f_equal. apply IH; [done|]. intros r' Hr'.
  apply not_elem_of_cons. split; [|apply Hseen; by right].
  intros Heq. apply Hr. rewrite <- Heq. by apply list_elem_of_fmap_2.
Qed.

(** [drop_duplicates] keeps the whole frame exactly when its keys are
    pairwise different. *)
Lemma drop_duplicates_length_iff subset df :
  length (drop_duplicates subset df) = length df
  <-> NoDup (map (key_of subset) df).
Proof.
  split.
  - intros H. apply drop_duplicates_from_full in H.
    rewrite <- H at 1. apply drop_duplicates_from_NoDup.
  - intros H. unfold drop_duplicates.
    rewrite drop_duplicates_from_id; [done|done|].
    intros r _. apply not_elem_of_nil.
Qed.

Lemma clean_loop_length df cols :
  length (foldl Facebook.clean_column df cols) = length df.
Proof. rewrite clean_loop_rows. apply length_map. Qed.

End RowCounts.

(** X2. Row counts of the Facebook pipeline reconcile. The rows before
    deduplication are as many as the scraped comments plus the posts
    without comments. The DataFrame [_process_and_save_final] writes never
    has more rows than that, and has exactly as many when, and only when,
    no two cleaned rows share their ([post_id], [comment_id]) pair. *)
Theorem X2_facebook_row_counts (to_numeric_str : string -> option Z)
    (analyzer : option classifier) (data : list Facebook.post) :
  let total_comments :=
    sum_list (map (fun p => length (Facebook.post_comments p)) data) in
  let without_comments :=
    length (List.filter
              (fun p => bool_decide (Facebook.post_comments p = [])) data) in
  length (Facebook.raw_rows data) = (total_comments + without_comments)%nat
  /\ length (Facebook.final_rows data) = (total_comments + without_comments)%nat
  /\ match Facebook._process_and_save_final to_numeric_str analyzer data with
     | None => data = []
     | Some df =>
         (0 < length df <= total_comments + without_comments)%nat
         /\ (length df = (total_comments + without_comments)%nat
             <-> NoDup (map (key_of ["post_id"; "comment_id"])
                            (Facebook._clean_dataframe
                               (Facebook.final_rows data))))
     end.
Proof.
  cbv zeta.
  assert (Hcount : forall finish,
            length (Facebook.rows_loop finish data)
            = (sum_list (map (fun p => length (Facebook.post_comments p)) data)
               + length (List.filter
                           (fun p => bool_decide (Facebook.post_comments p = []))
                           data))%nat).
  { intros finish. rewrite rows_loop_length.
    induction data as [|p data IH]; [done|]. cbn [map sum_list List.filter].
    rewrite IH. destruct (Facebook.post_comments p) as [|c cs]; cbn; lia. }
  split; [apply Hcount|]. split; [apply Hcount|].
  pose proof (process_and_save_final_rows to_numeric_str analyzer data) as Hrows.
  assert (Hsome : forall df,
            Facebook._process_and_save_final to_numeric_str analyzer data
            = Some df -> Facebook.final_rows data <> []).
  { intros df. unfold Facebook._process_and_save_final.
    by destruct (Facebook.final_rows data). }
  destruct (Facebook._process_and_save_final _ _ _) as [df|]; [|done].
  specialize (Hsome df eq_refl).
  apply Forall2_length in Hrows. rewrite Hrows.
  rewrite <- (Hcount Facebook._clean_row).
  fold (Facebook.final_rows data).
  rewrite <- (clean_loop_length (Facebook.final_rows data) Facebook.text_cols).
  fold (Facebook._clean_dataframe (Facebook.final_rows data)).
  assert (Hne : Facebook._clean_dataframe (Facebook.final_rows data) <> []).
  { intros Hnil. apply (f_equal length) in Hnil.
    unfold Facebook._clean_dataframe in Hnil.
    rewrite clean_loop_length in Hnil.
    by destruct (Facebook.final_rows data). }
  split; [split|].
  - destruct (Facebook._clean_dataframe (Facebook.final_rows data)) as [|r0 rest];
      [done|].
    unfold drop_duplicates. cbn [drop_duplicates_from].
    rewrite bool_decide_eq_false_2 by apply not_elem_of_nil. cbn. lia.
  - apply drop_duplicates_from_length.
  - apply drop_duplicates_length_iff.
Qed.

(** ** Facebook: the coercion of the count columns *)

Section Coercion.

Import Facebook.

Variable to_numeric_str : string -> option Z.

Lemma has_column_false df c (r : gmap string pyval) :
  has_column df c = false -> r ∈ df -> r !! c = None.
Proof.
  unfold has_column. intros Hc Hr.
  destruct (r !! c) as [v|] eqn:Hv; [|done].
  assert (existsb (fun r => bool_decide (is_Some (r !! c))) df = true);
    [|congruence].
  apply existsb_exists. exists r. split; [by apply list_elem_of_In|].
  rewrite Hv. by apply bool_decide_eq_true_2.
Qed.




End Coercion.


(** ** Facebook: which emoji column [idxmax] names *)

Section DominantEmotion.

Import Facebook.


End DominantEmotion.


(** ** Facebook: from a dataset item of the comments actor to a row *)

Section CommentColumns.

Import Facebook.

Lemma dict_merge_lookup_r (a b : gmap string pyval) k v :
  b !! k = Some v -> dict_merge a b !! k = Some v.
Proof. intros H. unfold dict_merge. by apply lookup_union_Some_l. Qed.

Lemma dict_merge_lookup_l (a b : gmap string pyval) k :
  b !! k = None -> dict_merge a b !! k = a !! k.
Proof. intros H. unfold dict_merge. by apply lookup_union_r. Qed.

End CommentColumns.

(** X5. How a dataset item of the comments actor reaches the row of a
    post. In the row built from a post and the comment made of the item,
    the comment columns hold the item's [id], [text], [date],
    [profileName], [likesCount] and [commentsCount] (with the defaults ""
    and 0); both [comment_author_id] and [comment_author_url] hold the
    item's [profileUrl]; and [post_id] is the post's own id, whatever
    [facebookId] the item carries. *)
Theorem X5_comment_item_columns (p : Facebook.post) (item : gmap string pyval) :
  let row :=
    dict_merge (Facebook._flatten_post p)
      (Facebook._flatten_comment (Facebook.comment_of_item item)) in
  row !! "comment_id" = Some (dict_get item "id" (PStr ""))
  /\ row !! "comment_text" = Some (dict_get item "text" (PStr ""))
  /\ row !! "comment_timestamp" = Some (dict_get item "date" (PStr ""))
  /\ row !! "comment_author_id" = Some (dict_get item "profileUrl" (PStr ""))
  /\ row !! "comment_author_url" = Some (dict_get item "profileUrl" (PStr ""))
  /\ row !! "comment_author_name" = Some (dict_get item "profileName" (PStr ""))
  /\ row !! "comment_reactions" = Some (dict_get item "likesCount" (PInt 0))
  /\ row !! "comment_replies" = Some (dict_get item "commentsCount" (PInt 0))
  /\ row !! "post_id"
     = Some (dict_get (Facebook.post_fields p) "post_id" (PStr ""))
  /\ dom row
     = dom (Facebook._flatten_post p) ∪ dom Facebook._empty_comment.
Proof.
  cbv zeta.
  assert (Hget : forall k k' dflt,
            Facebook.comment_of_item item !! k
            = Some (dict_get item k' dflt) ->
            dict_get (Facebook.comment_of_item item) k dflt
            = dict_get item k' dflt).
  { intros k k' dflt H. unfold dict_get at 1. by rewrite H. }
  repeat apply conj.
  1-8: apply dict_merge_lookup_r;
       unfold Facebook._flatten_comment, dict_of; cbn [foldl fst snd];
       rewrite ?lookup_insert_ne by done; rewrite lookup_insert_eq; f_equal;
       apply Hget; unfold Facebook.comment_of_item, dict_of; cbn [foldl fst snd];
       rewrite ?lookup_insert_ne by done; by rewrite lookup_insert_eq.
  - rewrite dict_merge_lookup_l.
    + unfold Facebook._flatten_post, dict_of. cbn [foldl fst snd].
      rewrite !lookup_insert_ne by done. by rewrite lookup_insert_eq.
    + unfold Facebook._flatten_comment, dict_of. cbn [foldl fst snd].
      rewrite !lookup_insert_ne by done. apply lookup_empty.
  - unfold dict_merge. rewrite dom_union_L, (comm_L (∪)).
    apply (f_equal (fun d => dom (Facebook._flatten_post p) ∪ d)).
    unfold Facebook._flatten_comment, Facebook._empty_comment, dict_of.
    cbn [foldl fst snd]. by rewrite !dom_insert_L.
Qed.

(** ** Twitter: the rows of a tweet and their sentiment columns *)

Section TwitterRows.

Import Twitter.

Lemma reply_row_cells tid text profile plink tlink r :
  reply_row tid text profile plink tlink r !! "tweet_id" = Some tid
  /\ reply_row tid text profile plink tlink r !! "tweet_text" = Some text
  /\ reply_row tid text profile plink tlink r !! "interaction_type"
     = Some (PStr "reply")
  /\ reply_row tid text profile plink tlink r !! "text"
     = Some (dict_get_none r "text").
Proof.
  unfold reply_row, dict_of. cbn [foldl fst snd].
  repeat split; rewrite ?lookup_insert_ne by done; by rewrite lookup_insert_eq.
Qed.

Lemma retweeter_row_cells tid text profile plink tlink r :
  retweeter_row tid text profile plink tlink r !! "tweet_id" = Some tid
  /\ retweeter_row tid text profile plink tlink r !! "tweet_text" = Some text
  /\ retweeter_row tid text profile plink tlink r !! "interaction_type"
     = Some (PStr "retweeter")
  /\ retweeter_row tid text profile plink tlink r !! "text" = Some (PStr "").
Proof.
  unfold retweeter_row, dict_of. cbn [foldl fst snd].
  repeat split; rewrite ?lookup_insert_ne by done; by rewrite lookup_insert_eq.
Qed.

(** The masked assignment of [analyze_twitter_data], row by row. *)
Lemma fill_replies_rows (g : frame_row -> sentiment) df :
  fill_replies df (map g (filter is_reply df))
  = map (fun r =>
           set_sentiment "interaction_sentiment_label"
             "interaction_sentiment_score" r
             (if is_reply r then g r else NEUTRAL))
        df.
Proof.
  induction df as [|r df IH]; [done|].
  cbn [fill_replies map]. destruct (is_reply r) eqn:Hr.
  - rewrite filter_cons_True by (rewrite Hr; exact I). cbn [map]. by rewrite IH.
  - rewrite filter_cons_False by (rewrite Hr; intros []). by rewrite IH.
Qed.

Lemma is_reply_set_sentiment lab sc r s :
  lab ≠ "interaction_type" -> is_reply (set_sentiment lab sc r s) = is_reply r.
Proof.
  intros H. unfold is_reply, set_sentiment. cbn [cells].
  by rewrite lookup_insert_ne.
Qed.

(** The rows of a tweet, with its main text named. *)
Lemma rows_of_tweet_eq t :
  rows_of_tweet t
  = map (reply_row (tweet_id t) (main_text t) (default ∅ (profile_user t))
           (dict_get (default ∅ (profile_user t)) "url" (PStr ""))
           (dict_get (profile_info t) "tweet_url" (PStr "")))
        (tail (replies t))
    ++ map (retweeter_row (tweet_id t) (main_text t) (default ∅ (profile_user t))
              (dict_get (default ∅ (profile_user t)) "url" (PStr ""))
              (dict_get (profile_info t) "tweet_url" (PStr "")))
         (retweeters t).
Proof. unfold rows_of_tweet, main_text. by destruct (replies t). Qed.

End TwitterRows.

(** X6. The first scraped reply of a tweet is taken for the tweet itself.
    When the reply list of a tweet is not empty, its first entry gives the
    [tweet_text] of every row of the tweet and is not a row itself; only
    with an empty reply list does [tweet_text] come from the profile
    information. The rows of a tweet are its other replies followed by its
    retweeters, all under the tweet's id, the retweeter rows with an empty
    [text]. *)
Theorem X6_first_reply_is_the_tweet (t : Twitter.tweet_data) :
  let main_tweet_text :=
    match Twitter.replies t with
    | first :: _ => dict_get first "text" (PStr "")
    | [] => dict_get (Twitter.profile_info t) "tweet_text" (PStr "")
    end in
  length (Twitter.rows_of_tweet t)
  = (length (tail (Twitter.replies t)) + length (Twitter.retweeters t))%nat
  /\ Forall
       (fun r => r !! "tweet_id" = Some (Twitter.tweet_id t)
                 /\ r !! "tweet_text" = Some main_tweet_text)
       (Twitter.rows_of_tweet t)
  /\ map (fun r => (r !! "interaction_type", r !! "text"))
         (Twitter.rows_of_tweet t)
     = map (fun r => (Some (PStr "reply"), Some (dict_get_none r "text")))
           (tail (Twitter.replies t))
       ++ map (fun _ => (Some (PStr "retweeter"), Some (PStr "")))
            (Twitter.retweeters t).
Proof.
  cbv zeta. fold (Twitter.main_text t). rewrite rows_of_tweet_eq.
  split; [by rewrite length_app, !length_map|]. split.
  - apply Forall_app; split; apply Forall_forall;
      intros r (x & -> & _)%list_elem_of_fmap.
    + by destruct (reply_row_cells (Twitter.tweet_id t) (Twitter.main_text t)
                     (default ∅ (Twitter.profile_user t))
                     (dict_get (default ∅ (Twitter.profile_user t)) "url" (PStr ""))
                     (dict_get (Twitter.profile_info t) "tweet_url" (PStr "")) x)
        as (? & ? & _).
    + by destruct (retweeter_row_cells (Twitter.tweet_id t) (Twitter.main_text t)
                     (default ∅ (Twitter.profile_user t))
                     (dict_get (default ∅ (Twitter.profile_user t)) "url" (PStr ""))
                     (dict_get (Twitter.profile_info t) "tweet_url" (PStr "")) x)
        as (? & ? & _).
  - rewrite map_app, !map_map. reflexivity.
Qed.

Lemma spec_sentiment_value_str clf s :
  spec_sentiment_value clf (PStr s) = spec_sentiment clf s.
Proof.
  unfold spec_sentiment_value, spec_sentiment, spec_skipped_value.
  by rewrite bool_decide_eq_false_2.
Qed.


(** ** Instagram: the post URL and the records of an item *)

Section InstagramRecords.

Import Instagram.


Lemma slice_to_length {A : Type} (k : Z) (l : list A) :
  (0 <= k)%Z -> (length (slice_to k l) <= Z.to_nat k)%nat.
Proof.
  intros Hk. unfold slice_to.
  destruct (Z.leb_spec 0 k); [|lia]. rewrite length_take. lia.
Qed.

Lemma base_record_post_url it post_url :
  base_record it post_url !! "post_url" = Some post_url.
Proof.
  unfold base_record, dict_of. cbn [foldl fst snd].
  rewrite !lookup_insert_ne by done. apply lookup_insert_eq.
Qed.

Lemma comment_record_post_url base c :
  comment_record base c !! "post_url" = base !! "post_url".
Proof.
  unfold comment_record, dict_merge, dict_of. cbn [foldl fst snd].
  apply lookup_union_r. rewrite !lookup_insert_ne by done. apply lookup_empty.
Qed.

Lemma no_comment_record_cells base :
  no_comment_record base !! "post_url" = base !! "post_url"
  /\ no_comment_record base !! "comment_id" = Some PNone
  /\ no_comment_record base !! "comment_text" = Some PNone.
Proof.
  unfold no_comment_record, dict_merge, dict_of. cbn [foldl fst snd].
  repeat split.
  - apply lookup_union_r. rewrite !lookup_insert_ne by done. apply lookup_empty.
  - apply lookup_union_Some_l. rewrite !lookup_insert_ne by done.
    apply lookup_insert_eq.
  - apply lookup_union_Some_l. rewrite !lookup_insert_ne by done.
    apply lookup_insert_eq.
Qed.

End InstagramRecords.


Section InstagramRecordFacts.

Import Instagram.

Lemma unified_records_from_Forall (P : gmap string pyval -> Prop)
    include_comments max_comments items acc records :
  (forall it rs,
      records_of_item include_comments max_comments it = Returned rs ->
      Forall P rs) ->
  foldl
    (fun acc it =>
       match acc with
       | Propagated e => Propagated e
       | Returned records =>
           match records_of_item include_comments max_comments it with
           | Propagated e => Propagated e
           | Returned rs => Returned (records ++ rs)
           end
       end)
    acc items = Returned records ->
  (forall rs, acc = Returned rs -> Forall P rs) ->
  Forall P records.
Proof.
  intros HP. revert acc. induction items as [|it items IH]; intros acc; cbn.
  - intros -> H. by apply H.
  - intros Hf Hacc. eapply IH; [exact Hf|].
    intros rs. destruct acc as [recs|e]; [|done].
    destruct (records_of_item _ _ it) as [rs'|e] eqn:Hit; [|done].
    intros [= <-]. apply Forall_app. split; [by apply Hacc|].
    by eapply HP.
Qed.

Lemma unified_records_Forall (P : gmap string pyval -> Prop)
    include_comments max_comments items records :
  (forall it rs,
      records_of_item include_comments max_comments it = Returned rs ->
      Forall P rs) ->
  unified_records include_comments max_comments items = Returned records ->
  Forall P records.
Proof.
  intros HP H. eapply unified_records_from_Forall; [exact HP|exact H|].
  by intros rs [= <-].
Qed.

Lemma records_without_comments max_comments it rs :
  records_of_item false max_comments it = Returned rs ->
  Forall (fun r => r !! "comment_id" = Some PNone) rs.
Proof.
  unfold records_of_item. destruct (post_url_of _) as [url|]; [|done].
  cbv zeta. destruct (latestComments it); intros [= <-];
    repeat constructor; apply no_comment_record_cells.
Qed.

End InstagramRecordFacts.

(** X9. The records one item gives [scrape_post_urls]. An item gives at
    least one record, all under the post URL settled for it; with a
    non-negative [max_comments] it gives at most max(1, max_comments)
    records; and with [include_comments] off, or without a
    [latestComments] key, it gives exactly one record, whose comment
    columns are [None]. It gives no record only by raising, which happens
    exactly when settling its URL raises. *)
Theorem X9_instagram_records_of_item (include_comments : bool)
    (max_comments : Z) (it : Instagram.item) :
  match Instagram.records_of_item include_comments max_comments it with
  | Returned rs =>
      exists post_url,
        Instagram.post_url_of (Instagram.item_fields it) = Returned post_url
        /\ (1 <= length rs)%nat
        /\ ((0 <= max_comments)%Z ->
            (length rs <= Nat.max 1 (Z.to_nat max_comments))%nat)
        /\ Forall (fun r => r !! "post_url" = Some post_url) rs
        /\ (include_comments = false \/ Instagram.latestComments it = None ->
            rs = [Instagram.no_comment_record
                    (Instagram.base_record (Instagram.item_fields it) post_url)]
            /\ Forall (fun r => r !! "comment_id" = Some PNone
                                /\ r !! "comment_text" = Some PNone) rs)
  | Propagated e =>
      Instagram.post_url_of (Instagram.item_fields it) = Propagated e
  end.
Proof.
  unfold Instagram.records_of_item.
  destruct (Instagram.post_url_of _) as [post_url|e]; [|done]. cbv zeta.
  set (comments := match Instagram.latestComments it with
                   | Some _ => _ | None => _ end).
  assert (Hlen : (0 <= max_comments)%Z ->
                 (length comments <= Z.to_nat max_comments)%nat).
  { intros Hk. subst comments. destruct (Instagram.latestComments it); [|cbn; lia].
    destruct include_comments; [by apply slice_to_length|cbn; lia]. }
  assert (Hoff : include_comments = false \/ Instagram.latestComments it = None ->
                 comments = []).
  { subst comments. intros [-> | ->]; [|done].
    by destruct (Instagram.latestComments it). }
  clearbody comments. destruct comments as [|c cs].
  - exists post_url. split; [done|]. split; [done|]. split; [cbn; lia|].
    destruct (no_comment_record_cells
                (Instagram.base_record (Instagram.item_fields it) post_url))
      as (Hurl & Hid & Htext).
    rewrite base_record_post_url in Hurl.
    split; [by repeat constructor|]. intros _. split; [done|].
    by repeat constructor.
  - exists post_url. split; [done|]. split; [cbn; lia|]. split; [|split].
    + intros Hk. specialize (Hlen Hk). rewrite length_map. lia.
    + apply Forall_forall. intros r (c' & -> & _)%list_elem_of_fmap.
      rewrite comment_record_post_url. apply base_record_post_url.
    + intros H. by specialize (Hoff H).
Qed.

(** X10. Scraping post URLs without comments gives one row per post URL.
    With [include_comments] off, no two rows of the DataFrame
    [scrape_post_urls] returns have the same [post_url], and every row has
    [None] as its [comment_id]: two dataset items with the same URL leave
    one row, the first. *)
Theorem X10_instagram_one_row_per_url (w : world Instagram.item) (n : nat)
    (max_comments : Z) :
  match fst (Instagram.scrape_post_urls w n false max_comments) with
  | Returned df =>
      NoDup (map (fun r => r !! "post_url") df)
      /\ Forall (fun r => r !! "comment_id" = Some PNone) df
  | Propagated e =>
      Instagram.unified_records false max_comments
        (fst (Instagram._run_apify_actor w n)) = Propagated e
  end.
Proof.
  rewrite scrape_post_urls_frame.
  destruct (Instagram.unified_records _ _ _) as [records|e] eqn:Hrec; [|done].
  pose proof (unified_records_Forall _ _ _ _ _
                (records_without_comments max_comments) Hrec) as Hnone.
  destruct (drop_duplicates_spec ["post_url"; "comment_id"] records)
    as (_ & Hnodup & Hfirst & _).
  assert (Hdf : Forall (fun r => r !! "comment_id" = Some PNone)
                  (drop_duplicates ["post_url"; "comment_id"] records)).
  { apply Forall_forall. intros r Hr. rewrite Forall_forall in Hnone.
    apply Hnone. apply Hfirst in Hr.
    by apply first_with_key_Some in Hr as [Hin _]. }
  split; [|done].
  revert Hnodup Hdf.
  generalize (drop_duplicates ["post_url"; "comment_id"] records). intros df.
  induction df as [|r df IH]; cbn [map]; intros Hnd Hall; [constructor|].
  apply NoDup_cons in Hnd as [Hr Hnd]. apply Forall_cons in Hall as [Hr0 Hall].
  constructor; [|by apply IH].
  intros (r' & Heq & Hr')%list_elem_of_fmap. apply Hr.
  apply list_elem_of_fmap. exists r'. split; [|done].
  rewrite Forall_forall in Hall. specialize (Hall r' Hr').
  unfold key_of, dict_get_none, dict_get. cbn [map].
  by rewrite Heq, Hr0, Hall.
Qed.

(** ** Facebook: the row clean-up on text without NUL *)

Section CleanRowFacts.

Import Text.

Lemma append_cons c s t : String c s +:+ t = String c (s +:+ t).
Proof. reflexivity. Qed.

Lemma append_empty_r s : s +:+ "" = s.
Proof. induction s as [|c s IH]; [done|]. by rewrite append_cons, IH. Qed.

Lemma append_assoc s1 s2 s3 : (s1 +:+ s2) +:+ s3 = s1 +:+ (s2 +:+ s3).
Proof. induction s1 as [|c s1 IH]; [done|]. by rewrite !append_cons, IH. Qed.

Lemma append_nonempty_l s1 s2 : s1 ≠ "" -> s1 +:+ s2 ≠ "".
Proof. by destruct s1. Qed.

Lemma eqb_empty_false s : s ≠ "" -> String.eqb s "" = false.
Proof. by destruct s. Qed.

(** [split] never gives an empty word. *)
Lemma split_from_nonempty cur s : Forall (fun w => w ≠ "") (split_from cur s).
Proof.
  revert cur. induction s as [|c s IH]; intros cur; cbn.
  - destruct cur; by repeat constructor.
  - destruct (is_space c); [|apply IH].
    destruct cur; [apply IH|]. cbn. constructor; [done|apply IH].
Qed.

Lemma join_nonempty sep (l : list string) :
  l ≠ [] -> Forall (fun w => w ≠ "") l -> join sep l ≠ "".
Proof.
  destruct l as [|w l]; [done|]. intros _ [Hw _]%Forall_cons.
  cbn. destruct l; [done|]. by apply append_nonempty_l.
Qed.

Lemma join_cons sep w (l : list string) :
  join sep (w :: l) = if bool_decide (l = []) then w else w +:+ sep +:+ join sep l.
Proof. by destruct l. Qed.

(** Joining the words of [s] with single spaces: what is left of [s] when
    its whitespace is collapsed and its ends are stripped. *)
Lemma join_split_from s :
  (forall cur, cur ≠ "" ->
     join " " (split_from cur s) = cur +:+ rstrip (collapse_from false s))
  /\ join " " (split_from "" s) = rstrip (collapse_from true s).
Proof.
  induction s as [|c s [IHA IHB]].
  - split; [|done]. intros cur Hcur. cbn.
    rewrite (eqb_empty_false _ Hcur). cbn. by rewrite append_empty_r.
  - split.
    + intros cur Hcur. cbn [split_from collapse_from].
      destruct (is_space c) eqn:Hc.
      * rewrite (eqb_empty_false _ Hcur), join_cons, IHB.
        cbn [rstrip]. rewrite is_space_SP. cbn [andb].
        case_bool_decide as Hnil.
        -- rewrite Hnil in IHB. cbn in IHB. rewrite <- IHB. cbn.
           by rewrite append_empty_r.
        -- assert (Hne : rstrip (collapse_from true s) ≠ "").
           { rewrite <- IHB. apply join_nonempty; [done|apply split_from_nonempty]. }
           by rewrite (eqb_empty_false _ Hne).
      * rewrite IHA by (by apply append_nonempty_l).
        cbn [rstrip]. rewrite Hc. cbn [andb]. by rewrite append_assoc.
    + cbn [split_from collapse_from]. destruct (is_space c) eqn:Hc.
      * cbn. exact IHB.
      * cbn [String.eqb]. rewrite IHA by done. cbn [rstrip]. rewrite Hc. done.
Qed.

Lemma lstrip_rstrip_collapse_true s :
  lstrip (rstrip (collapse_from true s)) = rstrip (collapse_from true s).
Proof.
  induction s as [|c s IH]; [done|]. cbn [collapse_from].
  destruct (is_space c) eqn:Hc; [done|].
  cbn [rstrip]. rewrite Hc. cbn [andb lstrip]. by rewrite Hc.
Qed.

Lemma strip_collapse s : strip (collapse s) = rstrip (collapse_from true s).
Proof.
  unfold strip, collapse. destruct s as [|c s]; [done|]. cbn [collapse_from].
  destruct (is_space c) eqn:Hc.
  - cbn [rstrip]. rewrite is_space_SP. cbn [andb].
    destruct (String.eqb (rstrip (collapse_from true s)) "") eqn:He.
    + apply string_eqb_empty in He. by rewrite He.
    + cbn [lstrip]. rewrite is_space_SP. apply lstrip_rstrip_collapse_true.
  - cbn [rstrip]. rewrite Hc. cbn [andb lstrip]. by rewrite Hc.
Qed.

Lemma join_split s : join " " (split s) = strip (collapse s).
Proof. rewrite strip_collapse. apply join_split_from. Qed.

End CleanRowFacts.

Section CleanRowIdempotence.

Import Facebook.

Lemma clean_text_eq v :
  clean_text v = Text.remove_nul (Text.strip (Text.collapse (py_str v))).
Proof. unfold clean_text. by rewrite replace_nul_remove, join_split. Qed.

Lemma clean_text_nul_free v :
  Text.nul_free (py_str v) = true ->
  clean_text v = Text.strip (Text.collapse (py_str v))
  /\ Text.nul_free (clean_text v) = true
  /\ clean_text (PStr (clean_text v)) = clean_text v.
Proof.
  intros Hv. rewrite !clean_text_eq.
  assert (Hn : Text.nul_free (Text.strip (Text.collapse (py_str v))) = true).
  { by apply nul_free_lstrip, nul_free_rstrip, nul_free_collapse_from. }
  rewrite (remove_nul_id _ Hn). split; [done|]. split; [done|].
  cbn [py_str]. pose proof (normalise_idemp (py_str v)) as Hid. cbv zeta in Hid.
  rewrite (remove_nul_id _ Hv) in Hid. rewrite (remove_nul_id _ Hn) in Hid.
  by rewrite Hid, (remove_nul_id _ Hn).
Qed.

Lemma clean_field_lookup (row : gmap string pyval) field k :
  clean_field row field !! k
  = if decide (k = field)
    then match row !! field with
         | Some v => Some (if truthy v then PStr (clean_text v) else v)
         | None => None
         end
    else row !! k.
Proof.
  unfold clean_field. destruct (decide (k = field)) as [->|Hne].
  - destruct (row !! field) as [v|] eqn:Hv; [|done].
    destruct (truthy v); [by rewrite lookup_insert_eq|done].
  - destruct (row !! field) as [v|]; [|done].
    destruct (truthy v); [by rewrite lookup_insert_ne|done].
Qed.

Lemma clean_field_idemp (row : gmap string pyval) field :
  (forall v, row !! field = Some v -> Text.nul_free (py_str v) = true) ->
  clean_field (clean_field row field) field = clean_field row field.
Proof.
  intros Hnul. apply map_eq. intros k. rewrite !clean_field_lookup.
  destruct (decide (k = field)) as [->|]; [|done].
  rewrite decide_True by done.
  destruct (row !! field) as [v|] eqn:Hv; [|done].
  destruct (truthy v) eqn:Ht; [|by rewrite Ht].
  destruct (clean_text_nul_free v (Hnul v eq_refl)) as (_ & _ & Hid).
  rewrite Hid. by destruct (truthy (PStr (clean_text v))).
Qed.

Lemma clean_field_comm (row : gmap string pyval) f g :
  f ≠ g ->
  clean_field (clean_field row f) g = clean_field (clean_field row g) f.
Proof.
  intros Hne. apply map_eq. intros k. rewrite !clean_field_lookup.
  rewrite (decide_False (P := g = f)) by done.
  rewrite (decide_False (P := f = g)) by done.
  destruct (decide (k = g)) as [Hg|Hg], (decide (k = f)) as [Hf|Hf];
    try done. congruence.
Qed.

Lemma clean_row_idemp (row : gmap string pyval) :
  (forall field v,
      field ∈ ["post_message"; "comment_text"] ->
      row !! field = Some v -> Text.nul_free (py_str v) = true) ->
  _clean_row (_clean_row row) = _clean_row row.
Proof.
  intros Hnul. unfold _clean_row. cbn [foldl].
  rewrite (clean_field_comm (clean_field (clean_field row _) _)) by done.
  rewrite (clean_field_idemp (clean_field row "post_message") "comment_text").
  - rewrite (clean_field_comm (clean_field row "post_message")) by done.
    rewrite (clean_field_idemp row "post_message"); [done|].
    intros v Hv. eapply Hnul; [|exact Hv]. by left.
  - intros v. rewrite clean_field_lookup, decide_False by done.
    intros Hv. eapply Hnul; [|exact Hv]. by right; left.
Qed.

End CleanRowIdempotence.

(** X11. On text without NUL characters the row clean-up is sound.
    [_clean_row] replaces a non-empty text by its words joined with single
    spaces, which is the text with its whitespace runs collapsed and its
    ends stripped, minus the NUL characters. When the [post_message] and
    the [comment_text] of a row hold no NUL character, applying [_clean_row]
    twice gives the same row as applying it once, and what it leaves in
    these cells is what [_clean_dataframe] would leave. *)
Theorem X11_clean_row_without_nul (row : gmap string pyval)
    (Hnul : forall field v,
        field ∈ ["post_message"; "comment_text"] ->
        row !! field = Some v -> Text.nul_free (py_str v) = true) :
  Facebook._clean_row (Facebook._clean_row row) = Facebook._clean_row row
  /\ (forall field v,
        field ∈ ["post_message"; "comment_text"] ->
        row !! field = Some v -> truthy v = true ->
        Facebook._clean_row row !! field
        = Some (PStr (Text.strip (Text.collapse (py_str v))))
        /\ Facebook.clean_cell (Facebook._clean_row row !! field)
           = PStr (Text.strip (Text.collapse (py_str v)))).
Proof.
  split; [by apply clean_row_idemp|].
  intros field v Hf Hv Ht.
  assert (Hrow : Facebook._clean_row row !! field
                 = Some (PStr (Text.strip (Text.collapse (py_str v))))).
  { destruct (clean_text_nul_free v (Hnul field v Hf Hv)) as (Heq & _).
    unfold Facebook._clean_row. cbn [foldl].
    rewrite !elem_of_cons, elem_of_nil in Hf. destruct Hf as [->|[->|[]]].
    - rewrite clean_field_lookup, decide_False by done.
      rewrite clean_field_lookup, decide_True by done.
      by rewrite Hv, Ht, Heq.
    - rewrite clean_field_lookup, decide_True by done.
      rewrite clean_field_lookup, decide_False by done.
      by rewrite Hv, Ht, Heq. }
  split; [done|]. rewrite Hrow. unfold Facebook.clean_cell. cbn [fillna_str py_str].
  rewrite replace_nul_remove. f_equal.
  pose proof (normalise_idemp (py_str v)) as Hid. cbv zeta in Hid.
  by rewrite (remove_nul_id _ (Hnul field v Hf Hv)) in Hid.
Qed.

(** The row of one scraped comment, whose texts hold no NUL. *)
Lemma X11_witness_plain_row :
  Facebook._clean_row
    (Facebook._clean_row
       (dict_merge (Facebook._flatten_post Facebook.post_p1)
          (Facebook._flatten_comment Facebook.comment_c1)))
  = Facebook._clean_row
      (dict_merge (Facebook._flatten_post Facebook.post_p1)
         (Facebook._flatten_comment Facebook.comment_c1)).
Proof.
  refine (proj1 (X11_clean_row_without_nul _ _)).
  intros field v Hf Hv.
  rewrite !elem_of_cons, elem_of_nil in Hf.
  destruct Hf as [->|[->|[]]]; vm_compute in Hv;
    injection Hv as <-; reflexivity.
Defined.

(** ** Facebook: the frame clean-up after the row clean-up *)

Section WordsWithoutNul.

Import Text.











End WordsWithoutNul.

Section FrameAfterRow.

Import Facebook.


Lemma clean_row_lookup (row : gmap string pyval) k :
  _clean_row row !! k
  = if decide (k ∈ ["post_message"; "comment_text"])
    then match row !! k with
         | Some v => Some (if truthy v then PStr (clean_text v) else v)
         | None => None
         end
    else row !! k.
Proof.
  unfold _clean_row. cbn [foldl]. rewrite !clean_field_lookup.
  destruct (decide (k ∈ _)) as [Hin|Hout].
  - rewrite !elem_of_cons, elem_of_nil in Hin.
    destruct Hin as [-> | [-> | []]].
    + rewrite (decide_False (P := "post_message" = "comment_text")) by done.
      by rewrite decide_True by done.
    + rewrite (decide_True (P := "comment_text" = "comment_text")) by done.
      by rewrite (decide_False (P := "comment_text" = "post_message")) by done.
  - rewrite !decide_False; [done|..]; intros ->; apply Hout;
      rewrite !elem_of_cons; auto.
Qed.





End FrameAfterRow.


(** ** Twitter: the scrape of a user's tweets *)

Section TwitterScrape.

Import Twitter.

Lemma run_actor_outcome {I : Type} (w : world I) n :
  (exists items, _run_actor_and_get_items w n = (Returned items, S n)
                 /\ call (w n) ≠ CallReturns None)
  \/ (_run_actor_and_get_items w n = (Propagated "AttributeError", S n)
      /\ call (w n) = CallReturns None).
Proof.
  unfold _run_actor_and_get_items.
  destruct (call (w n)) as [|[run|]]; [left|left|right; done].
  - by eexists.
  - destruct (negb _); [by eexists|].
    destruct (iterate_items (w n)); by eexists.
Qed.

Lemma nth_call_shift svc n k :
  nth_call svc (n + 3) k = nth_call svc n (k + 3).
Proof.
  unfold nth_call.
  replace ((k + 3) mod 3)%nat with (k mod 3)%nat
    by (rewrite <- (Nat.Div0.add_mod_idemp_r k 3 3); cbn; by rewrite Nat.add_0_r).
  by replace (n + 3 + k)%nat with (n + (k + 3))%nat by lia.
Qed.

Lemma scrape_tweet_outcome svc n profile_url username tid :
  match scrape_tweet svc n profile_url username tid with
  | (Returned t, n') =>
      n' = (n + 3)%nat /\ tweet_id t = tid
      /\ forall k, (k < 3)%nat -> nth_call svc n k ≠ CallReturns None
  | (Propagated _, n') =>
      exists k, (k < 3)%nat /\ n' = (n + S k)%nat
                /\ nth_call svc n k = CallReturns None
                /\ forall j, (j < k)%nat -> nth_call svc n j ≠ CallReturns None
  end.
Proof.
  assert (H0 : nth_call svc n 0 = call (profile_actor svc n))
    by (unfold nth_call; cbn; by rewrite Nat.add_0_r).
  assert (H1 : nth_call svc n 1 = call (replies_actor svc (S n)))
    by (unfold nth_call; cbn; by rewrite Nat.add_1_r).
  assert (H2 : nth_call svc n 2 = call (retweeters_actor svc (S (S n))))
    by (unfold nth_call; cbn; by replace (n + 2)%nat with (S (S n)) by lia).
  unfold scrape_tweet, _fetch_profile_info, _scrape_replies, _scrape_retweeters.
  destruct (run_actor_outcome (profile_actor svc) n) as [(p & -> & Hp)|[-> Hp]].
  2:{ exists 0%nat. split; [lia|]. split; [lia|]. split; [congruence|]. lia. }
  assert (Hrest : forall info usr,
    match
      match _scrape_replies (replies_actor svc) (S n) with
      | (Propagated e, n2) => (Propagated e, n2)
      | (Returned replies_list, n2) =>
          match _scrape_retweeters (retweeters_actor svc) n2 with
          | (Propagated e, n3) => (Propagated e, n3)
          | (Returned retweets_list, n3) =>
              (Returned {| tweet_id := tid; profile_info := info;
                           profile_user := usr; replies := replies_list;
                           retweeters := retweets_list |}, n3)
          end
      end
    with
    | (Returned t, n') =>
        n' = (n + 3)%nat /\ tweet_id t = tid
        /\ forall k, (k < 3)%nat -> nth_call svc n k ≠ CallReturns None
    | (Propagated _, n') =>
        exists k, (k < 3)%nat /\ n' = (n + S k)%nat
                  /\ nth_call svc n k = CallReturns None
                  /\ forall j, (j < k)%nat -> nth_call svc n j ≠ CallReturns None
    end).
  { intros info usr. unfold _scrape_replies, _scrape_retweeters.
    destruct (run_actor_outcome (replies_actor svc) (S n))
      as [(rs & -> & Hr)|[-> Hr]].
    2:{ exists 1%nat. split; [lia|]. split; [lia|]. split; [congruence|].
        intros j Hj. assert (j = 0%nat) as -> by lia. congruence. }
    destruct (run_actor_outcome (retweeters_actor svc) (S (S n)))
      as [(ts & -> & Ht)|[-> Ht]].
    - split; [lia|]. split; [done|]. intros k Hk.
      destruct k as [|[|[|k]]]; [congruence..|lia].
    - exists 2%nat. split; [lia|]. split; [lia|]. split; [congruence|].
      intros j Hj. destruct j as [|[|j]]; [congruence..|lia]. }
  destruct p as [|item p]; [apply Hrest|].
  destruct (profile_of_item profile_url username tid item) as [info usr].
  apply Hrest.
Qed.

Lemma scrape_loop_outcome svc profile_url username tweet_ids :
  forall all_data n,
  match
    foldl
      (fun acc tid =>
         match fst acc with
         | Propagated e => acc
         | Returned all_data =>
             match scrape_tweet svc (snd acc) profile_url username tid with
             | (Returned t, n') => (Returned (all_data ++ [t]), n')
             | (Propagated e, n') => (Propagated e, n')
             end
         end)
      (Returned all_data, n) tweet_ids
  with
  | (Returned data, n') =>
      n' = (n + 3 * length tweet_ids)%nat
      /\ (exists new, data = all_data ++ new /\ map tweet_id new = tweet_ids)
      /\ forall k, (k < 3 * length tweet_ids)%nat ->
                   nth_call svc n k ≠ CallReturns None
  | (Propagated _, n') =>
      exists k, (k < 3 * length tweet_ids)%nat /\ n' = (n + S k)%nat
                /\ nth_call svc n k = CallReturns None
                /\ forall j, (j < k)%nat -> nth_call svc n j ≠ CallReturns None
  end.
Proof.
  induction tweet_ids as [|tid tids IH]; intros all_data n.
  - cbn. split; [lia|]. split; [|lia]. exists []. by rewrite app_nil_r.
  - cbn [foldl fst snd].
    pose proof (scrape_tweet_outcome svc n profile_url username tid) as Ht.
    destruct (scrape_tweet svc n profile_url username tid) as [[t|e] n1].
    + destruct Ht as (-> & Htid & Hfirst).
      specialize (IH (all_data ++ [t]) (n + 3)%nat).
      destruct (foldl _ _ tids) as [[data|e] n'].
      * destruct IH as (-> & (new & -> & Hnew) & Hrest).
        split; [cbn [length]; lia|]. split.
        { exists (t :: new). rewrite <- app_assoc. split; [done|].
          cbn [map]. by rewrite Htid, Hnew. }
        intros k Hk. destruct (Nat.lt_ge_cases k 3) as [Hlt|Hge]; [by apply Hfirst|].
        replace k with (k - 3 + 3)%nat by lia. rewrite <- nth_call_shift.
        apply Hrest. cbn [length] in Hk. lia.
      * destruct IH as (k & Hk & -> & Hnone & Hbefore).
        exists (k + 3)%nat. split; [cbn [length]; lia|]. split; [lia|].
        split; [by rewrite <- nth_call_shift|].
        intros j Hj. destruct (Nat.lt_ge_cases j 3) as [Hlt|Hge]; [by apply Hfirst|].
        replace j with (j - 3 + 3)%nat by lia. rewrite <- nth_call_shift.
        apply Hbefore. lia.
    + assert (Hstop : forall l,
        foldl
          (fun acc tid =>
             match fst acc with
             | Propagated e => acc
             | Returned all_data =>
                 match scrape_tweet svc (snd acc) profile_url username tid with
                 | (Returned t, n') => (Returned (all_data ++ [t]), n')
                 | (Propagated e, n') => (Propagated e, n')
                 end
             end)
          (Propagated e, n1) l = (Propagated (A := list tweet_data) e, n1))
        by (induction l; [done|cbn [foldl fst]; auto]).
      rewrite Hstop. destruct Ht as (k & Hk & -> & Hnone & Hbefore).
      exists k. split; [cbn [length]; lia|]. done.
Qed.

Lemma length_filter_map_true {A B : Type} (P : B -> bool) (f : A -> B) l :
  (forall x, P (f x) = true) -> length (List.filter P (map f l)) = length l.
Proof.
  intros H. induction l as [|x l IH]; [done|]. cbn [map List.filter].
  rewrite H. cbn [length]. by rewrite IH.
Qed.

Lemma length_filter_map_false {A B : Type} (P : B -> bool) (f : A -> B) l :
  (forall x, P (f x) = false) -> length (List.filter P (map f l)) = 0%nat.
Proof.
  intros H. induction l as [|x l IH]; [done|]. cbn [map List.filter].
  by rewrite H.
Qed.

Lemma length_filter_map_same {A : Type} (P : A -> bool) (g : A -> A) l :
  (forall x, P (g x) = P x) ->
  length (List.filter P (map g l)) = length (List.filter P l).
Proof.
  intros H. induction l as [|x l IH]; [done|]. cbn [map List.filter].
  rewrite H. destruct (P x); cbn [length]; by rewrite IH.
Qed.

Lemma is_reply_rows_of_tweet t :
  length (List.filter is_reply (map of_cells (rows_of_tweet t)))
  = length (tail (replies t)).
Proof.
  rewrite rows_of_tweet_eq, map_app, List.filter_app, length_app, !map_map.
  rewrite length_filter_map_true, length_filter_map_false; [lia|..].
  - intros r. unfold is_reply, of_cells. cbn [cells].
    apply bool_decide_eq_false_2.
    destruct (retweeter_row_cells (tweet_id t) (main_text t)
                (default ∅ (profile_user t))
                (dict_get (default ∅ (profile_user t)) "url" (PStr ""))
                (dict_get (profile_info t) "tweet_url" (PStr "")) r)
      as (_ & _ & -> & _). congruence.
  - intros r. unfold is_reply, of_cells. cbn [cells].
    apply bool_decide_eq_true_2.
    by destruct (reply_row_cells (tweet_id t) (main_text t)
                   (default ∅ (profile_user t))
                   (dict_get (default ∅ (profile_user t)) "url" (PStr ""))
                   (dict_get (profile_info t) "tweet_url" (PStr "")) r)
      as (_ & _ & -> & _).
Qed.

Lemma final_rows_counts data :
  length (List.filter is_reply (map of_cells (final_rows data)))
  = sum_list (map (fun t => length (tail (replies t))) data)
  /\ length (final_rows data)
     = (sum_list (map (fun t => length (tail (replies t))) data)
        + sum_list (map (fun t => length (retweeters t)) data))%nat.
Proof.
  rewrite final_rows_flat_map.
  induction data as [|t data [IH1 IH2]]; [done|].
  cbn [flat_map map sum_list].
  rewrite map_app, List.filter_app, !length_app, IH1, IH2, is_reply_rows_of_tweet.
  unfold id. split; [done|]. rewrite rows_of_tweet_eq, length_app, !length_map. lia.
Qed.

Lemma sum_replies_with_replies data :
  sum_list (map (fun t => length (replies t)) data)
  = (sum_list (map (fun t => length (tail (replies t))) data)
     + length (with_replies data))%nat.
Proof.
  unfold with_replies. induction data as [|t data IH]; [done|].
  cbn [map sum_list List.filter]. rewrite IH.
  unfold id. destruct (replies t) as [|r rs]; cbn; lia.
Qed.

(** The sentiment step keeps every row a reply row or not as it was. *)
Lemma analyze_twitter_data_replies clf df :
  length (analyze_twitter_data clf df) = length df
  /\ length (List.filter is_reply (analyze_twitter_data clf df))
     = length (List.filter is_reply df).
Proof.
  unfold analyze_twitter_data. destruct df as [|r0 df0]; [done|].
  set (df := r0 :: df0). clearbody df.
  rewrite !twitter_batch_eq. cbn [snd].
  rewrite (map_map _ (spec_sentiment_value clf) df), zip_with_map_r.
  set (df1 := map _ df).
  rewrite (map_map _ (spec_sentiment_value clf) (filter _ df1)).
  rewrite fill_replies_rows. subst df1. rewrite map_map.
  split; [by rewrite length_map|].
  apply length_filter_map_same. intros r.
  by rewrite !is_reply_set_sentiment by done.
Qed.

Lemma process_and_save_final_counts analyzer data :
  match _process_and_save_final analyzer data with
  | Some df =>
      (length (List.filter is_reply df) + length (with_replies data))%nat
      = sum_list (map (fun t => length (replies t)) data)
      /\ length df
         = (length (List.filter is_reply df)
            + sum_list (map (fun t => length (retweeters t)) data))%nat
  | None =>
      sum_list (map (fun t => length (replies t)) data)
      = length (with_replies data)
      /\ sum_list (map (fun t => length (retweeters t)) data) = 0%nat
  end.
Proof.
  destruct (final_rows_counts data) as [Hr Hl].
  rewrite sum_replies_with_replies.
  unfold _process_and_save_final.
  destruct (final_rows data) as [|row rows] eqn:Hrows.
  - cbn [length] in Hl. lia.
  - set (df := map of_cells (row :: rows)) in *.
    assert (Hlen : length df = length (row :: rows)) by apply length_map.
    destruct analyzer as [clf|].
    + destruct (analyze_twitter_data_replies clf df) as [-> ->]. lia.
    + lia.
Qed.

End TwitterScrape.

(** X13. [scrape_from_user] of the Twitter pipeline. With no tweet id it
    calls no actor and reports zeros and no file. Otherwise it calls the
    profile, the replies and the retweeters actor once each per tweet id, in
    this order, and it returns exactly when none of these calls gives [None]
    for a run; the first such call ends it with the exception, after the
    call. When it returns, there is one entry per tweet id, in order; the
    reported [replies] exceed the reply rows of the final table by the
    number of tweets with a scraped reply, and the other rows of the table
    are as many as the reported [retweeters]; without a final table every
    tweet had at most one reply and no retweeter. *)
Theorem X13_scrape_from_user_outcome (analyzer : option classifier)
    (svc : Twitter.service) (n : nat) (user_input : string)
    (tweet_ids : list pyval) :
  match Twitter.scrape_from_user analyzer svc n user_input tweet_ids with
  | (Returned r, n') =>
      n' = (n + 3 * length tweet_ids)%nat
      /\ (forall k, (k < 3 * length tweet_ids)%nat ->
                    Twitter.nth_call svc n k ≠ CallReturns None)
      /\ Twitter.res_tweets r = length tweet_ids
      /\ match Twitter.res_raw_file r with
         | None =>
             tweet_ids = [] /\ Twitter.res_final_file r = None
             /\ Twitter.res_replies r = 0%nat
             /\ Twitter.res_retweeters r = 0%nat
         | Some data =>
             tweet_ids ≠ [] /\ map Twitter.tweet_id data = tweet_ids
             /\ match Twitter.res_final_file r with
                | Some df =>
                    (length (List.filter Twitter.is_reply df)
                     + length (Twitter.with_replies data))%nat
                    = Twitter.res_replies r
                    /\ length df
                       = (length (List.filter Twitter.is_reply df)
                          + Twitter.res_retweeters r)%nat
                | None =>
                    Twitter.res_replies r = length (Twitter.with_replies data)
                    /\ Twitter.res_retweeters r = 0%nat
                end
         end
  | (Propagated _, n') =>
      exists k, (k < 3 * length tweet_ids)%nat /\ n' = (n + S k)%nat
                /\ Twitter.nth_call svc n k = CallReturns None
                /\ forall j, (j < k)%nat ->
                             Twitter.nth_call svc n j ≠ CallReturns None
  end.
Proof.
  unfold Twitter.scrape_from_user.
  destruct (Twitter.normalize_user user_input) as [username profile_url].
  destruct tweet_ids as [|tid tids].
  - cbn. split; [lia|]. split; [lia|]. done.
  - set (tweet_ids := tid :: tids).
    pose proof (scrape_loop_outcome svc profile_url username tweet_ids [] n) as H.
    unfold Twitter.scrape_loop.
    destruct (foldl _ _ tweet_ids) as [[data|e] n']; [|exact H].
    destruct H as (-> & (new & Hdata & Hids) & Hcalls). cbn [app] in Hdata.
    subst new. split; [done|]. split; [done|].
    cbn [Twitter.res_tweets Twitter.res_raw_file Twitter.res_final_file
         Twitter.res_replies Twitter.res_retweeters].
    split; [by rewrite <- Hids, length_map|]. split; [done|].
    split; [done|]. apply process_and_save_final_counts.
Qed.

(** ** Instagram: the sentiment columns *)

Section InstagramSentiment.

Import InstagramSentimentAnalyzer.

Variable clf : classifier.

Lemma spec_sentiment_empty : spec_sentiment clf "" = NEUTRAL.
Proof. reflexivity. Qed.

(** A block of [analyze_instagram_data], row by row: the rows of a frame
    without the column have an empty text each. *)
Lemma analyze_column_rows col lab sc df :
  analyze_column clf col lab sc df
  = map (fun r => set_sentiment lab sc r
                    (spec_sentiment clf (fillna_str (cells r !! col)))) df.
Proof.
  unfold analyze_column. destruct (has_column _ col) eqn:Hcol.
  - rewrite insta_batch_eq. cbn [snd].
    rewrite (map_map _ (spec_sentiment_value clf) df), zip_with_map_r.
    apply map_ext. intros r. by rewrite spec_sentiment_value_str.
  - apply map_ext_in. intros r Hr.
    rewrite (has_column_false _ col (cells r) Hcol).
    + cbn [fillna_str]. by rewrite spec_sentiment_empty.
    + apply list_elem_of_fmap. exists r. split; [done|].
      by apply list_elem_of_In.
Qed.

End InstagramSentiment.


Section InstagramPostUrlFinal.

Import Instagram.

Lemma base_record_source_type it post_url :
  base_record it post_url !! "source_type" = Some (PStr "post_url").
Proof.
  unfold base_record, dict_of. cbn [foldl fst snd].
  rewrite !lookup_insert_ne by done. by rewrite lookup_insert_eq.
Qed.

Lemma records_of_item_source_type include_comments max_comments it rs :
  records_of_item include_comments max_comments it = Returned rs ->
  Forall (fun r => r !! "source_type" = Some (PStr "post_url")) rs.
Proof.
  unfold records_of_item. destruct (post_url_of _) as [url|]; [|done].
  cbv zeta.
  assert (Hbase : forall extra : gmap string pyval,
            extra !! "source_type" = None ->
            dict_merge (base_record (item_fields it) url) extra !! "source_type"
            = Some (PStr "post_url")).
  { intros extra Hextra. unfold dict_merge.
    rewrite lookup_union_r by done. apply base_record_source_type. }
  destruct (match latestComments it with Some _ => _ | None => _ end)
    as [|c cs]; intros [= <-].
  - constructor; [|constructor]. by apply Hbase.
  - change (Forall (fun r => r !! "source_type" = Some (PStr "post_url"))
              (map (comment_record (base_record (item_fields it) url)) (c :: cs))).
    apply Forall_forall. intros r (c' & -> & _)%list_elem_of_fmap.
    apply Hbase. unfold dict_of. cbn [foldl fst snd].
    by rewrite !lookup_insert_ne by done.
Qed.

End InstagramPostUrlFinal.

(** X15. The final table of the Instagram post-URL scrape. Every row of
    the DataFrame [scrape_post_urls] returns carries the source type
    ["post_url"], so the sentiment step takes the mode ["post_url"]: with a
    classifier, [save_final_data] writes, for a DataFrame with rows, the
    same rows in the same order, each with the sentiment of its own
    [post_caption] and of its own [comment_text]; for a DataFrame without
    rows it writes nothing. When [scrape_post_urls] raises, it is building
    the records that raised. *)
Theorem X15_instagram_post_url_final (clf : classifier)
    (w : world Instagram.item) (n : nat) (include_comments : bool)
    (max_comments : Z) :
  match fst (Instagram.scrape_post_urls w n include_comments max_comments) with
  | Returned df =>
      Forall (fun r => r !! "source_type" = Some (PStr "post_url")) df
      /\ Instagram.save_final_data (Some clf) df
         = match df with
           | [] => None
           | _ =>
               Some (map
                 (fun r =>
                    set_sentiment "comment_sentiment_label"
                      "comment_sentiment_score"
                      (set_sentiment "caption_sentiment_label"
                         "caption_sentiment_score" (of_cells r)
                         (spec_sentiment clf (fillna_str (r !! "post_caption"))))
                      (spec_sentiment clf (fillna_str (r !! "comment_text"))))
                 df)
           end
  | Propagated e =>
      Instagram.unified_records include_comments max_comments
        (fst (Instagram._run_apify_actor w n)) = Propagated e
  end.
Proof.
  rewrite scrape_post_urls_frame.
  destruct (Instagram.unified_records _ _ _) as [records|e] eqn:Hrec; [|done].
  pose proof (unified_records_Forall _ _ _ _ _
                (records_of_item_source_type include_comments max_comments) Hrec)
    as Hsrc.
  destruct (drop_duplicates_spec ["post_url"; "comment_id"] records)
    as (_ & _ & Hfirst & _).
  assert (Hdf : Forall (fun r => r !! "source_type" = Some (PStr "post_url"))
                  (drop_duplicates ["post_url"; "comment_id"] records)).
  { apply Forall_forall. intros r Hr. rewrite Forall_forall in Hsrc.
    apply Hsrc. apply Hfirst in Hr.
    by apply first_with_key_Some in Hr as [Hin _]. }
  split; [done|]. revert Hdf.
  generalize (drop_duplicates ["post_url"; "comment_id"] records).
  intros df Hdf. destruct df as [|r0 df0]; [done|].
  unfold Instagram.save_final_data, Instagram._apply_sentiment_analysis.
  f_equal. unfold InstagramSentimentAnalyzer.analyze_instagram_data.
  assert (Hmode : InstagramSentimentAnalyzer._detect_scraping_mode (r0 :: df0)
                  = Some (PStr "post_url")).
  { unfold InstagramSentimentAnalyzer._detect_scraping_mode.
    apply Forall_cons in Hdf as [Hr0 _].
    cbn [has_column existsb]. rewrite Hr0.
    by rewrite bool_decide_eq_true_2 by by eexists. }
  rewrite Hmode. cbn [orb bool_decide].
  rewrite (bool_decide_eq_false_2 (Some (PStr "post_url") = Some (PStr "profile")))
    by done.
  rewrite (bool_decide_eq_true_2 (Some (PStr "post_url") = Some (PStr "post_url")))
    by done.
  cbn [orb]. rewrite !analyze_column_rows, !map_map.
  apply map_ext. intros r. cbn [set_sentiment cells of_cells].
  by rewrite lookup_insert_ne by done.
Qed.

(** ** Instagram: the keyword scrape *)

Section OrderedDict.

Context {V : Type}.

Lemma odict_set_elem_of k (v : V) d x :
  x ∈ odict_set k v d -> x = (k, v) \/ x ∈ d.
Proof.
  induction d as [|[k' v'] d IH]; cbn [odict_set].
  - intros ->%list_elem_of_singleton. by left.
  - case_bool_decide as Hk.
    + rewrite !elem_of_cons. intros [-> | Hx]; auto.
    + rewrite !elem_of_cons. intros [-> | Hx]; [auto|].
      destruct (IH Hx); auto.
Qed.

Lemma odict_set_keys k (v : V) d x :
  x ∈ map fst (odict_set k v d) -> x = k \/ x ∈ map fst d.
Proof.
  intros ([k' v'] & -> & Hin)%list_elem_of_fmap.
  destruct (odict_set_elem_of _ _ _ _ Hin) as [[= -> ->]|Hd]; [by left|].
  right. apply list_elem_of_fmap. by exists (k', v').
Qed.

Lemma odict_set_NoDup k (v : V) d :
  NoDup (map fst d) -> NoDup (map fst (odict_set k v d)).
Proof.
  induction d as [|[k' v'] d IH]; cbn [odict_set map fst].
  - intros _. apply NoDup_singleton.
  - intros [Hk' Hd]%NoDup_cons. case_bool_decide as Hk.
    + subst k'. cbn [map fst]. by apply NoDup_cons.
    + cbn [map fst]. apply NoDup_cons. split; [|by apply IH].
      intros [->|Hin]%odict_set_keys; [done|]. by apply Hk'.
Qed.

Lemma odict_set_length k (v : V) d :
  (length (odict_set k v d) <= S (length d))%nat.
Proof.
  induction d as [|[k' v'] d IH]; cbn [odict_set length]; [lia|].
  case_bool_decide; cbn [length]; lia.
Qed.

End OrderedDict.

Section KeywordScrape.

Import Instagram.

Lemma run_apify_actor_calls {I : Type} (w : world I) n :
  (n < snd (_run_apify_actor w n) <= n + 3)%nat.
Proof.
  rewrite run_apify_actor_unfold.
  destruct (try_attempt (w n)); [cbn; lia|].
  destruct (try_attempt (w (S n))); [cbn; lia|].
  destruct (try_attempt (w (S (S n)))); cbn; lia.
Qed.

Lemma keyword_post_data_url it post_url :
  keyword_post_data it post_url !! "post_url" = Some post_url.
Proof.
  unfold keyword_post_data, dict_of. cbn [foldl fst snd].
  rewrite !lookup_insert_ne by done. by rewrite lookup_insert_eq.
Qed.

Lemma keyword_posts_from items :
  forall post_urls posts_dict m r,
  (NoDup (map fst posts_dict)
   /\ Forall (fun kv => truthy kv.1 = true /\ kv.2 !! "post_url" = Some kv.1)
             posts_dict
   /\ (length posts_dict <= m)%nat) ->
  foldl
    (fun acc it =>
       match acc with
       | Propagated e => Propagated e
       | Returned (post_urls, posts_dict) =>
           match keyword_post_url_of it with
           | Propagated e => Propagated e
           | Returned post_url =>
               if truthy post_url
               then Returned (post_urls ++ [post_url],
                              odict_set post_url (keyword_post_data it post_url)
                                        posts_dict)
               else Returned (post_urls, posts_dict)
           end
       end)
    (Returned (post_urls, posts_dict)) items = Returned r ->
  (NoDup (map fst r.2)
   /\ Forall (fun kv => truthy kv.1 = true /\ kv.2 !! "post_url" = Some kv.1)
             r.2
   /\ (length r.2 <= m + length items)%nat).
Proof.
  induction items as [|it items IH]; intros post_urls posts_dict m r Hinv.
  - cbn. intros [= <-]. cbn. by rewrite Nat.add_0_r.
  - cbn [foldl length].
    destruct (keyword_post_url_of it) as [post_url|e].
    2:{ intros H. exfalso. revert H. clear.
        induction items as [|it' items IH]; [done|]. exact IH. }
    replace (m + S (length items))%nat with (S m + length items)%nat by lia.
    destruct (truthy post_url) eqn:Ht.
    + apply IH. destruct Hinv as (Hnd & Hall & Hlen). split; [|split].
      * by apply odict_set_NoDup.
      * apply Forall_forall. intros kv [->|Hin]%odict_set_elem_of.
        -- cbn. split; [done|apply keyword_post_data_url].
        -- rewrite Forall_forall in Hall. by apply Hall.
      * pose proof (odict_set_length post_url (keyword_post_data it post_url)
                      posts_dict). lia.
    + apply IH. destruct Hinv as (Hnd & Hall & Hlen).
      split; [done|]. split; [done|]. lia.
Qed.

Lemma keyword_posts_inv items r :
  keyword_posts items = Returned r ->
  (NoDup (map fst r.2)
   /\ Forall (fun kv => truthy kv.1 = true /\ kv.2 !! "post_url" = Some kv.1)
             r.2
   /\ (length r.2 <= length items)%nat).
Proof.
  intros H. apply (keyword_posts_from items [] [] 0%nat r); [|exact H].
  split; [constructor|]. split; [constructor|]. cbn. lia.
Qed.

Lemma keyword_record_cells keyword post_data post_comments :
  let r := keyword_record keyword post_data post_comments in
  r !! "post_url" = post_data !! "post_url"
  /\ r !! "source_type" = Some (PStr "keyword")
  /\ r !! "source_value" = Some (PStr keyword)
  /\ r !! "comments_scraped_count"
     = Some (PInt (Z.of_nat (length post_comments)))
  /\ (r !! "all_comments_text" = Some PNone <-> post_comments = []).
Proof.
  cbv zeta. unfold keyword_record, dict_merge, dict_of. cbn [foldl fst snd].
  split; [|split; [|split; [|split]]].
  - rewrite lookup_union_r by (by rewrite !lookup_insert_ne by done).
    by rewrite lookup_union_r by (by rewrite !lookup_insert_ne by done).
  - rewrite lookup_union_r by (by rewrite !lookup_insert_ne by done).
    apply lookup_union_Some_l.
    rewrite lookup_insert_ne by done. by rewrite lookup_insert_eq.
  - rewrite lookup_union_r by (by rewrite !lookup_insert_ne by done).
    apply lookup_union_Some_l. by rewrite lookup_insert_eq.
  - apply lookup_union_Some_l.
    rewrite lookup_insert_ne by done. by rewrite lookup_insert_eq.
  - erewrite lookup_union_Some_l by (by rewrite lookup_insert_eq).
    destruct post_comments as [|c cs]; cbn; [done|]. split; done.
Qed.

End KeywordScrape.

(** X16. The DataFrame of the Instagram keyword scrape. [scrape_keyword]
    makes at most six actor calls, and at most three when comments are
    switched off or there is no cookies file. The DataFrame it returns has
    one row per post URL: no two rows have the same [post_url], every
    [post_url] is truthy, there are at most as many rows as hashtag items,
    and every row carries the source type ["keyword"] and the keyword
    without its leading [#] and surrounding whitespace. In every row
    [all_comments_text] is [None] exactly when [comments_scraped_count] is
    0, which is so in every row when no comment was fetched. When it
    raises, it is settling the post URL of an item that raised. *)
Theorem X16_instagram_keyword_rows (svc : Instagram.keyword_service) (n : nat)
    (keyword : string) (include_comments : bool)
    (cookies_file : option (option (list string))) :
  let hashtag_items :=
    fst (Instagram._run_apify_actor (Instagram.hashtag_actor svc) n) in
  match Instagram.scrape_keyword svc n keyword include_comments cookies_file with
  | (Returned df, n') =>
      (n < n' <= n + 6)%nat
      /\ (length df <= length hashtag_items)%nat
      /\ NoDup (map (fun r => r !! "post_url") df)
      /\ Forall
           (fun r =>
              (exists u, r !! "post_url" = Some u /\ truthy u = true)
              /\ r !! "source_type" = Some (PStr "keyword")
              /\ r !! "source_value"
                 = Some (PStr (Text.strip (Text.lstrip_char Text.HASH keyword)))
              /\ (r !! "all_comments_text" = Some PNone
                  <-> r !! "comments_scraped_count" = Some (PInt 0)))
           df
      /\ (include_comments = false \/ cookies_file = None ->
          (n' <= n + 3)%nat
          /\ Forall (fun r => r !! "comments_scraped_count" = Some (PInt 0)
                              /\ r !! "all_comments_text" = Some PNone) df)
  | (Propagated e, n') =>
      Instagram.keyword_posts hashtag_items = Propagated e
  end.
Proof.
  cbv zeta. unfold Instagram.scrape_keyword.
  pose proof (run_apify_actor_calls (Instagram.hashtag_actor svc) n) as Hn1.
  destruct (Instagram._run_apify_actor (Instagram.hashtag_actor svc) n)
    as [hashtag_items n1].
  cbn [fst snd] in *.
  destruct hashtag_items as [|it0 items0].
  { split; [lia|]. split; [done|]. split; [constructor|].
    split; [constructor|]. intros _. split; [lia|constructor]. }
  set (hashtag_items := it0 :: items0). clearbody hashtag_items.
  destruct (Instagram.keyword_posts hashtag_items) as [[post_urls posts_dict]|e]
    eqn:Hposts; [|done].
  apply keyword_posts_inv in Hposts as (Hnd & Hall & Hlen). cbn [snd] in *.
  set (fetch := if include_comments && negb (bool_decide (post_urls = []))
                then _ else _).
  assert (Hfetch : (n1 <= fetch.2 <= n1 + 3)%nat
                   /\ (include_comments = false \/ cookies_file = None ->
                       fetch = ([], n1))).
  { subst fetch. destruct include_comments; cbn [andb].
    2:{ split; [cbn; lia|done]. }
    destruct (negb _); [|split; [cbn; lia|done]].
    destruct cookies_file as [file|]; [|split; [cbn; lia|done]].
    destruct (Instagram._parse_cookies_file file);
      [split; [cbn; lia|done]|].
    pose proof (run_apify_actor_calls (Instagram.comments_actor svc) n1) as Hn2.
    destruct (Instagram._run_apify_actor (Instagram.comments_actor svc) n1).
    cbn [snd] in *. split; [lia|]. by intros [?|?]. }
  destruct fetch as [comments_dict n2]. cbn [snd] in Hfetch.
  destruct Hfetch as [Hn2 Hnone].
  split; [lia|]. split; [by rewrite length_map|]. split; [|split].
  - rewrite map_map.
    assert (Heq : map (fun kv : pyval * gmap string pyval =>
                         (let '(post_url, post_data) := kv in
                          Instagram.keyword_record
                            (Text.strip (Text.lstrip_char Text.HASH keyword))
                            post_data
                            (default [] (odict_get post_url comments_dict)))
                         !! "post_url") posts_dict
                  = map Some (map fst posts_dict)).
    { rewrite map_map. apply map_ext_in. intros [k d] Hkd%list_elem_of_In.
      rewrite Forall_forall in Hall. destruct (Hall _ Hkd) as [_ Hurl].
      cbn [fst snd] in Hurl.
      by destruct (keyword_record_cells
                     (Text.strip (Text.lstrip_char Text.HASH keyword)) d
                     (default [] (odict_get k comments_dict))) as (-> & _). }
    rewrite Heq. apply NoDup_fmap_2; [|done]. by intros x y [= ->].
  - apply Forall_forall. intros r ([k d] & -> & Hkd)%list_elem_of_fmap.
    rewrite Forall_forall in Hall. destruct (Hall _ Hkd) as [Htruthy Hurl].
    cbn [fst snd] in Htruthy, Hurl.
    destruct (keyword_record_cells
                (Text.strip (Text.lstrip_char Text.HASH keyword)) d
                (default [] (odict_get k comments_dict)))
      as (Hu & Hst & Hsv & Hcount & Htext).
    split; [exists k; by rewrite Hu|]. split; [done|]. split; [done|].
    rewrite Htext, Hcount. split.
    + by intros ->.
    + intros [= H0]. destruct (default [] _); [done|]. cbn in H0. lia.
  - intros Hoff. specialize (Hnone Hoff). injection Hnone as -> ->.
    split; [lia|]. apply Forall_forall.
    intros r ([k d] & -> & Hkd)%list_elem_of_fmap. cbn [odict_get default].
    destruct (keyword_record_cells
                (Text.strip (Text.lstrip_char Text.HASH keyword)) d [])
      as (_ & _ & _ & Hcount & Htext).
    split; [exact Hcount|]. by apply Htext.
Qed.

(** ** Instagram: the cookies file *)

Section Cookies.

Import Text.

Lemma contains_char_cons a b s :
  contains (String a "") (String b s)
  = Ascii.eqb a b || contains (String a "") s.
Proof. cbn [contains starts_with]. by rewrite andb_true_r. Qed.

Lemma contains_char_app a s t :
  contains (String a "") (s +:+ t)
  = contains (String a "") s || contains (String a "") t.
Proof.
  induction s as [|c s IH].
  - cbn [String.append]. by destruct t.
  - rewrite append_cons, !contains_char_cons, IH. by rewrite orb_assoc.
Qed.

Lemma split_on_from_pieces sep cur s :
  contains (String sep "") cur = false ->
  Forall (fun p => contains (String sep "") p = false) (split_on_from sep cur s).
Proof.
  revert cur. induction s as [|c s IH]; intros cur Hcur; cbn [split_on_from].
  - by repeat constructor.
  - destruct (Ascii.eqb c sep) eqn:Hc.
    + constructor; [done|]. by apply IH.
    + apply IH. rewrite contains_char_app, Hcur, contains_char_cons.
      rewrite Ascii.eqb_sym, Hc. done.
Qed.

Lemma cookie_of_line_spec line :
  match Instagram.cookie_of_line line with
  | [] => True
  | [c] =>
      exists name value domain,
        c = dict_of [("name", PStr name); ("value", PStr value);
                     ("domain", PStr domain)]
        /\ starts_with "." domain = true
        /\ contains (String TAB "") name = false
        /\ contains (String TAB "") value = false
        /\ contains (String TAB "") domain = false
  | _ => False
  end.
Proof.
  unfold Instagram.cookie_of_line. cbv zeta.
  destruct (_ || _); [done|].
  pose proof (split_on_from_pieces TAB "" (strip line) eq_refl) as Hall.
  fold (split_on TAB (strip line)) in Hall.
  destruct (split_on TAB (strip line)) as [|p0 [|p1 [|p2 [|p3 [|p4 [|p5 [|p6 ps]]]]]]];
    try done.
  apply Forall_cons in Hall as [H0 Hall].
  do 4 apply Forall_cons in Hall as [_ Hall].
  apply Forall_cons in Hall as [H5 Hall].
  apply Forall_cons in Hall as [H6 _].
  exists p5, p6, (if starts_with "." p0 then p0 else "." +:+ p0).
  split; [done|]. split; [|split; [done|split; [done|]]].
  - destruct (starts_with "." p0) eqn:Hs; [done|]. cbn. by destruct p0.
  - destruct (starts_with "." p0); [done|].
    by rewrite contains_char_app, H0.
Qed.

End Cookies.

(** X17. The cookies [_parse_cookies_file] reads. Every cookie holds
    exactly a name, a value and a domain; its domain starts with a dot, and
    none of the three holds a tab. A line gives at most one cookie, so there
    are at most as many cookies as lines, and a file that cannot be opened
    gives none. *)
Theorem X17_parsed_cookies (file : option (list string)) :
  Forall
    (fun c =>
       exists name value domain,
         c = dict_of [("name", PStr name); ("value", PStr value);
                      ("domain", PStr domain)]
         /\ Text.starts_with "." domain = true
         /\ Text.contains (String Text.TAB "") name = false
         /\ Text.contains (String Text.TAB "") value = false
         /\ Text.contains (String Text.TAB "") domain = false)
    (Instagram._parse_cookies_file file)
  /\ (length (Instagram._parse_cookies_file file) <= length (default [] file))%nat
  /\ (file = None -> Instagram._parse_cookies_file file = []).
Proof.
  destruct file as [lines|]; [|by repeat constructor].
  unfold Instagram._parse_cookies_file.
  change (default [] (Some lines)) with lines.
  assert (Hflat : forall acc,
            foldl (fun cookies_list line =>
                     cookies_list ++ Instagram.cookie_of_line line) acc lines
            = acc ++ flat_map Instagram.cookie_of_line lines).
  { induction lines as [|l lines IH]; intros acc; cbn.
    - by rewrite app_nil_r.
    - by rewrite IH, <- app_assoc. }
  rewrite Hflat. clear Hflat. cbn [app]. split; [|split; [|done]].
  - induction lines as [|l lines IH]; [constructor|]. cbn [flat_map].
    apply Forall_app. split; [|exact IH].
    pose proof (cookie_of_line_spec l) as Hl.
    destruct (Instagram.cookie_of_line l) as [|c [|c' cs]]; [constructor| |done].
    by constructor.
  - induction lines as [|l lines IH]; [done|]. cbn [flat_map length].
    rewrite length_app.
    pose proof (cookie_of_line_spec l) as Hl.
    destruct (Instagram.cookie_of_line l) as [|c [|c' cs]]; cbn [length];
      [lia|lia|done].
Qed.

(** ** Facebook: the scrape of the posts *)

(** X18. [_normalize_group_url] gives a group URL with a scheme. What it
    returns starts with ["http"], holds ["facebook.com/groups/"], is the
    given URL or the given URL after ["https://"], and is returned
    unchanged when normalised again; it returns [None] only for the empty
    URL or for one that, once it has a scheme, does not hold
    ["facebook.com/groups/"]. *)
Theorem X18_group_url_normalised (url : string) :
  match Facebook._normalize_group_url url with
  | Some u =>
      Text.starts_with "http" u = true
      /\ Text.contains "facebook.com/groups/" u = true
      /\ (u = url
          \/ (Text.starts_with "http" url = false /\ u = "https://" +:+ url))
      /\ Facebook._normalize_group_url u = Some u
  | None =>
      url = ""
      \/ Text.contains "facebook.com/groups/"
           (if Text.starts_with "http" url then url else "https://" +:+ url)
         = false
  end.
Proof.
  unfold Facebook._normalize_group_url.
  destruct (String.eqb url "") eqn:He.
  { left. by apply String.eqb_eq. }
  destruct (Text.starts_with "http" url) eqn:Hs; cbn [negb];
    destruct (Text.contains "facebook.com/groups/" _) eqn:Hc; cbn [negb];
    try (by right).
  - split; [done|]. split; [done|]. split; [by left|].
    rewrite He, Hs. cbn [negb]. by rewrite Hc.
  - split; [done|]. split; [done|]. split; [by right|].
    change (String.eqb ("https://" +:+ url) "") with false.
    change (Text.starts_with "http" ("https://" +:+ url)) with true.
    cbn [negb]. by rewrite Hc.
Qed.

Section UniquePosts.

Import Facebook.

Lemma unique_posts_from (P : post -> Prop) all_posts :
  forall d : odict post,
  NoDup (map fst d) ->
  Forall (fun kp => kp.1 = dict_get_none (post_fields kp.2) "post_id" /\ P kp.2) d ->
  Forall P all_posts ->
  let d' :=
    foldl (fun d p => odict_set (dict_get_none (post_fields p) "post_id") p d)
          d all_posts in
  NoDup (map fst d')
  /\ Forall (fun kp => kp.1 = dict_get_none (post_fields kp.2) "post_id" /\ P kp.2) d'
  /\ (length d' <= length d + length all_posts)%nat
  /\ (d = [] -> all_posts ≠ [] -> d' ≠ []).
Proof.
  induction all_posts as [|p ps IH]; intros d Hnd Hall HP; cbv zeta.
  - cbn. split; [done|]. split; [done|]. split; [lia|]. done.
  - cbn [foldl]. apply Forall_cons in HP as [Hp HP].
    set (d1 := odict_set (dict_get_none (post_fields p) "post_id") p d).
    assert (Hnd1 : NoDup (map fst d1)) by by apply odict_set_NoDup.
    assert (Hall1 : Forall (fun kp => kp.1 = dict_get_none (post_fields kp.2) "post_id"
                                      /\ P kp.2) d1).
    { apply Forall_forall. intros kp [->|Hin]%odict_set_elem_of; [done|].
      rewrite Forall_forall in Hall. by apply Hall. }
    destruct (IH d1 Hnd1 Hall1 HP) as (H1 & H2 & H3 & H4).
    split; [done|]. split; [done|]. split.
    + pose proof (odict_set_length (dict_get_none (post_fields p) "post_id") p d).
      cbn [length]. fold d1 in H. lia.
    + intros _ _. clear -IH HP Hnd1 Hall1.
      assert (Hne : d1 ≠ []).
      { subst d1. destruct d as [|[k v] d]; cbn; [done|]. by case_bool_decide. }
      revert Hne. generalize d1. clear. induction ps as [|q qs IHq]; [done|].
      intros d1 Hne. cbn [foldl]. apply IHq.
      destruct d1 as [|[k v] d1]; [done|]. cbn. by case_bool_decide.
Qed.

Lemma unique_posts_spec (P : post -> Prop) all_posts :
  Forall P all_posts ->
  NoDup (map (fun p => dict_get_none (post_fields p) "post_id")
             (unique_posts all_posts))
  /\ Forall P (unique_posts all_posts)
  /\ (length (unique_posts all_posts) <= length all_posts)%nat
  /\ (all_posts ≠ [] -> unique_posts all_posts ≠ []).
Proof.
  intros HP. unfold unique_posts.
  destruct (unique_posts_from P all_posts [] (NoDup_nil_2 (A := pyval))
              (Forall_nil_2 _) HP) as (Hnd & Hall & Hlen & Hne).
  set (d := foldl _ _ _) in *. split; [|split; [|split]].
  - rewrite map_map.
    replace (map (fun kp : pyval * post =>
                    dict_get_none (post_fields kp.2) "post_id") d)
      with (map fst d); [done|].
    apply map_ext_in. intros kp Hkp%list_elem_of_In.
    rewrite Forall_forall in Hall. by destruct (Hall kp Hkp).
  - apply Forall_fmap. eapply Forall_impl; [exact Hall|]. by intros kp [_ ?].
  - rewrite length_map. cbn in Hlen. lia.
  - intros H. specialize (Hne eq_refl H). by destruct d.
Qed.

End UniquePosts.

Section ScrapedPosts.

Import Facebook.

Ltac post_cell :=
  unfold dict_of; cbn [foldl fst snd post_fields];
  rewrite ?lookup_insert_ne by done; by rewrite lookup_insert_eq.

Lemma post_of_page_item_cells item now :
  post_comments (post_of_page_item item now) = []
  /\ post_fields (post_of_page_item item now) !! "post_id"
     = Some (dict_get (page_fields item) "post_id" (PStr "")).
Proof. split; [done|]. unfold post_of_page_item. post_cell. Qed.

Lemma post_of_group_item_cells item now p :
  post_of_group_item item now = Some p ->
  post_comments p = []
  /\ is_Some (post_fields p !! "post_id")
  /\ Forall (fun c => post_fields p !! c = Some (PInt 0)) emoji_cols
  /\ post_fields p !! "type" = Some (PStr "post").
Proof.
  unfold post_of_group_item.
  destruct (dict_get (group_fields item) "url" (PStr "")) as [| |u]; try done.
  intros [= <-]. split; [done|]. split; [|split].
  - eexists. post_cell.
  - unfold emoji_cols. repeat (constructor; [post_cell|]). constructor.
  - post_cell.
Qed.

Lemma posts_of_run_Forall {I : Type} (P : post -> Prop) (a : posts_attempt I)
    appended :
  (forall items, Forall P (appended items)) ->
  Forall P (posts_of_run a appended).
Proof.
  intros H. unfold posts_of_run. destruct (posts_call a); [constructor|].
  destruct (_ || _); [constructor|apply H].
Qed.

Lemma group_posts_Forall items :
  Forall (fun p => post_comments p = []
                   /\ is_Some (post_fields p !! "post_id")
                   /\ Forall (fun c => post_fields p !! c = Some (PInt 0)) emoji_cols
                   /\ post_fields p !! "type" = Some (PStr "post"))
         (group_posts items).
Proof.
  induction items as [|[item now] items IH]; [constructor|]. cbn [group_posts].
  destruct (post_of_group_item item now) as [p|] eqn:Hp; [|constructor].
  constructor; [|exact IH]. by eapply post_of_group_item_cells.
Qed.

Lemma page_posts_Forall (items : list (page_item * string)) :
  Forall (fun p => post_comments p = [] /\ is_Some (post_fields p !! "post_id"))
         (map (fun '(item, now) => post_of_page_item item now) items).
Proof.
  apply Forall_fmap, Forall_forall. intros [item now] _.
  destruct (post_of_page_item_cells item now) as [H1 H2].
  split; [exact H1|]. eexists. exact H2.
Qed.

Lemma NoDup_post_ids (posts : list post) :
  Forall (fun p => is_Some (post_fields p !! "post_id")) posts ->
  NoDup (map (fun p => dict_get_none (post_fields p) "post_id") posts) ->
  NoDup (map (fun p => post_fields p !! "post_id") posts).
Proof.
  intros Hall Hnd.
  replace (map (fun p => post_fields p !! "post_id") posts)
    with (map Some (map (fun p => dict_get_none (post_fields p) "post_id") posts)).
  - apply NoDup_fmap_2; [|done]. by intros x y [= ->].
  - rewrite map_map. apply map_ext_in. intros p Hp%list_elem_of_In.
    rewrite Forall_forall in Hall. destruct (Hall p Hp) as [v Hv].
    unfold dict_get_none, dict_get. by rewrite Hv.
Qed.

End ScrapedPosts.

(** X19. The posts [_scrape_posts_with_reactions] returns. No two of them
    have the same [post_id], each has a [post_id] and an empty comment
    list, and they come from at most two actor calls. In group mode there
    is one call, or none at all and no post when the group URL is not
    valid, and every post has the type ["post"] and 0 for each of the
    seven emoji counts; in every other mode there are exactly two
    calls. *)
Theorem X19_scraped_posts_unique (svc : Facebook.posts_service) (n : nat)
    (search_term mode : string) :
  let posts := fst (Facebook._scrape_posts_with_reactions svc n search_term mode) in
  let n' := snd (Facebook._scrape_posts_with_reactions svc n search_term mode) in
  NoDup (map (fun p => Facebook.post_fields p !! "post_id") posts)
  /\ Forall (fun p => Facebook.post_comments p = []
                      /\ is_Some (Facebook.post_fields p !! "post_id")) posts
  /\ (if String.eqb mode "group"
      then match Facebook._normalize_group_url search_term with
           | None => posts = [] /\ n' = n
           | Some _ =>
               n' = S n
               /\ (length posts
                   <= length (Facebook.posts_items (Facebook.group_actor svc n)))%nat
           end
           /\ Forall
                (fun p =>
                   Forall (fun c => Facebook.post_fields p !! c = Some (PInt 0))
                          Facebook.emoji_cols
                   /\ Facebook.post_fields p !! "type" = Some (PStr "post"))
                posts
      else n' = S (S n)
           /\ (length posts
               <= length (Facebook.posts_items (Facebook.posts_actor svc n))
                  + length (Facebook.posts_items (Facebook.posts_actor svc (S n))))%nat).
Proof.
  cbv zeta. unfold Facebook._scrape_posts_with_reactions.
  destruct (String.eqb mode "group").
  - destruct (Facebook._normalize_group_url search_term) as [group_url|].
    2:{ cbn. split; [constructor|]. split; [constructor|]. split; [done|constructor]. }
    cbn [fst snd].
    set (all_posts := Facebook.posts_of_run _ _).
    assert (Hall : Forall
              (fun p => Facebook.post_comments p = []
                        /\ is_Some (Facebook.post_fields p !! "post_id")
                        /\ Forall (fun c => Facebook.post_fields p !! c = Some (PInt 0))
                                  Facebook.emoji_cols
                        /\ Facebook.post_fields p !! "type" = Some (PStr "post"))
              all_posts)
      by (apply posts_of_run_Forall; intros items; apply group_posts_Forall).
    destruct (unique_posts_spec _ all_posts Hall) as (Hnd & HP & Hlen & _).
    split; [|split; [|split; [split; [done|]|]]].
    + apply NoDup_post_ids; [|done].
      eapply Forall_impl; [exact HP|]. by intros p (_ & ? & _).
    + eapply Forall_impl; [exact HP|]. by intros p (? & ? & _).
    + etrans; [exact Hlen|]. subst all_posts. unfold Facebook.posts_of_run.
      destruct (Facebook.posts_call _); [cbn; lia|].
      destruct (_ || _); [cbn; lia|].
      generalize (Facebook.posts_items (Facebook.group_actor svc n)). clear.
      induction l as [|[item now] l IH]; [done|]. cbn [Facebook.group_posts].
      destruct (Facebook.post_of_group_item item now); cbn [length]; lia.
    + eapply Forall_impl; [exact HP|]. by intros p (_ & _ & ? & ?).
  - cbn [fst snd].
    set (all_posts := Facebook.posts_of_run _ _ ++ Facebook.posts_of_run _ _).
    assert (Hall : Forall
              (fun p => Facebook.post_comments p = []
                        /\ is_Some (Facebook.post_fields p !! "post_id"))
              all_posts).
    { apply Forall_app. split; apply posts_of_run_Forall; intros items;
        apply page_posts_Forall. }
    destruct (unique_posts_spec _ all_posts Hall) as (Hnd & HP & Hlen & _).
    split; [|split; [|split; [done|]]].
    + apply NoDup_post_ids; [|done].
      eapply Forall_impl; [exact HP|]. by intros p (_ & ?).
    + done.
    + etrans; [exact Hlen|]. subst all_posts. rewrite length_app.
      unfold Facebook.posts_of_run.
      apply Nat.add_le_mono;
        (destruct (Facebook.posts_call _); [cbn; lia|];
         destruct (_ || _); [cbn; lia|by rewrite length_map]).
Qed.

(** ** Facebook: from the URL to the final table *)

Section ScrapeFromUrl.

Import Facebook.

Variable to_numeric_str : string -> option Z.

Lemma scrape_comments_loop_calls (w : world (gmap string pyval)) posts :
  forall done n,
  (n <= snd (foldl
      (fun acc p =>
         match fst acc with
         | None => acc
         | Some complete_data =>
             match _scrape_comments w (snd acc)
                     (dict_get (post_fields p) "url" (PStr "")) with
             | (Returned comments, n') =>
                 (Some (complete_data
                          ++ [{| post_fields := post_fields p;
                                 post_comments := comments |}]), n')
             | (Propagated _, n') => (None, n')
             end
         end)
      (Some done, n) posts) <= n + length posts)%nat.
Proof.
  induction posts as [|p posts IH]; intros done n; cbn [foldl length]; [cbn; lia|].
  cbn [fst snd].
  pose proof (scrape_comments_calls w n (dict_get (post_fields p) "url" (PStr "")))
    as Hn.
  destruct (scrape_comments_returns w n
              (dict_get (post_fields p) "url" (PStr ""))) as [cs Hcs].
  destruct (_scrape_comments w n _) as [res n1]. cbn [fst snd] in Hcs, Hn.
  subst res.
  specialize (IH (done ++ [{| post_fields := post_fields p;
                              post_comments := cs |}]) n1).
  destruct (_ || _); subst n1; lia.
Qed.

Lemma flatten_post_post_id p :
  _flatten_post p !! "post_id"
  = Some (dict_get (post_fields p) "post_id" (PStr "")).
Proof.
  unfold _flatten_post, dict_of. cbn [foldl fst snd].
  rewrite !lookup_insert_ne by done. by rewrite lookup_insert_eq.
Qed.

Lemma merged_row_post_id p (extra : gmap string pyval) :
  extra !! "post_id" = None ->
  _clean_row (dict_merge (_flatten_post p) extra) !! "post_id"
  = Some (dict_get (post_fields p) "post_id" (PStr "")).
Proof.
  intros Hextra. rewrite clean_row_lookup.
  rewrite decide_False
    by (rewrite !elem_of_cons, elem_of_nil; intros [?|[?|[]]]; done).
  unfold dict_merge. rewrite lookup_union_r by done.
  apply flatten_post_post_id.
Qed.

Lemma rows_of_post_post_id p :
  rows_of_post _clean_row p ≠ []
  /\ Forall (fun r => r !! "post_id"
                      = Some (dict_get (post_fields p) "post_id" (PStr "")))
            (rows_of_post _clean_row p).
Proof.
  unfold rows_of_post. destruct (post_comments p) as [|c cs].
  - split; [done|]. constructor; [|constructor].
    apply merged_row_post_id. by vm_compute.
  - split; [done|].
    change (Forall (fun r => r !! "post_id"
                             = Some (dict_get (post_fields p) "post_id" (PStr "")))
              (map (fun c => _clean_row (dict_merge (_flatten_post p)
                                           (_flatten_comment c))) (c :: cs))).
    apply Forall_fmap, Forall_forall. intros c' _. cbn beta.
    apply merged_row_post_id.
    unfold _flatten_comment, dict_of. cbn [foldl fst snd].
    by rewrite !lookup_insert_ne by done.
Qed.

Lemma clean_dataframe_post_id df :
  map (fun r => r !! "post_id") (_clean_dataframe df)
  = map (fun r => r !! "post_id") df.
Proof.
  unfold _clean_dataframe. rewrite clean_loop_rows, map_map.
  apply map_ext. intros r. rewrite clean_cols_lookup.
  rewrite decide_False; [done|].
  intros [Hin _]%elem_of_filter_bool. revert Hin. unfold text_cols.
  rewrite !elem_of_cons, elem_of_nil. intros [?|[?|[?|[?|[]]]]]; done.
Qed.

(** The [post_id] cells of the cleaned frame are those of the posts. *)
Lemma cleaned_post_ids data id :
  Some id ∈ map (fun r => r !! "post_id") (_clean_dataframe (final_rows data))
  <-> id ∈ map (fun p => dict_get (post_fields p) "post_id" (PStr "")) data.
Proof.
  rewrite clean_dataframe_post_id. unfold final_rows.
  rewrite rows_loop_flat_map. rewrite !list_elem_of_fmap. split.
  - intros (r & Hid & Hr). apply list_elem_of_In, in_flat_map in Hr.
    destruct Hr as (p & Hp & Hr). exists p. split; [|by apply list_elem_of_In].
    destruct (rows_of_post_post_id p) as [_ Hall].
    rewrite Forall_forall in Hall. apply list_elem_of_In in Hr.
    rewrite (Hall r Hr) in Hid. by injection Hid.
  - intros (p & -> & Hp). destruct (rows_of_post_post_id p) as [Hne Hall].
    destruct (rows_of_post _clean_row p) as [|r rs] eqn:Hrows; [done|].
    exists r. apply Forall_cons in Hall as [Hr _]. split; [done|].
    apply list_elem_of_In, in_flat_map. exists p.
    split; [by apply list_elem_of_In|]. rewrite Hrows. by left.
Qed.

Lemma Forall2_elem_of_l {A B : Type} (R : A -> B -> Prop) l k x :
  Forall2 R l k -> x ∈ l -> exists y, y ∈ k /\ R x y.
Proof.
  induction 1 as [|a b l k Hab _ IH]; [by intros ?%elem_of_nil|].
  rewrite elem_of_cons. intros [->|Hx].
  - exists b. split; [by left|done].
  - destruct (IH Hx) as (y & Hy & HR). exists y. split; [by right|done].
Qed.

Lemma Forall2_elem_of_r {A B : Type} (R : A -> B -> Prop) l k y :
  Forall2 R l k -> y ∈ k -> exists x, x ∈ l /\ R x y.
Proof.
  induction 1 as [|a b l k Hab _ IH]; [by intros ?%elem_of_nil|].
  rewrite elem_of_cons. intros [->|Hy].
  - exists a. split; [by left|done].
  - destruct (IH Hy) as (x & Hx & HR). exists x. split; [by right|done].
Qed.

(** Deduplication loses no post: the [post_id] cells of the final table
    are exactly those of the posts. *)
Lemma final_table_post_ids analyzer data :
  match _process_and_save_final to_numeric_str analyzer data with
  | None => data = []
  | Some df =>
      (forall id,
          Some id ∈ map (fun row => cells row !! "post_id") df
          <-> id ∈ map (fun p => dict_get (post_fields p) "post_id" (PStr "")) data)
      /\ (length df <= length (final_rows data))%nat
  end.
Proof.
  pose proof (process_and_save_final_rows to_numeric_str analyzer data) as Hrows.
  destruct (_process_and_save_final _ _ _) as [df|]; [|done].
  set (input := _clean_dataframe (final_rows data)) in *.
  destruct (drop_duplicates_spec ["post_id"; "comment_id"] input)
    as (_ & _ & Hfirst & Hkept).
  assert (Hsub : forall r, r ∈ drop_duplicates ["post_id"; "comment_id"] input ->
                           r ∈ input).
  { intros r Hr. apply Hfirst in Hr.
    by apply first_with_key_Some in Hr as [Hin _]. }
  destruct key_not_assigned as [Hpid _].
  split.
  - intros id. rewrite <- cleaned_post_ids. fold input.
    rewrite !list_elem_of_fmap. split.
    + intros (row & Hid & Hrow).
      destruct (Forall2_elem_of_l _ _ _ _ Hrows Hrow) as (r & Hr & Hcells).
      exists r. split; [by rewrite <- Hcells|].
      by apply Hsub.
    + intros (r & Hid & Hr).
      destruct (Hkept r Hr) as (r0 & Hr0 & Hkey).
      destruct (Forall2_elem_of_r _ _ _ _ Hrows Hr0) as (row & Hrow & Hcells).
      exists row. split; [|done]. rewrite Hcells by done.
      assert (His : is_Some (r0 !! "post_id")).
      { assert (Hin : r0 ∈ input) by by apply Hsub.
        assert (Hin' : r0 !! "post_id" ∈ map (fun r => r !! "post_id") input)
          by (apply list_elem_of_fmap; by exists r0).
        destruct (r0 !! "post_id") as [v|] eqn:Hv; [done|].
        exfalso. subst input. rewrite clean_dataframe_post_id in Hin'.
        unfold final_rows in Hin'. rewrite rows_loop_flat_map in Hin'.
        apply list_elem_of_fmap in Hin' as (r1 & Hnone & Hr1).
        apply list_elem_of_In, in_flat_map in Hr1 as (p & _ & Hr1).
        destruct (rows_of_post_post_id p) as [_ Hall].
        rewrite Forall_forall in Hall. apply list_elem_of_In in Hr1.
        by rewrite (Hall r1 Hr1) in Hnone. }
      destruct His as [v Hv]. rewrite Hv.
      injection Hkey as Hk _. unfold dict_get_none, dict_get in Hk.
      rewrite Hv, <- Hid in Hk. cbn in Hk. by subst v.
  - apply Forall2_length in Hrows. rewrite Hrows.
    etrans; [apply drop_duplicates_from_length|].
    subst input. unfold _clean_dataframe. by rewrite clean_loop_length.
Qed.

Lemma scraped_posts_facts (svc : posts_service) n search_term mode :
  let posts := fst (_scrape_posts_with_reactions svc n search_term mode) in
  let n' := snd (_scrape_posts_with_reactions svc n search_term mode) in
  NoDup (map (fun p => post_fields p !! "post_id") posts)
  /\ Forall (fun p => is_Some (post_fields p !! "post_id")) posts
  /\ (n <= n' <= n + 2)%nat.
Proof.
  cbv zeta. unfold _scrape_posts_with_reactions.
  destruct (String.eqb mode "group").
  - destruct (_normalize_group_url search_term) as [group_url|].
    2:{ cbn. split; [constructor|]. split; [constructor|lia]. }
    cbn [fst snd]. set (all_posts := posts_of_run _ _).
    assert (Hall : Forall (fun p => is_Some (post_fields p !! "post_id")) all_posts).
    { apply posts_of_run_Forall. intros items.
      eapply Forall_impl; [apply group_posts_Forall|]. by intros p (_ & ? & _). }
    destruct (unique_posts_spec _ all_posts Hall) as (Hnd & HP & _).
    split; [by apply NoDup_post_ids|]. split; [done|lia].
  - cbn [fst snd]. set (all_posts := posts_of_run _ _ ++ posts_of_run _ _).
    assert (Hall : Forall (fun p => is_Some (post_fields p !! "post_id")) all_posts).
    { apply Forall_app. split; apply posts_of_run_Forall; intros items;
        (eapply Forall_impl; [apply page_posts_Forall|]); by intros p (_ & ?). }
    destruct (unique_posts_spec _ all_posts Hall) as (Hnd & HP & _).
    split; [by apply NoDup_post_ids|]. split; [done|lia].
Qed.

Lemma sum_max_one (data : list post) :
  (sum_list (map (fun p => Nat.max 1 (length (post_comments p))) data)
   <= length data + sum_list (map (fun p => length (post_comments p)) data))%nat.
Proof.
  induction data as [|p data IH]; [done|]. cbn [map sum_list length].
  unfold id in *. lia.
Qed.

End ScrapeFromUrl.

(** X20. [scrape_from_url] loses no post on the way to the final table.
    It always returns, after at most two calls of a posts actor and at
    most one call of the comments actor per post. With no post scraped it
    writes no file and reports zeros. Otherwise it writes both files, the
    posts it reports are the scraped posts, which have pairwise distinct
    [post_id]s, the comments it reports are their comments, and the
    [post_id]s of the final table are exactly those of the scraped posts:
    the deduplication drops no post, so the final table has at least one
    row per post and at most one row per post and per comment. *)
Theorem X20_scrape_from_url_keeps_posts (to_numeric_str : string -> option Z)
    (analyzer : option classifier) (svc : Facebook.posts_service)
    (w : world (gmap string pyval)) (n : nat) (page_url mode : string) :
  match Facebook.scrape_from_url to_numeric_str analyzer svc w n page_url mode with
  | (Some r, n') =>
      (n <= n' <= n + 2 + Facebook.url_posts r)%nat
      /\ match Facebook.url_raw_file r, Facebook.url_final_file r with
         | None, None =>
             Facebook.url_posts r = 0%nat /\ Facebook.url_comments r = 0%nat
         | Some data, Some df =>
             Facebook.url_posts r = length data
             /\ (0 < Facebook.url_posts r)%nat
             /\ Facebook.url_comments r
                = sum_list (map (fun p => length (Facebook.post_comments p)) data)
             /\ NoDup (map (fun p => Facebook.post_fields p !! "post_id") data)
             /\ (forall id,
                    Some id ∈ map (fun row => cells row !! "post_id") df
                    <-> Some id ∈ map (fun p => Facebook.post_fields p !! "post_id")
                                      data)
             /\ (Facebook.url_posts r <= length df
                  <= Facebook.url_posts r + Facebook.url_comments r)%nat
         | _, _ => False
         end
  | (None, _) => False
  end.
Proof.
  unfold Facebook.scrape_from_url.
  destruct (scraped_posts_facts svc n page_url mode) as (Hnd & Hsome & Hn1).
  destruct (Facebook._scrape_posts_with_reactions svc n page_url mode)
    as [posts n1]. cbn [fst snd] in *.
  destruct posts as [|p0 posts0]; [cbn; split; [lia|done]|].
  set (posts := p0 :: posts0) in *.
  assert (Hne : posts ≠ []) by done. clearbody posts.
  unfold Facebook.scrape_comments_loop.
  pose proof (scrape_comments_loop_calls w posts [] n1) as Hn2.
  destruct (scrape_comments_loop_from w posts [] n1)
    as (data & n2 & Heq & Hfields).
  rewrite Heq in Hn2 |- *. cbn [fst snd app] in *.
  assert (Hlen : length data = length posts)
    by (symmetry; by eapply Forall2_length).
  assert (Hids : map (fun p => Facebook.post_fields p !! "post_id") data
                 = map (fun p => Facebook.post_fields p !! "post_id") posts).
  { clear -Hfields. induction Hfields as [|p p' ps ps' Hp _ IH]; [done|].
    cbn [map]. by rewrite Hp, IH. }
  cbn [Facebook.url_posts Facebook.url_raw_file Facebook.url_final_file
       Facebook.url_comments].
  split; [lia|].
  pose proof (final_table_post_ids to_numeric_str analyzer data) as Hfinal.
  destruct (Facebook._process_and_save_final to_numeric_str analyzer data)
    as [df|].
  2:{ subst data. by destruct posts. }
  destruct Hfinal as [Hid Hle].
  assert (Hsome' : Forall (fun p => is_Some (Facebook.post_fields p !! "post_id"))
                     data).
  { apply Forall_forall. intros p Hp.
    assert (Hin : Facebook.post_fields p !! "post_id"
                  ∈ map (fun p => Facebook.post_fields p !! "post_id") data)
      by (apply list_elem_of_fmap; by exists p).
    rewrite Hids in Hin. apply list_elem_of_fmap in Hin as (q & -> & Hq).
    rewrite Forall_forall in Hsome. by apply Hsome. }
  assert (Hiff : forall id,
            id ∈ map (fun p => dict_get (Facebook.post_fields p) "post_id" (PStr ""))
                     data
            <-> Some id ∈ map (fun p => Facebook.post_fields p !! "post_id") data).
  { intros id. rewrite !list_elem_of_fmap. rewrite Forall_forall in Hsome'.
    split; intros (p & Hp & Hin); exists p; (split; [|done]);
      destruct (Hsome' p Hin) as [v Hv]; unfold dict_get in *;
      rewrite Hv in *; cbn in *; congruence. }
  split; [done|]. split; [destruct posts; [done|cbn in Hlen; lia]|].
  split; [done|]. split; [by rewrite Hids|].
  split; [intros id; by rewrite Hid, Hiff|]. split.
  - rewrite <- (length_map (fun p => Facebook.post_fields p !! "post_id") data).
    rewrite <- (length_map (fun row => cells row !! "post_id") df).
    apply submseteq_length, NoDup_submseteq; [by rewrite Hids|].
    intros x Hx. rewrite Forall_forall in Hsome'.
    apply list_elem_of_fmap in Hx as (p & -> & Hp).
    destruct (Hsome' p Hp) as [v Hv]. rewrite Hv. apply Hid, Hiff.
    rewrite <- Hv. apply list_elem_of_fmap. by exists p.
  - etrans; [exact Hle|]. unfold Facebook.final_rows.
    rewrite rows_loop_length. apply sum_max_one.
Qed.
